(** * Stairs bot: the per-user ledger, its date keys, its snapshot migration
      and its write queue, embedded from [src/index.js] (two program texts)
      and [src/unnamed/part_000] (the oldest program text).

    Conventions of the embedding.
    - A JS string is a [string]: one [ascii] per UTF-16 code unit, code
      units below 256.  The Ukrainian labels of the source are kept in their
      UTF-8 spelling; only their being non-empty is ever used.
    - A JS number is a double.  The numbers of the ledger (an amount that
      passed [Number.isInteger], a total, a value of [days]) are the doubles
      that are integers, written as the [Z] they are; every other result
      of [Number] (NaN, the infinities, fractions) is [JNonInt].  [+] and
      [-] on them give the exact result rounded to the nearest double, ties
      to the even significand ([round53]): exact up to 2^53, not beyond.
      A result beyond the largest double (about 1.8e308), which is Infinity
      in the source, stays an integer here; no statement reaches that far:
      those about all amounts keep the sums at or below 2^53, and the
      examples use sums just above 2^53.
    - A JS object used as a dictionary is a [gmap string _]; a property that
      may be missing is an [option].  The keys are user ids (decimal
      numerals) and date keys, so the properties every JS object inherits
      never come into play.  A [gmap] does not keep the order in which the
      keys were added, which is the order of [Object.values] in the source:
      here [Object.values] lists the values in the order of the [gmap], and
      what is proved of a [reduce] over the values is proved for every
      order of the values.
    - [new Date()] is an input: every handler receives the clock reading. *)

From Stdlib Require Import ZArith Ascii String Lia Bool DecimalString.
From stdpp Require Import gmap strings list fin_maps.

Local Open Scope string_scope.
Local Open Scope Z_scope.

(* ===================================================================== *)
(** ** JavaScript values and operators used by the source                *)
(* ===================================================================== *)

Module JS.

(** The result of [Number(text)] as far as the source inspects it. *)
Inductive jsnum :=
| JInt (z : Z)      (* finite and integral *)
| JNonInt.          (* NaN, Infinity, -Infinity or a fraction *)

(** The double nearest to the integer [z]: integers up to 2^53 in absolute
    value are doubles; beyond, 53 bits of significand are kept, the rest is
    rounded to the nearest, a tie to the even significand. *)
Definition round53 (z : Z) : Z :=
  let a := Z.abs z in
  if a <? 2 ^ 53 then z
  else
    let ulp := 2 ^ (Z.log2 a - 52) in
    let q := a / ulp in
    let r := a mod ulp in
    let q' := if 2 * r <? ulp then q
              else if ulp <? 2 * r then q + 1
              else if Z.even q then q else q + 1 in
    Z.sgn z * (q' * ulp).

(** [x + y] and [x - y] on numbers. *)
Definition jsadd (x y : Z) : Z := round53 (x + y).

Definition jssub (x y : Z) : Z := round53 (x - y).

(** [Number.MAX_SAFE_INTEGER] and [Number.MAX_VALUE]. *)
Definition MAX_SAFE_INTEGER : Z := 2 ^ 53 - 1.

Definition MAX_VALUE : Z := 2 ^ 1024 - 2 ^ 971.

(** [x || 0] for a number that may be missing. *)
Definition or0 (x : option Z) : Z :=
  match x with
  | Some v => if v =? 0 then 0 else v
  | None => 0
  end.

(** [s || dflt] for a string that may be missing: the empty string is falsy. *)
Definition or_str (s : option string) (dflt : string) : string :=
  match s with
  | Some v => if decide (v = "") then dflt else v
  | None => dflt
  end.

(** [Boolean(s)] for a string. *)
Definition truthy_str (s : string) : bool :=
  if decide (s = "") then false else true.

(** [!n] for a number that may be missing. *)
Definition falsy_num (n : option Z) : bool :=
  match n with
  | Some v => v =? 0
  | None => true
  end.

(** White space and line terminators removed by [String.prototype.trim],
    among the code units below 256. *)
Definition is_ws (c : ascii) : bool :=
  let n := nat_of_ascii c in
  ((9 <=? n)%nat && (n <=? 13)%nat) || (n =? 32)%nat || (n =? 160)%nat.

Fixpoint trimStart (s : string) : string :=
  match s with
  | String c r => if is_ws c then trimStart r else s
  | EmptyString => EmptyString
  end.

Definition trimEnd (s : string) : string :=
  String.rev (trimStart (String.rev s)).

Definition trim (s : string) : string := trimEnd (trimStart s).

(** [s.startsWith("/")]. *)
Definition startsWith_slash (s : string) : bool :=
  match s with
  | String c _ => if decide (c = "/"%char) then true else false
  | EmptyString => false
  end.

(** [\d] of a regular expression without the unicode flag. *)
Definition is_digit (c : ascii) : bool :=
  let n := nat_of_ascii c in (48 <=? n)%nat && (n <=? 57)%nat.

Definition is_char (x c : ascii) : bool :=
  if decide (c = x) then true else false.

(** [Number] on one decimal digit. *)
Definition digit_val (c : ascii) : Z := Z.of_nat (nat_of_ascii c) - 48.

(** [Number] on a string of two decimal digits. *)
Definition Number2 (a b : ascii) : Z := 10 * digit_val a + digit_val b.

Definition digit_char (n : Z) : ascii :=
  ascii_of_nat (48 + Z.to_nat (n mod 10)).

(** Two and four digit fields of [Date.prototype.toISOString]. *)
Definition pad2 (n : Z) : string :=
  String (digit_char (n / 10)) (String (digit_char n) "").

Definition pad4 (n : Z) : string :=
  String (digit_char (n / 1000)) (String (digit_char (n / 100)) (pad2 n)).

(** The value of a string of decimal digits. *)
Fixpoint digits_val (acc : Z) (s : string) : option Z :=
  match s with
  | EmptyString => Some acc
  | String c r =>
      if is_digit c then digits_val (10 * acc + digit_val c) r else None
  end.

(** [Number] on an integer numeral: the double nearest to it, an infinity
    when that is beyond [MAX_VALUE]. *)
Definition Number_of_numeral (v : Z) : jsnum :=
  if Z.abs (round53 v) <=? MAX_VALUE then JInt (round53 v) else JNonInt.

(** [Number] on the texts [d...d] and [-d...d] of decimal digits and on the
    empty text; every other text is treated as not a number.  The handlers
    take [Number] as a parameter; this instance serves the examples. *)
Definition Number_decimal (s : string) : jsnum :=
  match s with
  | EmptyString => JInt 0
  | String c r =>
      if decide (c = "-"%char) then
        match r with
        | EmptyString => JNonInt
        | _ => match digits_val 0 r with
               | Some v => Number_of_numeral (- v)
               | None => JNonInt
               end
        end
      else match digits_val 0 s with
           | Some v => Number_of_numeral v
           | None => JNonInt
           end
  end.

(** *** The UTC calendar behind [Date.UTC] and [toISOString] *)

Definition is_leap (y : Z) : bool :=
  ((y mod 4 =? 0) && negb (y mod 100 =? 0)) || (y mod 400 =? 0).

(** Length of month [m0] (0 = January) of year [y]. *)
Definition days_in_month (y m0 : Z) : Z :=
  if m0 =? 1 then (if is_leap y then 29 else 28)
  else if (m0 =? 3) || (m0 =? 5) || (m0 =? 8) || (m0 =? 10) then 30
  else 31.

Definition prev_month (y m0 : Z) : Z * Z :=
  if m0 =? 0 then (y - 1, 11) else (y, m0 - 1).

Definition next_month (y m0 : Z) : Z * Z :=
  if m0 =? 11 then (y + 1, 0) else (y, m0 + 1).

(** Carry a day of month that lies outside the month into the
    neighbouring months, one month per step. *)
Fixpoint roll (fuel : nat) (y m0 d : Z) : Z * Z * Z :=
  match fuel with
  | O => (y, m0, d)
  | S f =>
      if d <? 1 then
        let '(py, pm) := prev_month y m0 in
        roll f py pm (d + days_in_month py pm)
      else if days_in_month y m0 <? d then
        let '(ny, nm) := next_month y m0 in
        roll f ny nm (d - days_in_month y m0)
      else (y, m0, d)
  end.

(** [new Date(Date.UTC(year, month, date))] read back as the UTC calendar
    date (year, month from 0, day of month).  Years 0..99 mean 1900..1999;
    a month outside 0..11 carries into the year, a day outside the month
    carries into the months. *)
Definition Date_UTC (year month date : Z) : Z * Z * Z :=
  let yr := if (0 <=? year) && (year <=? 99) then 1900 + year else year in
  roll (S (Z.to_nat (Z.abs date))) (yr + month / 12) (month mod 12) date.

(** A calendar date: a month 0..11 and a day of that month. *)
Definition valid_date (dt : Z * Z * Z) : Prop :=
  let '(y, m0, d) := dt in 0 <= m0 <= 11 /\ 1 <= d <= days_in_month y m0.

(** [dt.toISOString().slice(0, 10)], for years 0..9999. *)
Definition toISOString_slice10 (dt : Z * Z * Z) : string :=
  let '(y, m0, d) := dt in
  pad4 y +:+ "-" +:+ pad2 (m0 + 1) +:+ "-" +:+ pad2 d.

(** *** The day number of a calendar date

    Not in the source: the count of days used to say which date a day or a
    month outside its range is carried to. *)

(** Leap years from year 0 up to, not including, [y]. *)
Definition leaps_before (y : Z) : Z :=
  (y + 3) / 4 - (y + 99) / 100 + (y + 399) / 400.

Definition days_before_year (y : Z) : Z := 365 * y + leaps_before y.

(** Days of year [y] before month [m] (0 = January). *)
Fixpoint days_before_month (y : Z) (m : nat) : Z :=
  match m with
  | O => 0
  | S k => days_before_month y k + days_in_month y (Z.of_nat k)
  end.

(** The number of the day [(y, m0, d)], counted from the start of year 0;
    [d] may lie outside the month. *)
Definition day_number (dt : Z * Z * Z) : Z :=
  let '(y, m0, d) := dt in
  days_before_year y + days_before_month y (Z.to_nat m0) + d.

End JS.

(* ===================================================================== *)
(** ** DateKey: [todayKey], [ISO_RE], [DM_RE], [parseUserDate], [formatDM] *)
(* ===================================================================== *)

Module DateKey.
Import JS.

(** One reading of the clock: [new Date().toISOString()] and
    [new Date().getFullYear()]. *)
Record clock := mkClock { now : string; fullYear : Z }.

(** [const todayKey = () => new Date().toISOString().slice(0, 10)]. *)
Definition todayKey (c : clock) : string := String.substring 0 10 (now c).

(** [const ISO_RE = /^\d{4}-\d{2}-\d{2}$/], as [ISO_RE.test]. *)
Definition ISO_RE_test (s : string) : bool :=
  match list_ascii_of_string s with
  | [y1; y2; y3; y4; h1; m1; m2; h2; d1; d2] =>
      is_digit y1 && is_digit y2 && is_digit y3 && is_digit y4
      && is_char "-" h1 && is_digit m1 && is_digit m2
      && is_char "-" h2 && is_digit d1 && is_digit d2
  | _ => false
  end.

(** [const DM_RE = /^\d{2}\.\d{2}$/], as [DM_RE.test]. *)
Definition DM_RE_test (s : string) : bool :=
  match list_ascii_of_string s with
  | [d1; d2; p; m1; m2] =>
      is_digit d1 && is_digit d2 && is_char "." p
      && is_digit m1 && is_digit m2
  | _ => false
  end.

(** [const [d, m] = str.split(".").map(Number)] on a string that passed
    [DM_RE]. *)
Definition split_dm (s : string) : Z * Z :=
  match list_ascii_of_string s with
  | [d1; d2; _; m1; m2] => (Number2 d1 d2, Number2 m1 m2)
  | _ => (0, 0)
  end.

(** [parseUserDate(s)]; [None] is the source's [null]. *)
Definition parseUserDate (c : clock) (s : string) : option string :=
  let str := trim s in
  if ISO_RE_test str then Some str
  else if DM_RE_test str then
    let '(d, m) := split_dm str in
    let y := fullYear c in
    Some (toISOString_slice10 (Date_UTC y (m - 1) d))
  else None.

End DateKey.

(* ===================================================================== *)
(** ** Ledger: records, [isRegistered], [addStairs], the handlers of the
       current program (first text of [src/index.js])                     *)
(* ===================================================================== *)

Module Ledger.
Import JS DateKey.

(** One entry of [db.users].  [days] is missing in records written by the
    oldest program; [total] is read through [|| 0] everywhere. *)
Record user := mkUser {
  name : string;
  total : option Z;
  days : option (gmap string Z);
  updatedAt : string
}.

(** The in-memory [db]. *)
Record database := mkDb {
  users : gmap string user;
  createdAt : string;
  db_updatedAt : string;
  version : option Z
}.

Definition set_users (us : gmap string user) (d : database) : database :=
  mkDb us (createdAt d) (db_updatedAt d) (version d).

(** The label given to a record created without a user name. *)
Definition unnamed : string := "Без імені".

(** [Object.values(days)]. *)
Definition Object_values (d : gmap string Z) : list Z := (map_to_list d).*2.

(** [values.reduce((a, v) => a + (v || 0), 0)]. *)
Definition reduce_sum (values : list Z) : Z :=
  foldl (fun a v => jsadd a (or0 (Some v))) 0 values.

(** [Object.values(u.days).reduce((a, v) => a + (v || 0), 0)]. *)
Definition sum_days (d : gmap string Z) : Z := reduce_sum (Object_values d).

(** [u.days ||= {}]: an object is always truthy. *)
Definition days_or_empty (u : user) : gmap string Z :=
  match days u with
  | Some ds => ds
  | None => ∅
  end.

(** [isRegistered(userId)]: [Boolean(db.users[userId]?.name)]. *)
Definition isRegistered (d : database) (userId : string) : bool :=
  match users d !! userId with
  | Some u => truthy_str (name u)
  | None => false
  end.

(** [db.users[userId]] once [if (!db.users[userId]) db.users[userId] = fresh]
    (or [db.users[userId] ||= fresh]) has run: a record is always truthy. *)
Definition record_or (d : database) (userId : string) (fresh : user) : user :=
  match users d !! userId with
  | Some u => u
  | None => fresh
  end.

(** [addStairs(userId, nameFallback, amount, dateKey)]. *)
Definition addStairs (now : string) (userId : string)
    (nameFallback : option string) (amount : Z) (dateKey : string)
    (d : database) : database :=
  let u := record_or d userId
             (mkUser (or_str nameFallback unnamed) (Some 0) (Some ∅) now) in
  let ds := days_or_empty u in
  set_users
    (<[userId := mkUser (name u)
                        (Some (jsadd (or0 (total u)) amount))
                        (Some (<[dateKey := jsadd (or0 (ds !! dateKey)) amount]> ds))
                        now]> (users d))
    d.

(** Name capture, lines 297-305: keep the record when there is one. *)
Definition register (now : string) (userId msg : string)
    (d : database) : database :=
  let u := record_or d userId
             (mkUser msg (Some 0) (Some ∅) now) in
  set_users (<[userId := mkUser msg (total u) (days u) now]> (users d)) d.

(** What the handlers answer, one constructor per reply of the source. *)
Inductive reply :=
| NeedRegistration          (* requireRegistered *)
| WelcomeBack (nm : string)
| AskName
| StairsUsage
| StairsBadAmount
| StairsAdded (n tot : Z)
| NameBlocked               (* a command while the name is awaited *)
| NameBadLength
| NameSaved (nm : string)
| NumberBad
| ButtonAdded (n today tot : Z)
| ButtonSubTooMuch
| ButtonSubtracted (n today tot : Z)
| UpdateUsage
| UpdateBadDate
| UpdateBadAmount
| UpdateNoRecord
| UpdateNothingToSubtract   (* current === 0 *)
| UpdateTooMuch             (* take > current *)
| Updated (iso : string) (current n value tot : Z)
| AskNumber
| Unhandled.                (* next() with no later handler in the model *)

(** The error kinds of the specification, by reply. *)
Inductive error :=
| InvalidName | InvalidAmount | InvalidDateFormat | InsufficientDayBalance.

Definition error_of (r : reply) : option error :=
  match r with
  | NameBadLength => Some InvalidName
  | StairsBadAmount | NumberBad | UpdateBadAmount => Some InvalidAmount
  | UpdateBadDate => Some InvalidDateFormat
  | ButtonSubTooMuch | UpdateNothingToSubtract | UpdateTooMuch =>
      Some InsufficientDayBalance
  | _ => None
  end.

(** [pendingNumber] holds [{ mode: "add" }] or [{ mode: "sub" }]. *)
Inductive mode := ModeAdd | ModeSub.

(** The process state: [db], [awaitingName], [pendingNumber]. *)
Record bot := mkBot {
  db : database;
  awaitingName : gset string;
  pendingNumber : gmap string mode
}.

Definition set_db (d : database) (st : bot) : bot :=
  mkBot d (awaitingName st) (pendingNumber st).

(** The adjustment of [/update], lines 397-427, once the date and the
    amount are parsed. *)
Definition adjustDay (now : string) (userId iso : string) (n : Z)
    (d : database) : database * reply :=
  match users d !! userId with
  | None => (d, UpdateNoRecord)
  | Some u =>
      let current := or0 (days_or_empty u !! iso) in
      if (n <? 0) && (current =? 0) then (d, UpdateNothingToSubtract)
      else if (n <? 0) && (current <? Z.abs n) then (d, UpdateTooMuch)
      else
        let v := if jsadd current n <? 0 then 0 else jsadd current n in
        let ds := <[iso := v]> (days_or_empty u) in
        let tot := sum_days ds in
        (set_users
           (<[userId := mkUser (name u) (Some tot) (Some ds) now]> (users d)) d,
         Updated iso current n v tot)
  end.

Section Handlers.
(** [Number(text)] on the text of a message. *)
Variable Number : string -> jsnum.

(** [bot.start]. *)
Definition on_start (userId : string) (st : bot) : bot * reply :=
  match users (db st) !! userId with
  | Some u =>
      if truthy_str (name u)
      then (mkBot (db st) (awaitingName st ∖ {[userId]}) (pendingNumber st),
            WelcomeBack (name u))
      else (mkBot (db st) ({[userId]} ∪ awaitingName st) (pendingNumber st),
            AskName)
  | None =>
      (mkBot (db st) ({[userId]} ∪ awaitingName st) (pendingNumber st),
       AskName)
  end.

(** [bot.command("stairs")]; [args] is the text after the command,
    joined and trimmed. *)
Definition on_stairs (c : clock) (userId : string)
    (username : option string) (args : string) (st : bot) : bot * reply :=
  if negb (isRegistered (db st) userId) then (st, NeedRegistration)
  else if negb (truthy_str args) then (st, StairsUsage)
  else
    match Number args with
    | JInt n =>
        if n <=? 0 then (st, StairsBadAmount)
        else
          let d := addStairs (now c) userId username n (todayKey c) (db st) in
          (set_db d st,
           StairsAdded n (or0 (from_option total None (users d !! userId))))
    | JNonInt => (st, StairsBadAmount)
    end.

(** The number awaited after a button, lines 318-366. *)
Definition on_number (c : clock) (userId : string)
    (username : option string) (msg : string) (md : mode) (st : bot)
    : bot * reply :=
  let st1 := mkBot (db st) (awaitingName st) (delete userId (pendingNumber st)) in
  match Number msg with
  | JNonInt => (st1, NumberBad)
  | JInt n =>
      if n <=? 0 then (st1, NumberBad)
      else
        let iso := todayKey c in
        let u := record_or (db st) userId
             (mkUser (or_str username unnamed) (Some 0) (Some ∅) (now c)) in
        let ds := days_or_empty u in
        let todayVal := or0 (ds !! iso) in
        match md with
        | ModeAdd =>
            let ds' := <[iso := jsadd todayVal n]> ds in
            let tot := sum_days ds' in
            (set_db (set_users
               (<[userId := mkUser (name u) (Some tot) (Some ds') (now c)]>
                  (users (db st))) (db st)) st1,
             ButtonAdded n (jsadd todayVal n) tot)
        | ModeSub =>
            if todayVal <? n then
              (set_db (set_users
                 (<[userId := mkUser (name u) (total u) (Some ds) (updatedAt u)]>
                    (users (db st))) (db st)) st1,
               ButtonSubTooMuch)
            else
              let ds' := <[iso := jssub todayVal n]> ds in
              let tot := sum_days ds' in
              (set_db (set_users
                 (<[userId := mkUser (name u) (Some tot) (Some ds') (now c)]>
                    (users (db st))) (db st)) st1,
               ButtonSubtracted n (jssub todayVal n) tot)
        end
  end.

(** [bot.on("text")], lines 279-370; [None] is [next()]. *)
Definition on_text (c : clock) (userId : string)
    (username : option string) (text : string) (st : bot)
    : option (bot * reply) :=
  let msg := trim text in
  if decide (userId ∈ awaitingName st) then
    if startsWith_slash msg then Some (st, NameBlocked)
    else if (String.length msg <? 2)%nat || (40 <? String.length msg)%nat
    then Some (st, NameBadLength)
    else
      Some (mkBot (register (now c) userId msg (db st))
                  (awaitingName st ∖ {[userId]}) (pendingNumber st),
            NameSaved msg)
  else
    match pendingNumber st !! userId with
    | Some md =>
        if startsWith_slash msg then None
        else Some (on_number c userId username msg md st)
    | None => None
    end.

(** [bot.command("/update")], lines 372-436. *)
Definition on_update (c : clock) (userId : string)
    (dateArg amountArg : option string) (st : bot) : bot * reply :=
  if negb (isRegistered (db st) userId) then (st, NeedRegistration)
  else
    match dateArg, amountArg with
    | Some da, Some aa =>
        if negb (truthy_str da) || negb (truthy_str aa) then (st, UpdateUsage)
        else
          match parseUserDate c da with
          | None => (st, UpdateBadDate)
          | Some iso =>
              if negb (truthy_str iso) then (st, UpdateBadDate)
              else
                match Number aa with
                | JNonInt => (st, UpdateBadAmount)
                | JInt n =>
                    let '(d, r) := adjustDay (now c) userId iso n (db st) in
                    (set_db d st, r)
                end
          end
    | _, _ => (st, UpdateUsage)
    end.

(** [bot.hears("+ Поверх")] and [bot.hears("- Поверх")]. *)
Definition on_button (md : mode) (userId : string) (st : bot) : bot * reply :=
  if negb (isRegistered (db st) userId) then (st, NeedRegistration)
  else (mkBot (db st) (awaitingName st) (<[userId := md]> (pendingNumber st)),
        AskNumber).

Definition button_text (md : mode) : string :=
  match md with ModeAdd => "+ Поверх" | ModeSub => "- Поверх" end.

(** An incoming message, by the handler that matches it.  [Text] stands for
    every text that reaches [bot.on("text")] and changes no state after it:
    plain texts, [/list], and the buttons that only read the ledger. *)
Inductive event :=
| Start (userId : string)
| Stairs (userId : string) (username : option string) (args : string)
| Text (userId : string) (username : option string) (text : string)
| Update (userId : string) (username : option string)
         (dateArg amountArg : option string)
| Button (md : mode) (userId : string) (username : option string).

(** The middleware chain in registration order: [start] and [stairs]
    come before [bot.on("text")], which sees every other text and hands
    it on with [next()]; [/update] and the buttons come after it. *)
Definition handle (c : clock) (e : event) (st : bot) : bot * reply :=
  match e with
  | Start uid => on_start uid st
  | Stairs uid un args => on_stairs c uid un args st
  | Text uid un text =>
      match on_text c uid un text st with
      | Some r => r
      | None => (st, Unhandled)
      end
  | Update uid un da aa =>
      match on_text c uid un "/update" st with
      | Some r => r
      | None => on_update c uid da aa st
      end
  | Button md uid un =>
      match on_text c uid un (button_text md) st with
      | Some r => r
      | None => on_button md uid st
      end
  end.

End Handlers.

End Ledger.

(* ===================================================================== *)
(** ** The two earlier program texts                                      *)
(* ===================================================================== *)

Module Earlier.
Import JS DateKey Ledger.

(** Name capture of the second text of [src/index.js], lines 1007-1013:
    the entry is assigned a new record. *)
Definition register2 (now : string) (userId raw : string)
    (d : database) : database :=
  set_users (<[userId := mkUser raw (Some 0) (Some ∅) now]> (users d)) d.

(** Name capture of [src/unnamed/part_000], lines 193-195: a new record,
    which has no [days] in that program. *)
Definition register3 (now : string) (userId raw : string)
    (d : database) : database :=
  set_users (<[userId := mkUser raw (Some 0) None now]> (users d)) d.

(** The state of the oldest program: [db] and [awaitingName]. *)
Record bot3 := mkBot3 {
  db3 : database;
  awaitingName3 : gset string
}.

Section Handlers3.
Variable Number : string -> jsnum.

(** [bot.start] of [part_000]. *)
Definition on_start3 (userId : string) (st : bot3) : bot3 :=
  match users (db3 st) !! userId with
  | Some u =>
      if truthy_str (name u)
      then mkBot3 (db3 st) (awaitingName3 st ∖ {[userId]})
      else mkBot3 (db3 st) ({[userId]} ∪ awaitingName3 st)
  | None => mkBot3 (db3 st) ({[userId]} ∪ awaitingName3 st)
  end.

(** [bot.command("stairs")] of [part_000], lines 132-167. *)
Definition on_stairs3 (c : clock) (userId : string)
    (username : option string) (args : string) (st : bot3) : bot3 :=
  if negb (isRegistered (db3 st) userId) then st
  else if negb (truthy_str args) then st
  else
    match Number args with
    | JInt n =>
        if n <=? 0 then st
        else
          let u := record_or (db3 st) userId
             (mkUser (or_str username unnamed) (Some 0) None (now c)) in
          mkBot3
            (set_users
               (<[userId := mkUser (name u) (Some (jsadd (or0 (total u)) n))
                                   (days u) (now c)]> (users (db3 st)))
               (db3 st))
            (awaitingName3 st)
    | JNonInt => st
    end.

(** [bot.on("text")] of [part_000], lines 182-200. *)
Definition on_text3 (c : clock) (userId text : string) (st : bot3) : bot3 :=
  if decide (userId ∈ awaitingName3 st) then
    let raw := trim text in
    if (String.length raw <? 2)%nat || (40 <? String.length raw)%nat then st
    else mkBot3 (register3 (now c) userId raw (db3 st))
                (awaitingName3 st ∖ {[userId]})
  else st.

Inductive event3 :=
| Start3 (userId : string)
| Stairs3 (userId : string) (username : option string) (args : string)
| Text3 (userId text : string).

Definition handle3 (c : clock) (e : event3) (st : bot3) : bot3 :=
  match e with
  | Start3 uid => on_start3 uid st
  | Stairs3 uid un args => on_stairs3 c uid un args st
  | Text3 uid text => on_text3 c uid text st
  end.

(** The seed written by [ensureDataFile] and [readDb] of [part_000]:
    no [version]. *)
Definition seed3 (now : string) : database := mkDb ∅ now now None.

(** States the oldest program can be in. *)
Inductive reachable3 : bot3 -> Prop :=
| reach3_boot now : reachable3 (mkBot3 (seed3 now) ∅)
| reach3_step c e st : reachable3 st -> reachable3 (handle3 c e st).

End Handlers3.

End Earlier.

(* ===================================================================== *)
(** ** LedgerStore: the snapshot, its migration, [readDbV2]               *)
(* ===================================================================== *)

Module Store.
Import JS DateKey Ledger.

(** [JSON.parse(raw)]: every top-level property may be missing. *)
Record parsed := mkParsed {
  p_users : option (gmap string user);
  p_createdAt : option string;
  p_updatedAt : option string;
  p_version : option Z
}.

(** The body of the migration loop, lines 658-662, on one record. *)
Definition migrate_user (today : string) (u : user) : user :=
  let ds := days_or_empty u in
  match total u with
  | Some t =>
      if (0 <? or0 (Some t)) && (size ds =? 0)%nat
      then mkUser (name u) (total u) (Some (<[today := t]> ds)) (updatedAt u)
      else mkUser (name u) (total u) (Some ds) (updatedAt u)
  | None => mkUser (name u) (total u) (Some ds) (updatedAt u)
  end.

(** The migration of [readDbV2], lines 655-667, without the file write. *)
Definition migrate (c : clock) (p : parsed) : parsed :=
  if falsy_num (p_version p) then
    mkParsed (fmap (M := option) (fmap (migrate_user (todayKey c))) (p_users p))
             (p_createdAt p) (Some (now c)) (Some 2)
  else p.

(** The seed of [ensureDataFile] and of the [catch] branch. *)
Definition seed (now : string) : database := mkDb ∅ now now (Some 2).

(** [readDbV2()]: [None] is a file that cannot be read or parsed. *)
Definition readDbV2 (c : clock) (file : option parsed) : database :=
  match file with
  | None => seed (now c)
  | Some p =>
      let q := migrate c p in
      mkDb (default ∅ (p_users q))
           (or_str (p_createdAt q) (now c))
           (or_str (p_updatedAt q) (now c))
           (p_version q)
  end.

(** [JSON.parse(JSON.stringify(db))]: what a later start reads back. *)
Definition snapshot (d : database) : parsed :=
  mkParsed (Some (users d)) (Some (createdAt d)) (Some (db_updatedAt d))
           (version d).

End Store.

(* ===================================================================== *)
(** ** Reachable states of the current program                            *)
(* ===================================================================== *)

Module Run.
Import JS DateKey Ledger Earlier Store.

Definition boot (d : database) : bot := mkBot d ∅ ∅.


Section Reach.
Variable Number : string -> jsnum.

(** The process starts on an empty ledger, on the snapshot of an earlier
    run, or on a snapshot left by the oldest program, and then handles
    messages. *)
Inductive reachable : bot -> Prop :=
| reach_fresh c : reachable (boot (readDbV2 c None))
| reach_restart c st stamp :
    reachable st ->
    reachable (boot (readDbV2 c (Some (snapshot
      (mkDb (users (db st)) (createdAt (db st)) stamp (version (db st)))))))
| reach_legacy c st3 :
    reachable3 Number st3 ->
    reachable (boot (readDbV2 c (Some (snapshot (db3 st3)))))
| reach_step c e st :
    reachable st -> reachable (fst (handle Number c e st)).


(** Runs of the current program: zero or more handled messages. *)
Inductive steps : bot -> bot -> Prop :=
| steps_refl st : steps st st
| steps_cons c e st st' :
    steps (fst (handle Number c e st)) st' -> steps st st'.
End Reach.

(** Every value of a [days] dictionary is at least 0. *)
Definition nonneg (d : gmap string Z) : Prop :=
  forall k v, d !! k = Some v -> 0 <= v.

(** The sum of the values of a list and of a [days] dictionary, as the
    integer it is (no rounding). *)
Fixpoint exact_sum_list (values : list Z) : Z :=
  match values with
  | [] => 0
  | v :: rest => v + exact_sum_list rest
  end.

Definition exact_sum (d : gmap string Z) : Z :=
  exact_sum_list (Object_values d).

(** The invariant of the specification on one record and on the ledger:
    the total is the sum of the values of [days], none of them negative. *)
Definition user_ok (u : user) : Prop :=
  exists ds, days u = Some ds /\ total u = Some (exact_sum ds) /\ nonneg ds.

Definition ledger_ok (d : database) : Prop :=
  forall uid u, users d !! uid = Some u -> user_ok u.

Definition names_ok (d : database) : Prop :=
  forall uid u, users d !! uid = Some u -> name u <> "".

(** Both invariants of the ledger of the current program. *)
Definition inv (d : database) : Prop := ledger_ok d /\ names_ok d.

(** What the oldest program keeps true of its ledger: no [version], and in
    every record a name, a total that is not negative, no [days]. *)
Definition legacy_ok (d : database) : Prop :=
  version d = None
  /\ forall uid u, users d !! uid = Some u ->
       days u = None /\ (exists t, total u = Some t /\ 0 <= t) /\ name u <> "".

(** Every date key of every record of [d] is still there in [d']. *)
Definition keys_kept (d d' : database) : Prop :=
  forall uid u k,
    users d !! uid = Some u -> is_Some (days_or_empty u !! k) ->
    exists u', users d' !! uid = Some u' /\ is_Some (days_or_empty u' !! k).

End Run.

(* ===================================================================== *)
(** ** A run of the current program, used by the examples                 *)
(* ===================================================================== *)

Module Scenario.
Import JS DateKey Ledger Store Run.

Definition c1 : clock := mkClock "2024-03-01T08:00:00.000Z" 2024.
Definition c2 : clock := mkClock "2024-03-02T08:00:00.000Z" 2024.

(** An empty data file, then [/start], the name, [/stairs 120]. *)
Definition s0 : bot := boot (readDbV2 c1 None).
Definition s1 : bot := fst (handle Number_decimal c1 (Start "42") s0).
Definition s2 : bot :=
  fst (handle Number_decimal c1 (Text "42" None "Vadym") s1).
Definition s3 : bot :=
  fst (handle Number_decimal c1 (Stairs "42" None "120") s2).
(** The next day: [/stairs 80], then [/update 2024-03-02 -30]. *)
Definition s4 : bot :=
  fst (handle Number_decimal c2 (Stairs "42" None "80") s3).
Definition s5 : bot :=
  fst (handle Number_decimal c2
         (Update "42" None (Some "2024-03-02") (Some "-30")) s4).

(** A ledger with one record whose total and days disagree. *)
Definition skewed : database :=
  mkDb {[ "42" := mkUser "Vadym" (Some 5) (Some ∅) "t0" ]} "t0" "t0" (Some 2).

(** A ledger with one record holding 3 on 2024-01-01. *)
Definition three : database :=
  mkDb {[ "u" := mkUser "Ann" (Some 3) (Some {[ "2024-01-01" := 3 ]}) "t0" ]}
       "t0" "t0" (Some 2).

(** A ledger with one record holding 40 on 2024-05-01. *)
Definition forty : database :=
  mkDb {[ "7" := mkUser "X" (Some 40) (Some {[ "2024-05-01" := 40 ]}) "t0" ]}
       "t0" "t0" (Some 2).

(** The legacy snapshot of scenario E: no [version]. *)
Definition legacy : parsed :=
  mkParsed (Some {[ "7" := mkUser "X" (Some 40) (Some ∅) "t0" ]})
           (Some "t0") (Some "t0") None.

Definition may1 : clock := mkClock "2024-05-01T09:30:00.000Z" 2024.


End Scenario.

(* ===================================================================== *)
(** ** WriteSerializer: [writeQueue] and [saveDb]                         *)
(* ===================================================================== *)

(** [saveDb] replaces [writeQueue] by
    [writeQueue.then(job).catch(log)].  Call number [k] therefore owns one
    job, whose callback the promise machinery invokes once the promise left
    by call [k-1] is fulfilled ([Promise.resolve()] for the first call), and
    one [catch] handler, which turns a rejection of the job into a
    fulfilled promise after printing the error.  The machine below has one
    entry per call, in the order of the calls, and one transition per
    observable event of that chain. *)

Module WriteQueue.

Inductive phase :=
| Waiting                       (* the job has not been invoked *)
| Writing (content : string)    (* inside [fsp.writeFile(tmp, content)] *)
| Renaming (content : string)   (* inside [fsp.rename(tmp, DATA_FILE)] *)
| Rejected                      (* the job threw, [catch] has not run *)
| Fulfilled                     (* write and rename are done *)
| Caught.                       (* [console.error("Save error:", e)] ran *)

(** The promise stored in [writeQueue] by this call is fulfilled. *)
Definition settled (p : phase) : bool :=
  match p with Fulfilled | Caught => true | _ => false end.

(** The job is between its invocation and the settling of its promise. *)
Definition active (p : phase) : bool :=
  match p with Writing _ | Renaming _ | Rejected => true | _ => false end.

Definition started (p : phase) : bool :=
  match p with Waiting => false | _ => true end.

Record queue := mkQueue {
  calls : list phase;        (* one entry per [saveDb()] call, oldest first *)
  tmp : option string;       (* content of [DATA_FILE + ".tmp"], if whole *)
  file : option string;      (* content of [DATA_FILE] *)
  log : list nat             (* calls whose error was printed *)
}.

Definition init (f : option string) : queue := mkQueue [] None f [].

(** The promise call [k] chained onto is fulfilled. *)
Definition prev_settled (cs : list phase) (k : nat) : bool :=
  match k with
  | O => true
  | S j => match cs !! j with Some p => settled p | None => false end
  end.

Inductive label :=
| SaveDb                              (* [saveDb()] is called *)
| Begin (k : nat) (content : string)  (* job [k] stamps and serialises [db] *)
| WriteOk (k : nat)
| WriteErr (k : nat)
| RenameOk (k : nat)
| RenameErr (k : nat)
| Log (k : nat).                      (* the [catch] handler of call [k] *)

Definition set_phase (k : nat) (p : phase) (q : queue) : list phase :=
  <[k := p]> (calls q).

(** One event; [None] when the event cannot happen in [q]. *)
Definition fire (l : label) (q : queue) : option queue :=
  match l with
  | SaveDb => Some (mkQueue (calls q ++ [Waiting]) (tmp q) (file q) (log q))
  | Begin k content =>
      match calls q !! k with
      | Some Waiting =>
          if prev_settled (calls q) k
          then Some (mkQueue (set_phase k (Writing content) q)
                             (tmp q) (file q) (log q))
          else None
      | _ => None
      end
  | WriteOk k =>
      match calls q !! k with
      | Some (Writing c) =>
          Some (mkQueue (set_phase k (Renaming c) q) (Some c) (file q) (log q))
      | _ => None
      end
  | WriteErr k =>
      match calls q !! k with
      | Some (Writing c) =>
          Some (mkQueue (set_phase k Rejected q) None (file q) (log q))
      | _ => None
      end
  | RenameOk k =>
      match calls q !! k, tmp q with
      | Some (Renaming c), Some t =>
          Some (mkQueue (set_phase k Fulfilled q) None (Some t) (log q))
      | _, _ => None
      end
  | RenameErr k =>
      match calls q !! k with
      | Some (Renaming c) =>
          Some (mkQueue (set_phase k Rejected q) (tmp q) (file q) (log q))
      | _ => None
      end
  | Log k =>
      match calls q !! k with
      | Some Rejected =>
          Some (mkQueue (set_phase k Caught q) (tmp q) (file q) (log q ++ [k]))
      | _ => None
      end
  end.

(** A sequence of events from [q]. *)
Fixpoint run (ls : list label) (q : queue) : option queue :=
  match ls with
  | [] => Some q
  | l :: ls' =>
      match fire l q with
      | Some q' => run ls' q'
      | None => None
      end
  end.

(** The jobs invoked by a sequence of events, in the order of invocation. *)
Fixpoint begins (ls : list label) : list nat :=
  match ls with
  | [] => []
  | Begin k _ :: ls' => k :: begins ls'
  | _ :: ls' => begins ls'
  end.

Definition is_saveDb (l : label) : bool :=
  match l with SaveDb => true | _ => false end.

(** Events still owed by one call, and by the queue. *)
Definition weight (p : phase) : nat :=
  match p with
  | Waiting => 4 | Writing _ => 3 | Renaming _ => 2 | Rejected => 1
  | Fulfilled | Caught => 0
  end.

Definition owed (q : queue) : nat := sum_list_with weight (calls q).

(** What holds of the queue once the first [n] jobs have been invoked:
    exactly the calls before [n] have their job invoked, all of them but
    the last are settled, a job that is renaming finds its own content in
    the temporary file, and every caught failure is in the log. *)
Definition chain_inv (n : nat) (q : queue) : Prop :=
  (n <= length (calls q))%nat
  /\ (forall i p, calls q !! i = Some p -> started p = true <-> (i < n)%nat)
  /\ (forall i p, calls q !! i = Some p -> (S i < n)%nat -> settled p = true)
  /\ (forall k c, calls q !! k = Some (Renaming c) -> tmp q = Some c)
  /\ (forall k, calls q !! k = Some Caught -> k ∈ log q).

End WriteQueue.

(* ===================================================================== *)
(** ** Text helpers: [pad], [escapeM2], the colour hashes, [replyChunked] *)
(* ===================================================================== *)

Module TextUtil.
Import JS.

(** [s.repeat(n)]. *)
Fixpoint repeat_str (s : string) (n : nat) : string :=
  match n with
  | O => EmptyString
  | S k => s +:+ repeat_str s k
  end.

(** [const pad = (s, w) => (s.length >= w ? s : s + " ".repeat(w - s.length))]. *)
Definition pad (s : string) (w : nat) : string :=
  if (w <=? String.length s)%nat then s
  else s +:+ repeat_str " " (w - String.length s).

Fixpoint mem_char (c : ascii) (s : string) : bool :=
  match s with
  | EmptyString => false
  | String x r => if decide (c = x) then true else mem_char c r
  end.

(** The character class of [escapeM2]: [[_*[\]()~`>#+\-=|{}.!\\]]. *)
Definition is_special (c : ascii) : bool := mem_char c "_*[]()~`>#+-=|{}.!\".

(** [s.replace(/[...]/g, "\\$&")]: a backslash before every character of
    the class. *)
Fixpoint escapeM2 (s : string) : string :=
  match s with
  | EmptyString => EmptyString
  | String c r =>
      if is_special c then String "\" (String c (escapeM2 r))
      else String c (escapeM2 r)
  end.

(** What a MarkdownV2 reader makes of an escaped text: a backslash yields
    the character after it. *)
Fixpoint unescape (s : string) : string :=
  match s with
  | EmptyString => EmptyString
  | String c r =>
      if decide (c = "\"%char) then
        match r with
        | String x r' => String x (unescape r')
        | EmptyString => EmptyString
        end
      else String c (unescape r)
  end.

(** The loop of [colorFromSeed] and [randomNiceColor]:
    [h = (h * 31 + seed.charCodeAt(i)) >>> 0]. *)
Fixpoint hash_loop (h : Z) (seed : string) : Z :=
  match seed with
  | EmptyString => h
  | String c r =>
      hash_loop ((h * 31 + Z.of_nat (nat_of_ascii c)) mod 2 ^ 32) r
  end.

(** [String(n)] for an integer below 10^21 in absolute value. *)
Definition String_of_Z (n : Z) : string :=
  DecimalString.NilZero.string_of_int (Z.to_int n).

(** [colorFromSeed(seed)]. *)
Definition colorFromSeed (seed : string) : string :=
  let h := hash_loop 0 seed in
  let hue := h mod 360 in
  "hsl(" +:+ String_of_Z hue +:+ ", 70%, 55%)".

Definition palette : list string :=
  ["#4e79a7"; "#f28e2b"; "#e15759"; "#76b7b2"; "#59a14f";
   "#edc948"; "#b07aa1"; "#ff9da7"; "#9c755f"; "#bab0ab"].

(** [randomNiceColor(seed)]; [None] is [undefined]. *)
Definition randomNiceColor (seed : string) : option string :=
  let h := hash_loop 0 seed in
  palette !! Z.to_nat (h mod Z.of_nat (length palette)).

(** [text.slice(i, j)] for [0 <= i <= j]. *)
Definition slice (i j : nat) (text : string) : string :=
  String.substring i (j - i) text.

(** The loop of [replyChunked]: one reply per round, [fuel] rounds at most. *)
Fixpoint chunks_from (fuel : nat) (text : string) (i chunkSize : nat)
    : list string :=
  match fuel with
  | O => []
  | S f =>
      if (i <? String.length text)%nat
      then slice i (i + chunkSize) text
             :: chunks_from f text (i + chunkSize) chunkSize
      else []
  end.

(** [replyChunked(ctx, text, chunkSize)]: the texts replied, in order.  With
    [chunkSize >= 1] the loop ends within [text.length] rounds. *)
Definition replyChunked (text : string) (chunkSize : nat) : list string :=
  chunks_from (String.length text) text 0 chunkSize.

End TextUtil.

(* ===================================================================== *)
(** ** Runs of the current program: senders, gates, repeated additions    *)
(* ===================================================================== *)

Module RunMore.
Import JS DateKey Ledger Run.

(** [String(ctx.from.id)] of the message behind an event. *)
Definition sender (e : event) : string :=
  match e with
  | Start uid => uid
  | Stairs uid _ _ => uid
  | Text uid _ _ => uid
  | Update uid _ _ _ => uid
  | Button _ uid _ => uid
  end.

(** The two gates of the handlers: a user whose name is awaited has no
    record, and a user whose number is awaited is registered. *)
Definition gates (st : bot) : Prop :=
  (forall uid, uid ∈ awaitingName st -> users (db st) !! uid = None)
  /\ (forall uid md, pendingNumber st !! uid = Some md ->
        isRegistered (db st) uid = true).

(** [addStairs] called once per pair (date key, amount), in order. *)
Definition add_all (now : string) (userId : string)
    (nameFallback : option string) (l : list (string * Z))
    (d : database) : database :=
  foldl (fun acc p => addStairs now userId nameFallback (snd p) (fst p) acc) d l.

(** The amounts of a list of pairs that go to one date key. *)
Definition amount_on (k : string) (l : list (string * Z)) : Z :=
  foldr (fun p acc => if decide (fst p = k) then snd p + acc else acc) 0 l.

Definition amount_total (l : list (string * Z)) : Z :=
  foldr (fun p acc => snd p + acc) 0 l.

(** No addition of [add_all] on the record [u] rounds: nothing is negative,
    and the total and the sum of the days end at or below 2^53. *)
Definition additions_exact (u : user) (l : list (string * Z)) : Prop :=
  nonneg (days_or_empty u) /\ 0 <= or0 (total u)
  /\ Forall (fun p => 0 <= snd p) l
  /\ or0 (total u) + amount_total l <= 2 ^ 53
  /\ exact_sum (days_or_empty u) + amount_total l <= 2 ^ 53.

End RunMore.

(* ===================================================================== *)
(** ** Calendar helpers: [formatDM]                                       *)
(* ===================================================================== *)

Module Calendar.
Import JS DateKey.

(** [s.split(sep)] for a separator of one character. *)
Fixpoint split_on (sep : ascii) (s : string) : list string :=
  match s with
  | EmptyString => [EmptyString]
  | String c r =>
      if decide (c = sep) then EmptyString :: split_on sep r
      else match split_on sep r with
           | h :: t => String c h :: t
           | [] => [String c EmptyString]
           end
  end.

(** An element of a destructured array inside a template string: a missing
    element prints as [undefined]. *)
Definition part (l : list string) (i : nat) : string :=
  match l !! i with
  | Some s => s
  | None => "undefined"
  end.

(** [formatDM(iso)]: [const [y, m, d] = iso.split("-"); return `${d}.${m}`]. *)
Definition formatDM (iso : string) : string :=
  let parts := split_on "-" iso in
  part parts 2 +:+ "." +:+ part parts 1.

End Calendar.

(* ===================================================================== *)
(** * Properties                                                          *)
(* ===================================================================== *)

Import JS DateKey Ledger Earlier Store Run Scenario.

(** ** Characters, digits and trimming *)

Ltac ascii_cases c :=
  destruct c as [[] [] [] [] [] [] [] []]; try discriminate.

Lemma digit_not_ws c : is_digit c = true -> is_ws c = false.
Proof. intros H. ascii_cases c; reflexivity. Qed.

Lemma is_char_eq x c : is_char x c = true -> c = x.
Proof. unfold is_char. destruct (decide (c = x)); [done | discriminate]. Qed.

Lemma pad2_Number2 a b :
  is_digit a = true -> is_digit b = true ->
  pad2 (Number2 a b) = String a (String b "").
Proof.
  intros Ha Hb. ascii_cases a; ascii_cases b; reflexivity.
Qed.

Lemma Number2_range a b :
  is_digit a = true -> is_digit b = true -> 0 <= Number2 a b <= 99.
Proof.
  intros Ha Hb. ascii_cases a; ascii_cases b; vm_compute; split; discriminate.
Qed.

Lemma string_of_list_ascii_inv s l :
  list_ascii_of_string s = l -> s = string_of_list_ascii l.
Proof. intros <-. symmetry. apply string_of_list_ascii_of_string. Qed.

(** A string that passes [ISO_RE] is ten characters, none of them white. *)
Lemma ISO_RE_shape s :
  ISO_RE_test s = true ->
  exists y1 y2 y3 y4 m1 m2 d1 d2,
    s = String y1 (String y2 (String y3 (String y4 (String "-"
          (String m1 (String m2 (String "-" (String d1 (String d2 "")))))))))
    /\ is_digit y1 = true /\ is_digit d2 = true.
Proof.
  unfold ISO_RE_test. intros H.
  destruct (list_ascii_of_string s) as [|y1 [|y2 [|y3 [|y4 [|h1 [|m1 [|m2
    [|h2 [|d1 [|d2 [|? ?]]]]]]]]]]] eqn:E; try discriminate.
  rewrite !andb_true_iff in H. destruct_and!.
  apply string_of_list_ascii_inv in E. cbn in E.
  repeat match goal with
         | Hc : is_char _ _ = true |- _ => apply is_char_eq in Hc; subst
         end.
  exists y1, y2, y3, y4, m1, m2, d1, d2. auto.
Qed.

Lemma DM_RE_shape s :
  DM_RE_test s = true ->
  exists d1 d2 m1 m2,
    s = String d1 (String d2 (String "." (String m1 (String m2 ""))))
    /\ is_digit d1 = true /\ is_digit d2 = true
    /\ is_digit m1 = true /\ is_digit m2 = true.
Proof.
  unfold DM_RE_test. intros H.
  destruct (list_ascii_of_string s) as [|d1 [|d2 [|p [|m1 [|m2 [|? ?]]]]]] eqn:E;
    try discriminate.
  rewrite !andb_true_iff in H. destruct_and!.
  apply string_of_list_ascii_inv in E. cbn in E.
  repeat match goal with
         | Hc : is_char _ _ = true |- _ => apply is_char_eq in Hc; subst
         end.
  exists d1, d2, m1, m2. auto.
Qed.

Lemma trim_ISO s : ISO_RE_test s = true -> trim s = s.
Proof.
  intros H. destruct (ISO_RE_shape s H) as
    (y1 & y2 & y3 & y4 & m1 & m2 & d1 & d2 & -> & Hy & Hd).
  unfold trim, trimEnd. cbn.
  rewrite (digit_not_ws _ Hy). cbn. rewrite (digit_not_ws _ Hd). reflexivity.
Qed.

Lemma trim_DM d1 d2 m1 m2 :
  is_digit d1 = true -> is_digit m2 = true ->
  trim (String d1 (String d2 (String "." (String m1 (String m2 "")))))
  = String d1 (String d2 (String "." (String m1 (String m2 "")))).
Proof.
  intros Hd Hm. unfold trim, trimEnd. cbn.
  rewrite (digit_not_ws _ Hd). cbn. rewrite (digit_not_ws _ Hm). reflexivity.
Qed.

(** ** The calendar *)

Lemma days_in_month_bounds y m0 : 28 <= days_in_month y m0 <= 31.
Proof.
  unfold days_in_month.
  repeat match goal with |- context [if ?b then _ else _] => destruct b end; lia.
Qed.

Lemma prev_month_range y m0 py pm :
  0 <= m0 <= 11 -> prev_month y m0 = (py, pm) -> 0 <= pm <= 11.
Proof.
  unfold prev_month. intros Hm. destruct (m0 =? 0) eqn:E; intros [= <- <-]; lia.
Qed.

Lemma next_month_range y m0 ny nm :
  0 <= m0 <= 11 -> next_month y m0 = (ny, nm) -> 0 <= nm <= 11.
Proof.
  unfold next_month. intros Hm. destruct (m0 =? 11) eqn:E; intros [= <- <-]; lia.
Qed.

(** With enough steps the carried day lands inside a month. *)
Lemma roll_valid fuel : forall y m0 d,
  0 <= m0 <= 11 ->
  -28 * Z.of_nat fuel < d ->
  (d <= days_in_month y m0 \/ d <= 28 * Z.of_nat fuel + 28) ->
  1 <= d \/ fuel <> O ->
  valid_date (roll fuel y m0 d).
Proof.
  induction fuel as [|f IH]; intros y m0 d Hm Hlo Hhi Hpos.
  - cbn. pose proof (days_in_month_bounds y m0). split; [lia|]. lia.
  - cbn [roll]. destruct (d <? 1) eqn:E1.
    + destruct (prev_month y m0) as [py pm] eqn:Ep.
      pose proof (days_in_month_bounds py pm).
      pose proof (prev_month_range _ _ _ _ Hm Ep).
      destruct (Z.le_gt_cases 1 (d + days_in_month py pm)).
      * destruct f; cbn [roll].
        -- split; lia.
        -- replace (d + days_in_month py pm <? 1) with false by lia.
           replace (days_in_month py pm <? d + days_in_month py pm) with false by lia.
           split; lia.
      * apply IH; lia.
    + destruct (days_in_month y m0 <? d) eqn:E2.
      * destruct (next_month y m0) as [ny nm] eqn:En.
        pose proof (days_in_month_bounds y m0).
        pose proof (next_month_range _ _ _ _ Hm En).
        apply IH; lia.
      * split; lia.
Qed.

Lemma Date_UTC_valid y mon d : valid_date (Date_UTC y mon d).
Proof.
  unfold Date_UTC. apply roll_valid.
  - pose proof (Z.mod_pos_bound mon 12). lia.
  - lia.
  - right. lia.
  - right. done.
Qed.

Lemma Date_UTC_in_month y m d :
  100 <= y -> 1 <= m <= 12 -> 1 <= d <= days_in_month y (m - 1) ->
  Date_UTC y (m - 1) d = (y, m - 1, d).
Proof.
  intros Hy Hm Hd. unfold Date_UTC.
  replace ((0 <=? y) && (y <=? 99)) with false by lia.
  rewrite Z.div_small, Z.mod_small by lia.
  cbn [roll]. replace (y + 0) with y by lia.
  replace (d <? 1) with false by lia.
  replace (days_in_month y (m - 1) <? d) with false by lia.
  reflexivity.
Qed.

(** *** Day numbers *)

Lemma leaps_before_succ y :
  leaps_before (y + 1) = leaps_before y + (if is_leap y then 1 else 0).
Proof.
  unfold leaps_before, is_leap.
  destruct (y mod 4 =? 0) eqn:E4; destruct (y mod 100 =? 0) eqn:E100;
    destruct (y mod 400 =? 0) eqn:E400; cbn [andb orb negb];
    Z.div_mod_to_equations; lia.
Qed.

Lemma days_before_month_12 y :
  days_before_month y 12 = 365 + (if is_leap y then 1 else 0).
Proof.
  unfold days_before_month, days_in_month. destruct (is_leap y); reflexivity.
Qed.

Lemma days_before_year_succ y :
  days_before_year (y + 1) = days_before_year y + days_before_month y 12.
Proof.
  unfold days_before_year. rewrite leaps_before_succ, days_before_month_12. lia.
Qed.

Lemma days_before_month_succ y k :
  days_before_month y (S k)
  = days_before_month y k + days_in_month y (Z.of_nat k).
Proof. reflexivity. Qed.

Lemma days_before_month_mono y (a b : nat) :
  (a <= b)%nat -> days_before_month y a <= days_before_month y b.
Proof.
  induction 1 as [|b Hle IH]; [lia |]. cbn.
  pose proof (days_in_month_bounds y (Z.of_nat b)). lia.
Qed.

Lemma days_before_year_mono a b :
  a <= b -> days_before_year a <= days_before_year b.
Proof.
  intros H. replace b with (a + Z.of_nat (Z.to_nat (b - a))) by lia.
  induction (Z.to_nat (b - a)) as [|k IH]; [by rewrite Z.add_0_r |].
  replace (a + Z.of_nat (S k)) with (a + Z.of_nat k + 1) by lia.
  rewrite days_before_year_succ, days_before_month_12.
  destruct (is_leap _); lia.
Qed.

Lemma day_number_prev_month y m0 py pm d :
  0 <= m0 <= 11 -> prev_month y m0 = (py, pm) ->
  day_number (py, pm, d + days_in_month py pm) = day_number (y, m0, d).
Proof.
  intros Hm. unfold prev_month. destruct (m0 =? 0) eqn:E; intros [= <- <-].
  - assert (m0 = 0) as -> by lia.
    assert (days_before_year y
            = days_before_year (y - 1) + days_before_month (y - 1) 12) as Hy.
    { rewrite <- days_before_year_succ. f_equal. lia. }
    unfold day_number. rewrite Hy.
    change (Z.to_nat 11) with 11%nat. change (Z.to_nat 0) with 0%nat.
    change (days_before_month (y - 1) 12)
      with (days_before_month (y - 1) 11 + days_in_month (y - 1) (Z.of_nat 11)).
    change (Z.of_nat 11) with 11. cbn [days_before_month]. lia.
  - unfold day_number. replace (Z.to_nat m0) with (S (Z.to_nat (m0 - 1))) by lia.
    cbn [days_before_month]. rewrite Z2Nat.id by lia. lia.
Qed.

Lemma day_number_next_month y m0 ny nm d :
  0 <= m0 <= 11 -> next_month y m0 = (ny, nm) ->
  day_number (ny, nm, d - days_in_month y m0) = day_number (y, m0, d).
Proof.
  intros Hm. unfold next_month. destruct (m0 =? 11) eqn:E; intros [= <- <-].
  - assert (m0 = 11) as -> by lia. unfold day_number.
    rewrite days_before_year_succ.
    change (Z.to_nat 11) with 11%nat. change (Z.to_nat 0) with 0%nat.
    change (days_before_month y 12)
      with (days_before_month y 11 + days_in_month y (Z.of_nat 11)).
    change (Z.of_nat 11) with 11. cbn [days_before_month]. lia.
  - unfold day_number. replace (Z.to_nat (m0 + 1)) with (S (Z.to_nat m0)) by lia.
    cbn [days_before_month]. rewrite Z2Nat.id by lia. lia.
Qed.

(** Carrying a day into the neighbouring months keeps its day number. *)
Lemma roll_day_number fuel : forall y m0 d,
  0 <= m0 <= 11 -> day_number (roll fuel y m0 d) = day_number (y, m0, d).
Proof.
  induction fuel as [|f IH]; intros y m0 d Hm; [done |].
  cbn [roll]. destruct (d <? 1).
  - destruct (prev_month y m0) as [py pm] eqn:Ep.
    rewrite IH by (by eapply prev_month_range).
    by eapply day_number_prev_month.
  - destruct (days_in_month y m0 <? d); [| done].
    destruct (next_month y m0) as [ny nm] eqn:En.
    rewrite IH by (by eapply next_month_range).
    by eapply day_number_next_month.
Qed.

Lemma day_number_month_lt y m1 d1 m2 d2 :
  valid_date (y, m1, d1) -> valid_date (y, m2, d2) -> m1 < m2 ->
  day_number (y, m1, d1) < day_number (y, m2, d2).
Proof.
  intros [Hm1 Hd1] [Hm2 Hd2] Hlt. unfold day_number.
  pose proof (days_before_month_mono y (S (Z.to_nat m1)) (Z.to_nat m2)
                ltac:(lia)) as H.
  rewrite (days_before_month_succ y (Z.to_nat m1)), Z2Nat.id in H by lia. lia.
Qed.

Lemma day_number_year_lt y1 m1 d1 y2 m2 d2 :
  valid_date (y1, m1, d1) -> valid_date (y2, m2, d2) -> y1 < y2 ->
  day_number (y1, m1, d1) < day_number (y2, m2, d2).
Proof.
  intros [Hm1 Hd1] [Hm2 Hd2] Hlt. unfold day_number.
  pose proof (days_before_month_mono y1 (S (Z.to_nat m1)) 12 ltac:(lia)) as H.
  rewrite (days_before_month_succ y1 (Z.to_nat m1)), Z2Nat.id in H by lia.
  pose proof (days_before_year_mono (y1 + 1) y2 ltac:(lia)) as Hy.
  rewrite days_before_year_succ in Hy.
  pose proof (days_before_month_mono y2 0 (Z.to_nat m2) ltac:(lia)) as H0.
  change (days_before_month y2 0) with 0 in H0. lia.
Qed.

(** On calendar dates the day number orders like (year, month, day). *)
Lemma day_number_lt_iff y1 m1 d1 y2 m2 d2 :
  valid_date (y1, m1, d1) -> valid_date (y2, m2, d2) ->
  day_number (y1, m1, d1) < day_number (y2, m2, d2)
  <-> y1 < y2 \/ (y1 = y2 /\ (m1 < m2 \/ (m1 = m2 /\ d1 < d2))).
Proof.
  intros H1 H2. split.
  - intros Hlt.
    destruct (Z.lt_trichotomy y1 y2) as [Hy | [-> | Hy]]; [by left | |].
    + right. split; [done |].
      destruct (Z.lt_trichotomy m1 m2) as [Hm | [-> | Hm]]; [by left | |].
      * right. split; [done |]. unfold day_number in Hlt. lia.
      * pose proof (day_number_month_lt _ _ _ _ _ H2 H1 Hm). lia.
    + pose proof (day_number_year_lt _ _ _ _ _ _ H2 H1 Hy). lia.
  - intros [Hy | [-> [Hm | [-> Hd]]]].
    + by apply day_number_year_lt.
    + by apply day_number_month_lt.
    + unfold day_number. lia.
Qed.

Lemma day_number_inj dt1 dt2 :
  valid_date dt1 -> valid_date dt2 -> day_number dt1 = day_number dt2 -> dt1 = dt2.
Proof.
  destruct dt1 as [[y1 m1] d1], dt2 as [[y2 m2] d2]. intros H1 H2 He.
  pose proof (day_number_lt_iff _ _ _ _ _ _ H1 H2) as Ha.
  pose proof (day_number_lt_iff _ _ _ _ _ _ H2 H1) as Hb.
  assert (y1 = y2 /\ m1 = m2 /\ d1 = d2) as (-> & -> & ->); [| done].
  lia.
Qed.

(** [Date.UTC] carries to the calendar date whose number is that of the
    first day of the month, counted on from January of the year, plus the
    days after the first; no other calendar date has this number. *)
Lemma Date_UTC_day_number y mon d :
  let yr := if (0 <=? y) && (y <=? 99) then 1900 + y else y in
  day_number (Date_UTC y mon d)
  = day_number (yr + mon / 12, mon mod 12, 1) + (d - 1).
Proof.
  cbv zeta. unfold Date_UTC.
  rewrite roll_day_number by (pose proof (Z.mod_pos_bound mon 12); lia).
  unfold day_number. lia.
Qed.

Lemma Date_UTC_unique y mon d dt :
  valid_date dt -> day_number dt = day_number (Date_UTC y mon d) ->
  dt = Date_UTC y mon d.
Proof. intros Hv He. apply day_number_inj; [done | apply Date_UTC_valid | done]. Qed.

(** ** DateKey: [parseUserDate] *)

Example parse_dm_2024 :
  parseUserDate (mkClock "2024-06-01T10:00:00.000Z" 2024) "05.11"
  = Some "2024-11-05".
Proof. reflexivity. Qed.

Example parse_day_overflow_2024 :
  parseUserDate (mkClock "2024-06-01T10:00:00.000Z" 2024) "31.02"
  = Some "2024-03-02".
Proof. reflexivity. Qed.

Example parse_zero_zero_2024 :
  parseUserDate (mkClock "2024-06-01T10:00:00.000Z" 2024) "00.00"
  = Some "2023-11-30".
Proof. reflexivity. Qed.

Example parse_iso_unchecked :
  parseUserDate (mkClock "2024-06-01T10:00:00.000Z" 2024) "2024-99-99"
  = Some "2024-99-99".
Proof. reflexivity. Qed.

Lemma parseUserDate_ISO c s :
  ISO_RE_test s = true -> parseUserDate c s = Some s.
Proof.
  intros H. unfold parseUserDate. rewrite (trim_ISO s H), H. reflexivity.
Qed.

Lemma parseUserDate_DM c d1 d2 m1 m2 :
  is_digit d1 = true -> is_digit d2 = true ->
  is_digit m1 = true -> is_digit m2 = true ->
  parseUserDate c (String d1 (String d2 (String "." (String m1 (String m2 "")))))
  = Some (toISOString_slice10
            (Date_UTC (fullYear c) (Number2 m1 m2 - 1) (Number2 d1 d2))).
Proof.
  intros Hd1 Hd2 Hm1 Hm2. unfold parseUserDate.
  rewrite (trim_DM d1 d2 m1 m2 Hd1 Hm2).
  cbn [ISO_RE_test list_ascii_of_string].
  unfold DM_RE_test, split_dm. cbn [list_ascii_of_string].
  rewrite Hd1, Hd2, Hm1, Hm2. reflexivity.
Qed.

Lemma parseUserDate_other c s :
  ISO_RE_test (trim s) = false -> DM_RE_test (trim s) = false ->
  parseUserDate c s = None.
Proof. intros H1 H2. unfold parseUserDate. rewrite H1, H2. reflexivity. Qed.

(** *** The key of a date *)

Lemma key_spelled y m0 d :
  toISOString_slice10 (y, m0, d)
  = String (digit_char (y / 1000)) (String (digit_char (y / 100))
      (String (digit_char (y / 10)) (String (digit_char y)
      (String "-" (String (digit_char ((m0 + 1) / 10))
        (String (digit_char (m0 + 1))
      (String "-" (String (digit_char (d / 10))
        (String (digit_char d) ""))))))))).
Proof. reflexivity. Qed.

Lemma digit_char_inj a b : digit_char a = digit_char b -> a mod 10 = b mod 10.
Proof.
  unfold digit_char. intros H. apply (f_equal nat_of_ascii) in H.
  pose proof (Z.mod_pos_bound a 10). pose proof (Z.mod_pos_bound b 10).
  rewrite !nat_ascii_embedding in H by lia. lia.
Qed.

(** Within the years 0..9999 the key names the date. *)
Lemma toISOString_slice10_inj dt dt' :
  valid_date dt -> valid_date dt' ->
  0 <= dt.1.1 <= 9999 -> 0 <= dt'.1.1 <= 9999 ->
  toISOString_slice10 dt = toISOString_slice10 dt' -> dt = dt'.
Proof.
  destruct dt as [[y m0] d], dt' as [[y' m0'] d']. cbn [fst].
  intros [Hm Hd] [Hm' Hd'] Hy Hy'.
  pose proof (days_in_month_bounds y m0) as Hb.
  pose proof (days_in_month_bounds y' m0') as Hb'.
  rewrite !key_spelled. intros He.
  injection He as H1 H2 H3 H4 H5 H6 H7 H8.
  apply digit_char_inj in H1, H2, H3, H4, H5, H6, H7, H8.
  assert (y = y') as -> by (Z.div_mod_to_equations; lia).
  assert (m0 = m0') as -> by (Z.div_mod_to_equations; lia).
  assert (d = d') as -> by (Z.div_mod_to_equations; lia).
  reflexivity.
Qed.

Lemma Date_UTC_is y mon d dt :
  100 <= y -> 0 <= mon <= 11 -> valid_date dt ->
  day_number dt = day_number (y, mon, d) ->
  Date_UTC y mon d = dt.
Proof.
  intros Hy Hm Hv He. symmetry. apply Date_UTC_unique; [done |].
  rewrite He. pose proof (Date_UTC_day_number y mon d) as H. cbv zeta in H.
  replace ((0 <=? y) && (y <=? 99)) with false in H by lia.
  rewrite Z.div_small, Z.mod_small, Z.add_0_r in H by lia.
  rewrite H. unfold day_number. lia.
Qed.

(** C5, as stated, fails: ["13.13"] has the shape [DD.MM], month 13 carries
    into the next year, and [parseUserDate] returns a key instead of
    failing. *)
Lemma C5_parse_13_13_does_not_fail :
  parseUserDate (mkClock "2024-06-01T10:00:00.000Z" 2024) "13.13"
    = Some "2025-01-13"
  /\ parseUserDate (mkClock "2024-06-01T10:00:00.000Z" 2024) "13.13" <> None.
Proof. split; [reflexivity | discriminate]. Qed.

(** C5 (amended): [parseUserDate] checks the shape of its input and nothing
    else.  (1) A string of the shape [YYYY-MM-DD] is returned unchanged.
    (2) A string [DD.MM] that names a day of the current year (a year from
    100 to 9999) gives the key of that day in the current year.
    (3) Every string that, once trimmed, has the shape [DD.MM] gives the key
    of a calendar date; it never fails.  (4) For a current year from 100
    to 9990, that date is the one [Date.UTC(year, MM-1, DD)] carries to: the
    calendar date, and the only one, that lies [DD-1] days after the first
    day of month [MM], where the months are counted on from January of the
    current year ([00] is December of the year before, [13] January of the
    next year).  (5) So, for a month from [01] to [12], day [00] is the last
    day of the month before, and a day beyond the end of the month is
    carried into the next month.  (6) Within the years 0 to 9999 two
    calendar dates with the same key are the same date.  (7) Every string
    that, once trimmed, has neither shape gives [null], the source's
    InvalidDateFormat.  (8) In 2024, ["05.11"] gives ["2024-11-05"],
    ["2024-11-05"] is returned as it is, ["13.13"] gives ["2025-01-13"],
    ["31.02"] gives ["2024-03-02"], ["00.01"] gives ["2023-12-31"] and
    ["99.99"] gives ["2032-06-07"]. *)
Theorem C5_parseUserDate_by_shape (c : clock) :
  (forall s, ISO_RE_test s = true -> parseUserDate c s = Some s)
  /\ (forall d1 d2 m1 m2,
        is_digit d1 = true -> is_digit d2 = true ->
        is_digit m1 = true -> is_digit m2 = true ->
        100 <= fullYear c <= 9999 ->
        1 <= Number2 m1 m2 <= 12 ->
        1 <= Number2 d1 d2 <= days_in_month (fullYear c) (Number2 m1 m2 - 1) ->
        parseUserDate c
          (String d1 (String d2 (String "." (String m1 (String m2 "")))))
        = Some (pad4 (fullYear c) +:+ "-" +:+ String m1 (String m2 "")
                  +:+ "-" +:+ String d1 (String d2 "")))
  /\ (forall s, DM_RE_test (trim s) = true ->
        exists dt, valid_date dt
                   /\ parseUserDate c s = Some (toISOString_slice10 dt))
  /\ (forall d1 d2 m1 m2,
        is_digit d1 = true -> is_digit d2 = true ->
        is_digit m1 = true -> is_digit m2 = true ->
        100 <= fullYear c <= 9990 ->
        exists dt,
          parseUserDate c
            (String d1 (String d2 (String "." (String m1 (String m2 "")))))
          = Some (toISOString_slice10 dt)
          /\ valid_date dt
          /\ day_number dt
             = day_number (fullYear c + (Number2 m1 m2 - 1) / 12,
                           (Number2 m1 m2 - 1) mod 12, 1)
               + (Number2 d1 d2 - 1)
          /\ forall dt', valid_date dt' -> day_number dt' = day_number dt ->
                         dt' = dt)
  /\ (forall d1 d2 m1 m2 py pm ny nm,
        is_digit d1 = true -> is_digit d2 = true ->
        is_digit m1 = true -> is_digit m2 = true ->
        100 <= fullYear c <= 9990 -> 1 <= Number2 m1 m2 <= 12 ->
        prev_month (fullYear c) (Number2 m1 m2 - 1) = (py, pm) ->
        next_month (fullYear c) (Number2 m1 m2 - 1) = (ny, nm) ->
        (Number2 d1 d2 = 0 ->
         parseUserDate c
           (String d1 (String d2 (String "." (String m1 (String m2 "")))))
         = Some (toISOString_slice10 (py, pm, days_in_month py pm)))
        /\ (days_in_month (fullYear c) (Number2 m1 m2 - 1) < Number2 d1 d2 ->
            Number2 d1 d2 - days_in_month (fullYear c) (Number2 m1 m2 - 1)
              <= days_in_month ny nm ->
            parseUserDate c
              (String d1 (String d2 (String "." (String m1 (String m2 "")))))
            = Some (toISOString_slice10
                      (ny, nm,
                       Number2 d1 d2
                       - days_in_month (fullYear c) (Number2 m1 m2 - 1)))))
  /\ (forall dt dt',
        valid_date dt -> valid_date dt' ->
        0 <= dt.1.1 <= 9999 -> 0 <= dt'.1.1 <= 9999 ->
        toISOString_slice10 dt = toISOString_slice10 dt' -> dt = dt')
  /\ (forall s, ISO_RE_test (trim s) = false -> DM_RE_test (trim s) = false ->
        parseUserDate c s = None)
  /\ (fullYear c = 2024 ->
        parseUserDate c "05.11" = Some "2024-11-05"
        /\ parseUserDate c "2024-11-05" = Some "2024-11-05"
        /\ parseUserDate c "13.13" = Some "2025-01-13"
        /\ parseUserDate c "31.02" = Some "2024-03-02"
        /\ parseUserDate c "00.01" = Some "2023-12-31"
        /\ parseUserDate c "99.99" = Some "2032-06-07").
Proof.
  split; [apply parseUserDate_ISO |].
  split.
  { intros d1 d2 m1 m2 Hd1 Hd2 Hm1 Hm2 Hy Hm Hd.
    rewrite parseUserDate_DM by assumption.
    rewrite Date_UTC_in_month by lia.
    unfold toISOString_slice10.
    replace (Number2 m1 m2 - 1 + 1) with (Number2 m1 m2) by lia.
    rewrite !pad2_Number2 by assumption. reflexivity. }
  split.
  { intros s H. destruct (DM_RE_shape _ H) as
      (d1 & d2 & m1 & m2 & E & Hd1 & Hd2 & Hm1 & Hm2).
    exists (Date_UTC (fullYear c) (Number2 m1 m2 - 1) (Number2 d1 d2)).
    split; [apply Date_UTC_valid |].
    unfold parseUserDate. rewrite E.
    cbn [ISO_RE_test list_ascii_of_string].
    unfold DM_RE_test, split_dm. cbn [list_ascii_of_string].
    rewrite Hd1, Hd2, Hm1, Hm2. reflexivity. }
  split.
  { intros d1 d2 m1 m2 Hd1 Hd2 Hm1 Hm2 Hy.
    exists (Date_UTC (fullYear c) (Number2 m1 m2 - 1) (Number2 d1 d2)).
    split; [by apply parseUserDate_DM |].
    split; [apply Date_UTC_valid |].
    split.
    - pose proof (Date_UTC_day_number (fullYear c) (Number2 m1 m2 - 1)
                    (Number2 d1 d2)) as H. cbv zeta in H.
      by replace ((0 <=? fullYear c) && (fullYear c <=? 99)) with false in H
        by lia.
    - intros dt' Hv He. by apply Date_UTC_unique. }
  split.
  { intros d1 d2 m1 m2 py pm ny nm Hd1 Hd2 Hm1 Hm2 Hy Hm Hp Hn.
    rewrite parseUserDate_DM by assumption.
    pose proof (days_in_month_bounds py pm).
    pose proof (days_in_month_bounds (fullYear c) (Number2 m1 m2 - 1)).
    split.
    - intros ->. f_equal. f_equal. apply Date_UTC_is; [lia | lia | |].
      + split; [eapply prev_month_range; [| exact Hp]; lia | lia].
      + rewrite <- (day_number_prev_month (fullYear c) (Number2 m1 m2 - 1)
                      py pm 0 ltac:(lia) Hp).
        by rewrite Z.add_0_l.
    - intros Hlt Hle. f_equal. f_equal. apply Date_UTC_is; [lia | lia | |].
      + split; [eapply next_month_range; [| exact Hn]; lia | lia].
      + by apply day_number_next_month; [lia |]. }
  split; [apply toISOString_slice10_inj |].
  split; [apply parseUserDate_other |].
  intros Hy. unfold parseUserDate. rewrite Hy. repeat split; reflexivity.
Qed.

Lemma C5_parseUserDate_by_shape_witness :
  parseUserDate (mkClock "2024-06-01T10:00:00.000Z" 2024) "2024-11-05"
    = Some "2024-11-05"
  /\ parseUserDate (mkClock "2024-06-01T10:00:00.000Z" 2024) "05.11"
    = Some "2024-11-05"
  /\ parseUserDate (mkClock "2024-06-01T10:00:00.000Z" 2024) "nope" = None
  /\ parseUserDate (mkClock "2024-06-01T10:00:00.000Z" 2024) "31.02"
    = Some (toISOString_slice10 (2024, 2, 2)).
Proof.
  pose proof (C5_parseUserDate_by_shape
                (mkClock "2024-06-01T10:00:00.000Z" 2024))
    as (Hiso & Hdm & _ & _ & Hcarry & _ & Hother & _).
  split; [apply Hiso; reflexivity |].
  split; [| split].
  - apply (Hdm "0" "5" "1" "1")%char; try reflexivity; vm_compute; split; discriminate.
  - apply Hother; reflexivity.
  - apply (proj2 (Hcarry "3" "1" "0" "2" 2024 0 2024 2
                    eq_refl eq_refl eq_refl eq_refl
                    ltac:(vm_compute; split; discriminate)
                    ltac:(vm_compute; split; discriminate)
                    eq_refl eq_refl)%char); vm_compute; [reflexivity | discriminate].
Defined.

(** ** Rounding to a double *)

Lemma round53_exact z : Z.abs z <= 2 ^ 53 -> round53 z = z.
Proof.
  intros H. unfold round53. destruct (Z.abs z <? 2 ^ 53) eqn:E; [done |].
  assert (Z.abs z = 2 ^ 53) as Ha by lia.
  destruct (Z.abs_spec z) as [[_ Hz] | [_ Hz]]; rewrite Hz in Ha.
  - subst z. reflexivity.
  - assert (z = - 2 ^ 53) as -> by lia. reflexivity.
Qed.

(** From 2^53 on the rounded number is at least 2^53. *)
Lemma round53_big z : 2 ^ 53 <= z -> 2 ^ 53 <= round53 z.
Proof.
  intros H. unfold round53. rewrite Z.abs_eq by lia.
  destruct (z <? 2 ^ 53) eqn:E; [lia |].
  rewrite Z.sgn_pos by lia.
  pose proof (Z.log2_le_mono _ _ H) as Hl. rewrite Z.log2_pow2 in Hl by lia.
  set (e := Z.log2 z - 52). assert (1 <= e) as He by lia.
  assert (Hu : 2 ^ e = 2 * 2 ^ (e - 1)).
  { rewrite <- Z.pow_succ_r by lia. f_equal. lia. }
  assert (0 < 2 ^ (e - 1)) as Hp by (apply Z.pow_pos_nonneg; lia).
  assert (2 ^ 52 <= z / 2 ^ e) as Hq.
  { apply Z.div_le_lower_bound; [lia |].
    rewrite Z.mul_comm, <- Z.pow_add_r by lia. unfold e.
    replace (52 + (Z.log2 z - 52)) with (Z.log2 z) by lia.
    apply Z.log2_spec. lia. }
  set (q := z / 2 ^ e) in *. set (r := z mod 2 ^ e).
  assert (q <= (if 2 * r <? 2 ^ e then q
                else if 2 ^ e <? 2 * r then q + 1
                else if Z.even q then q else q + 1)) as Hq'.
  { repeat match goal with |- context [if ?b then _ else _] => destruct b end;
      lia. }
  nia.
Qed.

Lemma round53_nonneg z : 0 <= z -> 0 <= round53 z.
Proof.
  intros H. destruct (Z.lt_ge_cases z (2 ^ 53)).
  - rewrite round53_exact; lia.
  - pose proof (round53_big z). lia.
Qed.


Lemma jsadd_exact x y : Z.abs (x + y) <= 2 ^ 53 -> jsadd x y = x + y.
Proof. apply round53_exact. Qed.

Lemma jssub_exact x y : Z.abs (x - y) <= 2 ^ 53 -> jssub x y = x - y.
Proof. apply round53_exact. Qed.

Lemma jsadd_nonneg x y : 0 <= x + y -> 0 <= jsadd x y.
Proof. apply round53_nonneg. Qed.


Lemma jsadd_big x y : 2 ^ 53 <= x + y -> 2 ^ 53 <= jsadd x y.
Proof. apply round53_big. Qed.

Example round_tie_to_even :
  jsadd 9007199254740992 1 = 9007199254740992
  /\ jsadd 9007199254740992 2 = 9007199254740994
  /\ jsadd 9007199254740994 1 = 9007199254740996.
Proof. repeat split; reflexivity. Qed.

(** ** Sums over a [days] dictionary *)

Lemma or0_Some v : or0 (Some v) = v.
Proof. cbn. destruct (v =? 0) eqn:E; lia. Qed.

Lemma exact_sum_list_perm l l' :
  l ≡ₚ l' -> exact_sum_list l = exact_sum_list l'.
Proof.
  induction 1 as [| x l l' _ IH | x y l | l l' l'' _ IH1 _ IH2]; cbn;
    [done | by rewrite IH | lia | congruence].
Qed.

Lemma Object_values_empty : Object_values ∅ = [].
Proof. unfold Object_values. by rewrite map_to_list_empty. Qed.

Lemma Object_values_insert_fresh (d : gmap string Z) k v :
  d !! k = None -> Object_values (<[k := v]> d) ≡ₚ v :: Object_values d.
Proof.
  intros H. unfold Object_values.
  by rewrite (map_to_list_insert d k v H).
Qed.

Lemma exact_sum_list_map (d : gmap string Z) :
  exact_sum d = exact_sum_list (Object_values d).
Proof. reflexivity. Qed.

Lemma exact_sum_empty : exact_sum ∅ = 0.
Proof. unfold exact_sum. by rewrite Object_values_empty. Qed.

Lemma exact_sum_insert_fresh (d : gmap string Z) k v :
  d !! k = None -> exact_sum (<[k := v]> d) = exact_sum d + v.
Proof.
  intros H. unfold exact_sum.
  rewrite (exact_sum_list_perm _ _ (Object_values_insert_fresh d k v H)).
  cbn. lia.
Qed.

Lemma exact_sum_insert (d : gmap string Z) k v :
  exact_sum (<[k := v]> d) = exact_sum d - or0 (d !! k) + v.
Proof.
  destruct (d !! k) as [x|] eqn:E.
  - rewrite <- (insert_delete_id d k x E) at 2.
    rewrite <- (insert_delete_eq d k v).
    rewrite !exact_sum_insert_fresh by apply lookup_delete_eq.
    rewrite or0_Some. lia.
  - rewrite exact_sum_insert_fresh by done. cbn. lia.
Qed.

Lemma exact_sum_singleton k v : exact_sum {[k := v]} = v.
Proof.
  rewrite <- insert_empty, exact_sum_insert_fresh by apply lookup_empty.
  rewrite exact_sum_empty. lia.
Qed.

Lemma nonneg_or0 d k : nonneg d -> 0 <= or0 (d !! k).
Proof.
  intros H. destruct (d !! k) as [v|] eqn:E; [| cbn; lia].
  rewrite or0_Some. eauto.
Qed.

Lemma nonneg_insert d k v : nonneg d -> 0 <= v -> nonneg (<[k := v]> d).
Proof.
  intros H Hv j w. rewrite lookup_insert. case_decide.
  - intros [= <-]. done.
  - apply H.
Qed.

Lemma nonneg_empty : nonneg ∅.
Proof. intros k v. rewrite lookup_empty. discriminate. Qed.

Lemma nonneg_values d : nonneg d -> Forall (fun v => 0 <= v) (Object_values d).
Proof.
  intros H. unfold Object_values. apply Forall_fmap, Forall_forall.
  intros [k v] Hin. apply elem_of_map_to_list in Hin. cbn. eauto.
Qed.

Lemma exact_sum_list_nonneg vs :
  Forall (fun v => 0 <= v) vs -> 0 <= exact_sum_list vs.
Proof. induction 1; cbn; lia. Qed.

Lemma exact_sum_nonneg d : nonneg d -> 0 <= exact_sum d.
Proof.
  intros H. rewrite exact_sum_list_map.
  by apply exact_sum_list_nonneg, nonneg_values.
Qed.

(** A value is at most the sum when no value is negative. *)
Lemma exact_sum_lookup_le d k : nonneg d -> or0 (d !! k) <= exact_sum d.
Proof.
  intros H. destruct (d !! k) as [x|] eqn:E.
  - rewrite <- (insert_delete_id d k x E).
    rewrite exact_sum_insert_fresh by apply lookup_delete_eq.
    rewrite or0_Some.
    assert (nonneg (delete k d)) as Hd.
    { intros j w Hj. apply lookup_delete_Some in Hj as [_ Hj]. eauto. }
    pose proof (exact_sum_nonneg _ Hd). lia.
  - cbn. by apply exact_sum_nonneg.
Qed.

(** *** The reduce of the source against the exact sum *)

Lemma reduce_big vs : forall a,
  2 ^ 53 <= a -> Forall (fun v => 0 <= v) vs ->
  2 ^ 53 <= foldl (fun a v => jsadd a (or0 (Some v))) a vs.
Proof.
  induction vs as [|v vs IH]; intros a Ha Hvs; [done |].
  apply Forall_cons in Hvs as [Hv Hvs]. cbn [foldl]. rewrite or0_Some.
  apply IH; [| done]. apply jsadd_big. lia.
Qed.

(** While the running sum is a safe integer no addition rounds. *)
Lemma reduce_safe vs : forall a,
  0 <= a -> Forall (fun v => 0 <= v) vs ->
  foldl (fun a v => jsadd a (or0 (Some v))) a vs <= MAX_SAFE_INTEGER ->
  foldl (fun a v => jsadd a (or0 (Some v))) a vs = a + exact_sum_list vs.
Proof.
  induction vs as [|v vs IH]; intros a Ha Hvs Hle; [cbn; lia |].
  apply Forall_cons in Hvs as [Hv Hvs]. cbn [foldl] in *.
  rewrite or0_Some in *.
  destruct (Z.lt_ge_cases (a + v) (2 ^ 53)) as [Hs | Hb].
  - rewrite jsadd_exact in * by lia. rewrite IH by (done || lia). cbn. lia.
  - pose proof (reduce_big vs (jsadd a v) (jsadd_big _ _ Hb) Hvs).
    unfold MAX_SAFE_INTEGER in Hle. lia.
Qed.

Lemma reduce_exact vs : forall a,
  0 <= a -> Forall (fun v => 0 <= v) vs ->
  a + exact_sum_list vs <= 2 ^ 53 ->
  foldl (fun a v => jsadd a (or0 (Some v))) a vs = a + exact_sum_list vs.
Proof.
  induction vs as [|v vs IH]; intros a Ha Hvs Hle; [cbn; lia |].
  apply Forall_cons in Hvs as [Hv Hvs]. cbn [foldl exact_sum_list] in *.
  rewrite or0_Some. pose proof (exact_sum_list_nonneg vs Hvs).
  rewrite jsadd_exact by lia. rewrite IH by (done || lia). lia.
Qed.

Lemma reduce_sum_safe vs :
  Forall (fun v => 0 <= v) vs -> reduce_sum vs <= MAX_SAFE_INTEGER ->
  reduce_sum vs = exact_sum_list vs.
Proof. intros Hvs Hle. unfold reduce_sum in *. by rewrite reduce_safe. Qed.

Lemma reduce_sum_exact vs :
  Forall (fun v => 0 <= v) vs -> exact_sum_list vs <= 2 ^ 53 ->
  reduce_sum vs = exact_sum_list vs.
Proof. intros Hvs Hle. unfold reduce_sum. by rewrite reduce_exact. Qed.

Lemma reduce_sum_nonneg vs :
  Forall (fun v => 0 <= v) vs -> 0 <= reduce_sum vs.
Proof.
  intros Hvs. destruct (Z.le_gt_cases (reduce_sum vs) MAX_SAFE_INTEGER) as [H | H].
  - rewrite reduce_sum_safe by done. by apply exact_sum_list_nonneg.
  - unfold MAX_SAFE_INTEGER in H. lia.
Qed.

(** Values that are not negative and add up to at most 2^53 reduce to their
    sum, in whatever order they are listed. *)
Lemma reduce_sum_any_order d vs :
  vs ≡ₚ Object_values d -> nonneg d -> exact_sum d <= 2 ^ 53 ->
  reduce_sum vs = exact_sum d.
Proof.
  intros Hp Hnn Hle. rewrite exact_sum_list_map in *.
  rewrite <- (exact_sum_list_perm _ _ Hp) in *.
  apply reduce_sum_exact; [| done].
  rewrite Hp. by apply nonneg_values.
Qed.

Lemma sum_days_exact d :
  nonneg d -> exact_sum d <= 2 ^ 53 -> sum_days d = exact_sum d.
Proof. intros. by apply reduce_sum_any_order. Qed.


Lemma sum_days_empty : sum_days ∅ = 0.
Proof. unfold sum_days. by rewrite Object_values_empty. Qed.

Lemma sum_days_singleton k v : Z.abs v <= 2 ^ 53 -> sum_days {[k := v]} = v.
Proof.
  intros H. unfold sum_days, Object_values, reduce_sum.
  rewrite map_to_list_singleton.
  change (jsadd 0 (or0 (Some v)) = v). rewrite or0_Some.
  by apply jsadd_exact.
Qed.

(** ** The ledger invariant, operation by operation *)

Lemma record_or_Some d uid fresh u :
  users d !! uid = Some u -> record_or d uid fresh = u.
Proof. unfold record_or. by intros ->. Qed.

Lemma days_or_empty_Some u ds : days u = Some ds -> days_or_empty u = ds.
Proof. unfold days_or_empty. by intros ->. Qed.


Lemma user_ok_fresh nm ts : user_ok (mkUser nm (Some 0) (Some ∅) ts).
Proof.
  exists ∅. rewrite exact_sum_empty. auto using nonneg_empty.
Qed.



Lemma names_ok_insert d uid u :
  names_ok d -> name u <> "" -> names_ok (set_users (<[uid := u]> (users d)) d).
Proof.
  intros Hd Hu j w. cbn. rewrite lookup_insert. case_decide.
  - intros [= <-]. done.
  - apply Hd.
Qed.


Lemma or_str_nonempty s dflt : dflt <> "" -> or_str s dflt <> "".
Proof.
  intros H. unfold or_str. destruct s as [v|]; [| done].
  destruct (decide (v = "")); done.
Qed.

Lemma unnamed_nonempty : unnamed <> "".
Proof. discriminate. Qed.

Lemma current_or_fresh_named d uid un ts :
  names_ok d ->
  name (record_or d uid (mkUser (or_str un unnamed) (Some 0) (Some ∅) ts)) <> "".
Proof.
  intros Hd. unfold record_or. destruct (users d !! uid) as [u|] eqn:E.
  - eapply Hd, E.
  - cbn. apply or_str_nonempty, unnamed_nonempty.
Qed.



Lemma addStairs_names ts uid un amount k d :
  names_ok d -> names_ok (addStairs ts uid un amount k d).
Proof.
  intros Hd. unfold addStairs. apply names_ok_insert; [done |].
  cbn. by apply current_or_fresh_named.
Qed.


Lemma register_names ts uid msg d :
  names_ok d -> msg <> "" -> names_ok (register ts uid msg d).
Proof. intros Hd Hm. unfold register. by apply names_ok_insert. Qed.


Lemma adjustDay_names ts uid iso n d :
  names_ok d -> names_ok (fst (adjustDay ts uid iso n d)).
Proof.
  intros Hd. unfold adjustDay.
  destruct (users d !! uid) as [u|] eqn:E; [| done].
  repeat match goal with |- context [if ?b then _ else _] =>
    destruct b eqn:?; try done end;
  cbn [fst]; apply names_ok_insert; try done; cbn; eapply Hd, E.
Qed.

(** ** The handlers keep the ledger well formed *)

Lemma length_checked_nonempty msg :
  (String.length msg <? 2)%nat || (40 <? String.length msg)%nat = false ->
  msg <> "".
Proof. intros H ->. cbn in H. discriminate. Qed.

Section HandlersKeep.
Variable Number : string -> jsnum.

Lemma on_start_db uid st : db (fst (on_start uid st)) = db st.
Proof.
  unfold on_start. destruct (users (db st) !! uid) as [u|]; [| done].
  destruct (truthy_str (name u)); done.
Qed.

Lemma on_button_db md uid st : db (fst (on_button md uid st)) = db st.
Proof. unfold on_button. destruct (negb _); done. Qed.


Lemma on_stairs_names c uid un args st :
  names_ok (db st) -> names_ok (db (fst (on_stairs Number c uid un args st))).
Proof.
  intros Hn. unfold on_stairs.
  destruct (negb (isRegistered _ _)); [done |].
  destruct (negb (truthy_str args)); [done |].
  destruct (Number args) as [n|]; [| done].
  destruct (n <=? 0) eqn:E; [done |]. cbn.
  by apply addStairs_names.
Qed.


Lemma on_number_names c uid un msg md st :
  names_ok (db st) -> names_ok (db (fst (on_number Number c uid un msg md st))).
Proof.
  intros Hn. unfold on_number.
  destruct (Number msg) as [n|]; [| done].
  destruct (n <=? 0) eqn:E; [done |].
  pose proof (current_or_fresh_named (db st) uid un (now c) Hn) as Hnm.
  set (u := record_or _ _ _) in *.
  cbv zeta.
  destruct md; [| destruct (_ <? n)]; cbn; by apply names_ok_insert.
Qed.


Lemma on_text_names c uid un text st r :
  names_ok (db st) -> on_text Number c uid un text st = Some r ->
  names_ok (db (fst r)).
Proof.
  intros Hn. unfold on_text.
  destruct (decide (uid ∈ awaitingName st)).
  - destruct (startsWith_slash (trim text)); [intros [= <-]; done |].
    destruct (_ || _) eqn:E; intros [= <-]; [done |].
    cbn. apply register_names; [done |]. by apply length_checked_nonempty.
  - destruct (pendingNumber st !! uid) as [md|]; [| discriminate].
    destruct (startsWith_slash (trim text)); [discriminate |].
    intros [= <-]. by apply on_number_names.
Qed.

(** [/update] changes the ledger through [adjustDay] or not at all. *)
Lemma on_update_db c uid da aa st :
  db (fst (on_update Number c uid da aa st)) = db st
  \/ exists iso n,
       db (fst (on_update Number c uid da aa st))
       = fst (adjustDay (now c) uid iso n (db st)).
Proof.
  unfold on_update.
  destruct (negb (isRegistered _ _)); [by left |].
  destruct da as [da|], aa as [aa|]; try (by left).
  destruct (_ || _); [by left |].
  destruct (parseUserDate c da) as [iso|]; [| by left].
  destruct (negb (truthy_str iso)); [by left |].
  destruct (Number aa) as [n|]; [| by left].
  right. exists iso, n.
  destruct (adjustDay (now c) uid iso n (db st)) as [d r]. done.
Qed.


Lemma on_update_names c uid da aa st :
  names_ok (db st) -> names_ok (db (fst (on_update Number c uid da aa st))).
Proof.
  intros Hl. destruct (on_update_db c uid da aa st) as [-> | (iso & n & ->)];
    [done | by apply adjustDay_names].
Qed.


Lemma handle_names c e st :
  names_ok (db st) -> names_ok (db (fst (handle Number c e st))).
Proof.
  intros Hi. destruct e as [uid | uid un args | uid un text | uid un da aa | md uid un];
    cbn [handle].
  - by rewrite on_start_db.
  - by apply on_stairs_names.
  - destruct (on_text _ _ _ _ _ _) as [r|] eqn:E; [| done].
    by eapply on_text_names.
  - destruct (on_text _ _ _ _ _ _) as [r|] eqn:E.
    + by eapply on_text_names.
    + by apply on_update_names.
  - destruct (on_text _ _ _ _ _ _) as [r|] eqn:E.
    + by eapply on_text_names.
    + by rewrite on_button_db.
Qed.


End HandlersKeep.

(** ** Migration and loading *)

Lemma migrate_user_name today u : name (migrate_user today u) = name u.
Proof.
  unfold migrate_user. destruct (total u); [| done].
  destruct (_ && _); done.
Qed.

Lemma migrate_user_total today u : total (migrate_user today u) = total u.
Proof.
  unfold migrate_user. destruct (total u) eqn:E; [| done].
  destruct (_ && _); done.
Qed.


(** A record of the oldest program (a total, no [days]) comes out with the
    invariant. *)
Lemma migrate_user_legacy today u t :
  days u = None -> total u = Some t -> 0 <= t ->
  user_ok (migrate_user today u).
Proof.
  intros Hd Ht Hpos. unfold migrate_user, days_or_empty.
  rewrite Hd, Ht, or0_Some, map_size_empty. cbn [Nat.eqb].
  destruct (0 <? t) eqn:E; cbn [andb].
  - exists (<[today := t]> ∅). split; [done |]. split.
    + cbn. rewrite insert_empty, exact_sum_singleton. done.
    + apply nonneg_insert; [apply nonneg_empty | lia].
  - assert (t = 0) as -> by lia. apply user_ok_fresh.
Qed.

Lemma users_readDbV2 c p :
  users (readDbV2 c (Some p))
  = if falsy_num (p_version p)
    then migrate_user (todayKey c) <$> default ∅ (p_users p)
    else default ∅ (p_users p).
Proof.
  unfold readDbV2, migrate. destruct (falsy_num (p_version p)); [| done].
  cbn. destruct (p_users p); cbn; [done |]. by rewrite fmap_empty.
Qed.

Lemma readDbV2_fresh_inv c : inv (readDbV2 c None).
Proof.
  split; intros uid u; cbn; rewrite lookup_empty; discriminate.
Qed.


(** ** The oldest program and what it leaves on disk *)

Lemma legacy_ok_insert d uid u t :
  legacy_ok d -> days u = None -> total u = Some t -> 0 <= t -> name u <> "" ->
  legacy_ok (set_users (<[uid := u]> (users d)) d).
Proof.
  intros [Hv Hd] H1 H2 H3 H4. split; [done |]. intros j w. cbn.
  rewrite lookup_insert. case_decide; [| apply Hd].
  intros [= <-]. eauto.
Qed.

Lemma reachable3_legacy_ok Number st :
  reachable3 Number st -> legacy_ok (db3 st).
Proof.
  induction 1 as [ts | c e st Hr IH].
  - split; [done |]. intros uid u. cbn. rewrite lookup_empty. discriminate.
  - destruct e as [uid | uid un args | uid text]; cbn [handle3].
    + unfold on_start3. destruct (users (db3 st) !! uid) as [u|]; [| done].
      destruct (truthy_str (name u)); done.
    + unfold on_stairs3.
      destruct (negb (isRegistered _ _)); [done |].
      destruct (negb (truthy_str args)); [done |].
      destruct (Number args) as [n|]; [| done].
      destruct (n <=? 0) eqn:E; [done |]. cbn [db3]. unfold record_or.
      destruct (users (db3 st) !! uid) as [u|] eqn:Eu.
      * destruct IH as [Hv Hd]. destruct (Hd _ _ Eu) as (H1 & (t & H2 & H3) & H4).
        eapply (legacy_ok_insert _ _ _ (jsadd t n)); cbn [days total name];
          try done; [by rewrite H2, or0_Some | apply jsadd_nonneg; lia].
      * eapply (legacy_ok_insert _ _ _ (jsadd 0 n)); cbn [days total name];
          try done; [apply jsadd_nonneg; lia |].
        apply or_str_nonempty, unnamed_nonempty.
    + unfold on_text3. destruct (decide (uid ∈ awaitingName3 st)); [| done].
      destruct (_ || _) eqn:E; [done |]. cbn [db3]. unfold register3.
      eapply (legacy_ok_insert _ _ _ 0); cbn; try done.
      by apply length_checked_nonempty.
Qed.

Lemma readDbV2_legacy_inv c d :
  legacy_ok d -> inv (readDbV2 c (Some (snapshot d))).
Proof.
  intros [Hv Hd]. split; intros uid u; rewrite users_readDbV2; cbn;
    rewrite Hv; cbn; rewrite lookup_fmap;
    destruct (users d !! uid) as [w|] eqn:E; try discriminate; intros [= <-];
    destruct (Hd _ _ E) as (H1 & (t & H2 & H3) & H4).
  - by eapply migrate_user_legacy.
  - by rewrite migrate_user_name.
Qed.

(** ** Reachable states *)

Lemma readDbV2_snapshot_names c d :
  names_ok d -> names_ok (readDbV2 c (Some (snapshot d))).
Proof.
  intros Hn uid u. rewrite users_readDbV2. cbn.
  destruct (falsy_num (version d)); [| by eauto].
  rewrite lookup_fmap. destruct (users d !! uid) as [w|] eqn:E;
    [| discriminate]. intros [= <-]. rewrite migrate_user_name. eauto.
Qed.

(** Every record of a reachable state has a name. *)
Lemma reachable_names Number st : reachable Number st -> names_ok (db st).
Proof.
  induction 1 as [c | c st stamp Hr IH | c st3 H3 | c e st Hr IH].
  - apply readDbV2_fresh_inv.
  - cbn [boot db]. apply readDbV2_snapshot_names. exact IH.
  - cbn [boot db]. apply readDbV2_legacy_inv.
    by eapply reachable3_legacy_ok.
  - by apply handle_names.
Qed.



(** ** The specification's scenarios A to C on the handlers *)

Example scenario_A_registered :
  users (db s2) !! "42"
  = Some (mkUser "Vadym" (Some 0) (Some ∅) "2024-03-01T08:00:00.000Z").
Proof. vm_compute. reflexivity. Qed.

Example scenario_A_added :
  users (db s3) !! "42"
  = Some (mkUser "Vadym" (Some 120) (Some {[ "2024-03-01" := 120 ]})
            "2024-03-01T08:00:00.000Z").
Proof. vm_compute. reflexivity. Qed.

Example scenario_B :
  users (db s4) !! "42"
  = Some (mkUser "Vadym" (Some 200)
            (Some (<["2024-03-02" := 80]> {[ "2024-03-01" := 120 ]}))
            "2024-03-02T08:00:00.000Z").
Proof. vm_compute. reflexivity. Qed.

Example scenario_C :
  users (db s5) !! "42"
  = Some (mkUser "Vadym" (Some 170)
            (Some (<["2024-03-02" := 50]> {[ "2024-03-01" := 120 ]}))
            "2024-03-02T08:00:00.000Z").
Proof. vm_compute. reflexivity. Qed.

Lemma s5_reachable : reachable Number_decimal s5.
Proof. do 5 apply reach_step. apply reach_fresh. Qed.

(** ** C1 and C10: the invariants of the reachable states *)






Lemma isRegistered_iff d uid :
  names_ok d -> isRegistered d uid = true <-> is_Some (users d !! uid).
Proof.
  intros Hn. unfold isRegistered, truthy_str.
  destruct (users d !! uid) as [u|] eqn:E.
  - destruct (decide (name u = "")) as [Hu|Hu].
    + exfalso. by eapply Hn.
    + split; eauto.
  - split; [discriminate | by intros [? ?]].
Qed.

(** C10: in every reachable state every record has a non-empty name, so
    [isRegistered] holds exactly of the users that have a record.  The
    label of a record created without a user name is not empty, and a name
    that is saved has 2 to 40 characters. *)
Theorem C10_every_record_is_named (Number : string -> jsnum) (st : bot) :
  reachable Number st ->
  (forall uid u, users (db st) !! uid = Some u -> name u <> "")
  /\ (forall uid,
        isRegistered (db st) uid = true <-> is_Some (users (db st) !! uid))
  /\ (forall un, or_str un unnamed <> "")
  /\ (forall c uid un text st' nm,
        on_text Number c uid un text st = Some (st', NameSaved nm) ->
        (2 <= String.length nm <= 40)%nat).
Proof.
  intros H. pose proof (reachable_names Number st H) as Hn.
  split; [exact Hn |].
  split; [intros uid; by apply isRegistered_iff |].
  split; [intros un; apply or_str_nonempty, unnamed_nonempty |].
  intros c uid un text st' nm. unfold on_text.
  destruct (decide (uid ∈ awaitingName st)).
  - destruct (startsWith_slash (trim text)); [discriminate |].
    destruct (_ || _) eqn:E; [discriminate |]. intros [= _ <-].
    apply orb_false_elim in E. destruct E as [E1 E2].
    apply Nat.ltb_ge in E1, E2. lia.
  - destruct (pendingNumber st !! uid) as [md|]; [| discriminate].
    destruct (startsWith_slash (trim text)); [discriminate |].
    unfold on_number. destruct (Number (trim text)) as [z|]; [| discriminate].
    destruct (z <=? 0); [discriminate |]. cbv zeta.
    destruct md; [discriminate |]. destruct (_ <? z); discriminate.
Qed.

Lemma C10_every_record_is_named_witness :
  isRegistered (db s5) "42" = true <-> is_Some (users (db s5) !! "42").
Proof.
  assert (reachable Number_decimal s5) as H
    by (do 5 apply reach_step; apply reach_fresh).
  exact (proj1 (proj2 (C10_every_record_is_named Number_decimal s5 H)) "42").
Defined.

(** ** C2: name capture on a user that has a record *)

Lemma register_lookup ts uid msg d u :
  users d !! uid = Some u ->
  users (register ts uid msg d) !! uid = Some (mkUser msg (total u) (days u) ts).
Proof.
  intros H. unfold register, record_or. rewrite H. cbn.
  by rewrite lookup_insert_eq.
Qed.

(** C2, as stated, fails on the two earlier program texts: their name
    capture assigns a new record, so a record holding 40 on one day comes
    out with total 0 and, in the second text of [src/index.js], no day. *)
Lemma C2_earlier_texts_clear_the_record :
  exists u u2 u3,
    users forty !! "7" = Some u
    /\ users (register2 "t1" "7" "Ann" forty) !! "7" = Some u2
    /\ users (register3 "t1" "7" "Ann" forty) !! "7" = Some u3
    /\ total u = Some 40 /\ total u2 = Some 0 /\ total u3 = Some 0
    /\ days u2 <> days u /\ days u3 <> days u.
Proof.
  eexists _, _, _. unfold register2, register3, forty. cbn.
  rewrite lookup_singleton_eq, !lookup_insert_eq.
  repeat split; try reflexivity; discriminate.
Qed.

(** C2 (amended): in the current program (first text of [src/index.js]) the
    name capture on a user that has a record changes the name and
    [updatedAt] of that record and leaves its total, its days and every
    other record as they were; this holds of [register] and of the text
    handler that calls it.  In the second text of [src/index.js] and in
    [part_000] the name capture replaces the record by a new one with total
    0 and, respectively, empty days and no days. *)
Theorem C2_register_keeps_the_history :
  (forall ts uid msg d u,
     users d !! uid = Some u ->
     users (register ts uid msg d) !! uid
       = Some (mkUser msg (total u) (days u) ts)
     /\ forall j, j <> uid -> users (register ts uid msg d) !! j = users d !! j)
  /\ (forall Number c uid un text st u,
        uid ∈ awaitingName st ->
        users (db st) !! uid = Some u ->
        startsWith_slash (trim text) = false ->
        (2 <= String.length (trim text) <= 40)%nat ->
        exists st',
          on_text Number c uid un text st = Some (st', NameSaved (trim text))
          /\ users (db st') !! uid
             = Some (mkUser (trim text) (total u) (days u) (now c)))
  /\ (forall ts uid raw d,
        users (register2 ts uid raw d) !! uid
        = Some (mkUser raw (Some 0) (Some ∅) ts))
  /\ (forall ts uid raw d,
        users (register3 ts uid raw d) !! uid
        = Some (mkUser raw (Some 0) None ts)).
Proof.
  split.
  { intros ts uid msg d u H. split; [by apply register_lookup |].
    intros j Hj. unfold register. cbn. by rewrite lookup_insert_ne. }
  split.
  { intros Number c uid un text st u Hin Hu Hs Hlen. unfold on_text.
    rewrite decide_True by done. rewrite Hs.
    replace (_ || _) with false.
    - eexists. split; [reflexivity |]. cbn. by apply register_lookup.
    - symmetry. apply orb_false_intro; apply Nat.ltb_ge; lia. }
  split.
  - intros ts uid raw d. unfold register2. cbn. by rewrite lookup_insert_eq.
  - intros ts uid raw d. unfold register3. cbn. by rewrite lookup_insert_eq.
Qed.

Lemma C2_register_keeps_the_history_witness :
  users (register "t1" "7" "Ann" forty) !! "7"
  = Some (mkUser "Ann" (Some 40) (Some {[ "2024-05-01" := 40 ]}) "t1").
Proof.
  apply (proj1 (proj1 C2_register_keeps_the_history
                  "t1" "7" "Ann" forty
                  (mkUser "X" (Some 40) (Some {[ "2024-05-01" := 40 ]}) "t0")
                  eq_refl)).
Defined.

(** ** C3: adding an amount *)

Lemma addStairs_lookup ts uid un amount k d :
  users (addStairs ts uid un amount k d) !! uid
  = Some (let u := record_or d uid
                     (mkUser (or_str un unnamed) (Some 0) (Some ∅) ts) in
          mkUser (name u) (Some (jsadd (or0 (total u)) amount))
            (Some (<[k := jsadd (or0 (days_or_empty u !! k)) amount]>
                     (days_or_empty u)))
            ts).
Proof. unfold addStairs. cbn. by rewrite lookup_insert_eq. Qed.

(** C3, as stated, fails for [addStairs]: on a record with total 5 and no
    day, adding 3 gives total 8 over days that sum to 3. *)
Lemma C3_addStairs_does_not_recompute :
  exists u ds,
    users (addStairs "t1" "42" None 3 "2024-03-01" skewed) !! "42" = Some u
    /\ days u = Some ds
    /\ total u = Some 8 /\ sum_days ds = 3
    /\ total u <> Some (sum_days ds).
Proof.
  eexists _, _. rewrite addStairs_lookup.
  unfold skewed, record_or. cbn. rewrite lookup_singleton_eq. cbn.
  unfold days_or_empty. cbn.
  split; [reflexivity |]. split; [reflexivity |].
  rewrite insert_empty.
  change (jsadd 0 3) with 3. change (jsadd 5 3) with 8.
  rewrite sum_days_singleton by (vm_compute; discriminate).
  repeat split; discriminate.
Qed.

(** C3 (amended): numbers are doubles, and an addition is exact when its
    result is at most 2^53 in absolute value.  (1) On a record whose days
    are not negative and add up, with the amount, to at most 2^53, the add
    branch of the number handler (a positive integer after the [+] button)
    sets [days[today]] to its old value plus the amount and sets [total] to
    the sum of all values of [days], whatever total the record had.
    (2) An addition whose exact result is at most 2^53 in absolute value
    gives that result.  (3) When no value of [days] is negative and the
    values add up to at most 2^53, or their [reduce] is a safe integer,
    the [reduce] gives their sum, in whatever order the values are
    listed.  (4) When its two additions are exact, [addStairs] adds the
    amount to [days[dateKey]] and to [total] and recomputes nothing: the
    total and the sum of the days grow by the amount, so [total] equals the
    sum after the call exactly when it did before.  (5) The same holds with
    the source's [reduce] for the sum, when no value of [days] is negative,
    the amount is positive and the new sum is at most 2^53. *)
Theorem C3_add_amount :
  (forall Number c uid un msg st n,
     Number msg = JInt n -> 0 < n ->
     let u := record_or (db st) uid
                (mkUser (or_str un unnamed) (Some 0) (Some ∅) (now c)) in
     let ds := days_or_empty u in
     let ds' := <[todayKey c := or0 (ds !! todayKey c) + n]> ds in
     nonneg ds -> exact_sum ds + n <= 2 ^ 53 ->
     users (db (fst (on_number Number c uid un msg ModeAdd st))) !! uid
     = Some (mkUser (name u) (Some (exact_sum ds')) (Some ds') (now c))
     /\ exact_sum ds' = exact_sum ds + n
     /\ sum_days ds' = exact_sum ds')
  /\ (forall x y, Z.abs (x + y) <= 2 ^ 53 -> jsadd x y = x + y)
  /\ (forall ds vs,
        nonneg ds -> vs ≡ₚ Object_values ds ->
        exact_sum ds <= 2 ^ 53 \/ reduce_sum vs <= MAX_SAFE_INTEGER ->
        reduce_sum vs = exact_sum ds /\ sum_days ds = exact_sum ds)
  /\ (forall ts uid un amount k d,
        let u := record_or d uid
                   (mkUser (or_str un unnamed) (Some 0) (Some ∅) ts) in
        let ds := days_or_empty u in
        let ds' := <[k := or0 (ds !! k) + amount]> ds in
        Z.abs (or0 (total u) + amount) <= 2 ^ 53 ->
        Z.abs (or0 (ds !! k) + amount) <= 2 ^ 53 ->
        users (addStairs ts uid un amount k d) !! uid
        = Some (mkUser (name u) (Some (or0 (total u) + amount)) (Some ds') ts)
        /\ exact_sum ds' = exact_sum ds + amount
        /\ (or0 (total u) + amount = exact_sum ds'
            <-> or0 (total u) = exact_sum ds))
  /\ (forall ts uid un amount k d,
        let u := record_or d uid
                   (mkUser (or_str un unnamed) (Some 0) (Some ∅) ts) in
        let ds := days_or_empty u in
        let ds' := <[k := or0 (ds !! k) + amount]> ds in
        nonneg ds -> 0 < amount ->
        Z.abs (or0 (total u) + amount) <= 2 ^ 53 ->
        exact_sum ds + amount <= 2 ^ 53 ->
        users (addStairs ts uid un amount k d) !! uid
        = Some (mkUser (name u) (Some (or0 (total u) + amount)) (Some ds') ts)
        /\ (or0 (total u) + amount = sum_days ds'
            <-> or0 (total u) = sum_days ds)).
Proof.
  split.
  { intros Number c uid un msg st n HN Hn. cbv zeta. intros Hnn Hle.
    set (u := record_or _ _ _) in *. set (ds := days_or_empty u) in *.
    pose proof (nonneg_or0 ds (todayKey c) Hnn).
    pose proof (exact_sum_nonneg ds Hnn).
    pose proof (exact_sum_lookup_le ds (todayKey c) Hnn).
    assert (exact_sum (<[todayKey c := or0 (ds !! todayKey c) + n]> ds)
            = exact_sum ds + n) as Hsum by (rewrite exact_sum_insert; lia).
    assert (sum_days (<[todayKey c := or0 (ds !! todayKey c) + n]> ds)
            = exact_sum (<[todayKey c := or0 (ds !! todayKey c) + n]> ds))
      as Hred.
    { apply sum_days_exact; [apply nonneg_insert; [done | lia] | lia]. }
    split; [| done].
    unfold on_number. rewrite HN. replace (n <=? 0) with false by lia.
    cbv zeta. fold u. fold ds. rewrite jsadd_exact by lia.
    cbn. rewrite lookup_insert_eq. by rewrite Hred. }
  split; [apply jsadd_exact |].
  split.
  { intros ds vs Hnn Hp Hle.
    assert (exact_sum ds <= 2 ^ 53) as Hex.
    { destruct Hle as [Hle | Hle]; [done |].
      rewrite reduce_sum_safe in Hle; [| rewrite Hp; by apply nonneg_values | done].
      rewrite (exact_sum_list_perm _ _ Hp) in Hle.
      unfold exact_sum, MAX_SAFE_INTEGER in *. lia. }
    split.
    - by apply reduce_sum_any_order.
    - by apply sum_days_exact. }
  split.
  { intros ts uid un amount k d. cbv zeta. intros Ht Hd.
    rewrite addStairs_lookup. cbv zeta. rewrite !jsadd_exact by done.
    split; [done |]. rewrite exact_sum_insert. split; lia. }
  intros ts uid un amount k d. cbv zeta. intros Hnn Ha Ht Hle.
  pose proof (nonneg_or0 _ k Hnn). pose proof (exact_sum_nonneg _ Hnn).
  pose proof (exact_sum_lookup_le _ k Hnn).
  rewrite addStairs_lookup. cbv zeta. rewrite !jsadd_exact by lia.
  split; [done |].
  rewrite (sum_days_exact (days_or_empty _)) by (done || lia).
  rewrite sum_days_exact.
  - rewrite exact_sum_insert. split; lia.
  - apply nonneg_insert; [done | lia].
  - rewrite exact_sum_insert. lia.
Qed.

Lemma C3_add_amount_witness :
  users (db (fst (on_number Number_decimal c1 "42" None "3" ModeAdd
                    (boot skewed)))) !! "42"
  = Some (mkUser "Vadym" (Some (exact_sum (<["2024-03-01" := 0 + 3]> ∅)))
            (Some (<["2024-03-01" := 0 + 3]> ∅))
            "2024-03-01T08:00:00.000Z")
  /\ jsadd 5 3 = 5 + 3
  /\ sum_days {[ "2024-03-01" := 3 ]} = exact_sum {[ "2024-03-01" := 3 ]}.
Proof.
  pose proof C3_add_amount as (H1 & H2 & H3 & _).
  split; [| split].
  - apply (H1 Number_decimal c1 "42" None "3" (boot skewed) 3 eq_refl eq_refl).
    + intros k v. vm_compute. discriminate.
    + vm_compute. discriminate.
  - apply H2. vm_compute. discriminate.
  - apply (H3 {[ "2024-03-01" := 3 ]} (Object_values {[ "2024-03-01" := 3 ]})).
    + intros k v. rewrite lookup_singleton_Some. intros [_ <-]. lia.
    + done.
    + left. vm_compute. discriminate.
Defined.

(** ** C4: the guard of a negative adjustment *)

Lemma parseUserDate_nonempty c s iso : parseUserDate c s = Some iso -> iso <> "".
Proof.
  unfold parseUserDate. destruct (ISO_RE_test (trim s)) eqn:E.
  - intros [= <-]. destruct (ISO_RE_shape _ E) as (? & ? & ? & ? & ? & ? & ? & ? & -> & _).
    discriminate.
  - destruct (DM_RE_test (trim s)); [| discriminate].
    destruct (split_dm (trim s)) as [dd mm].
    destruct (Date_UTC _ _ _) as [[y m0] d0]. intros [= <-]. discriminate.
Qed.

Lemma set_db_same st : set_db (db st) st = st.
Proof. by destruct st. Qed.

Lemma adjustDay_rejects ts uid iso n d u :
  users d !! uid = Some u -> n < 0 ->
  or0 (days_or_empty u !! iso) = 0 \/ Z.abs n > or0 (days_or_empty u !! iso) ->
  exists r, adjustDay ts uid iso n d = (d, r)
            /\ error_of r = Some InsufficientDayBalance.
Proof.
  intros Hu Hn Hg. unfold adjustDay. rewrite Hu.
  replace (n <? 0) with true by lia. cbn [andb].
  destruct (or0 (days_or_empty u !! iso) =? 0) eqn:E0.
  - eexists. split; reflexivity.
  - replace (or0 (days_or_empty u !! iso) <? Z.abs n) with true by lia.
    eexists. split; reflexivity.
Qed.

(** C4: for a user with a record and a negative amount, when the day holds
    0 (or is missing) or holds less than the amount to take away,
    [adjustDay] answers with an InsufficientDayBalance reply and returns the
    ledger it was given, so the record keeps its days, total and
    [updatedAt]; [/update] then leaves the whole state as it was.  The
    [-] button, which takes from today only, also rejects an amount above
    today's value and leaves the ledger as it was.  Taking 5 from a day
    that holds 3 is rejected and changes nothing. *)
Theorem C4_rejected_subtraction_changes_nothing :
  (forall ts uid iso n d u,
     users d !! uid = Some u -> n < 0 ->
     or0 (days_or_empty u !! iso) = 0 \/ Z.abs n > or0 (days_or_empty u !! iso) ->
     exists r, adjustDay ts uid iso n d = (d, r)
               /\ error_of r = Some InsufficientDayBalance
               /\ users (fst (adjustDay ts uid iso n d)) !! uid = Some u)
  /\ (forall Number c uid da aa st iso n u,
        isRegistered (db st) uid = true ->
        da <> "" -> aa <> "" ->
        parseUserDate c da = Some iso -> Number aa = JInt n ->
        users (db st) !! uid = Some u -> n < 0 ->
        or0 (days_or_empty u !! iso) = 0
          \/ Z.abs n > or0 (days_or_empty u !! iso) ->
        exists r, on_update Number c uid (Some da) (Some aa) st = (st, r)
                  /\ error_of r = Some InsufficientDayBalance)
  /\ (forall Number c uid un msg st n u ds,
        Number msg = JInt n -> 0 < n ->
        users (db st) !! uid = Some u -> days u = Some ds ->
        or0 (ds !! todayKey c) < n ->
        exists st' r,
          on_number Number c uid un msg ModeSub st = (st', r)
          /\ db st' = db st /\ error_of r = Some InsufficientDayBalance)
  /\ adjustDay "t1" "u" "2024-01-01" (-5) three = (three, UpdateTooMuch).
Proof.
  split.
  { intros ts uid iso n d u Hu Hn Hg.
    destruct (adjustDay_rejects ts uid iso n d u Hu Hn Hg) as (r & E & Hr).
    exists r. rewrite E. auto. }
  split.
  { intros Number c uid da aa st iso n u Hreg Hda Haa Hp HN Hu Hn Hg.
    unfold on_update. rewrite Hreg. cbn [negb].
    unfold truthy_str. rewrite !decide_False by done. cbn [negb orb].
    rewrite Hp. rewrite decide_False by (by eapply parseUserDate_nonempty).
    cbn [negb]. rewrite HN.
    destruct (adjustDay_rejects (now c) uid iso n (db st) u Hu Hn Hg)
      as (r & -> & Hr).
    exists r. by rewrite set_db_same. }
  split.
  { intros Number c uid un msg st n u ds HN Hn Hu Hds Hlt. unfold on_number.
    rewrite HN. replace (n <=? 0) with false by lia. cbv zeta.
    rewrite (record_or_Some _ _ _ _ Hu), (days_or_empty_Some _ _ Hds).
    replace (or0 (ds !! todayKey c) <? n) with true by lia.
    eexists _, _. split; [reflexivity |]. split; [| reflexivity].
    cbn. rewrite <- Hds. replace (mkUser _ _ _ _) with u by (by destruct u).
    rewrite insert_id by done. by destruct (db st). }
  unfold adjustDay, three. cbn. rewrite lookup_singleton_eq.
  unfold days_or_empty. cbn. rewrite lookup_singleton_eq. reflexivity.
Qed.

Lemma C4_rejected_subtraction_changes_nothing_witness :
  exists r, adjustDay "t1" "u" "2024-01-01" (-5) three = (three, r)
            /\ error_of r = Some InsufficientDayBalance
            /\ users (fst (adjustDay "t1" "u" "2024-01-01" (-5) three)) !! "u"
               = Some (mkUser "Ann" (Some 3) (Some {[ "2024-01-01" := 3 ]}) "t0").
Proof.
  apply (proj1 C4_rejected_subtraction_changes_nothing
           "t1" "u" "2024-01-01" (-5) three
           (mkUser "Ann" (Some 3) (Some {[ "2024-01-01" := 3 ]}) "t0")).
  - reflexivity.
  - lia.
  - right. vm_compute. reflexivity.
Defined.

(** ** C6 and C7: migration *)

Example scenario_E :
  migrate may1 legacy
  = mkParsed (Some {[ "7" := mkUser "X" (Some 40)
                               (Some {[ "2024-05-01" := 40 ]}) "t0" ]})
             (Some "t0") (Some "2024-05-01T09:30:00.000Z") (Some 2).
Proof. vm_compute. reflexivity. Qed.

Lemma migrate_user_cases today u :
  migrate_user today u
  = mkUser (name u) (total u)
      (Some match total u with
            | Some t =>
                if (0 <? t) && bool_decide (days_or_empty u = ∅)
                then {[ today := t ]} else days_or_empty u
            | None => days_or_empty u
            end)
      (updatedAt u).
Proof.
  unfold migrate_user. destruct (total u) as [t|]; [| done].
  rewrite or0_Some. destruct (0 <? t); cbn [andb]; [| done].
  destruct (size (days_or_empty u) =? 0)%nat eqn:E.
  - apply Nat.eqb_eq, map_size_empty_iff in E. rewrite E.
    rewrite bool_decide_eq_true_2 by done. by rewrite insert_empty.
  - rewrite bool_decide_eq_false_2; [done |].
    intros H. rewrite H, map_size_empty in E. discriminate.
Qed.

(** C6: on a snapshot whose [version] is missing or 0, [migrate] sets
    [version] to 2 and keeps the set of users; a user with a total above 0
    and no day (an empty or missing [days]) gets [days = {today: total}]; any
    other user keeps its days ([{}] where [days] was missing); name, total
    and [updatedAt] of every user stay, so a user that has a [days] field
    and either a total of 0 or some day is unchanged. *)
Theorem C6_migrate_seeds_today (c : clock) (p : parsed) :
  falsy_num (p_version p) = true ->
  p_version (migrate c p) = Some 2
  /\ p_createdAt (migrate c p) = p_createdAt p
  /\ (p_users p = None -> p_users (migrate c p) = None)
  /\ (forall us, p_users p = Some us ->
        exists us', p_users (migrate c p) = Some us'
          /\ (forall uid, us !! uid = None -> us' !! uid = None)
          /\ (forall uid u, us !! uid = Some u ->
                exists u', us' !! uid = Some u'
                  /\ name u' = name u /\ total u' = total u
                  /\ updatedAt u' = updatedAt u
                  /\ (forall t, total u = Some t -> 0 < t ->
                        days_or_empty u = ∅ ->
                        days u' = Some {[ todayKey c := t ]})
                  /\ (or0 (total u) <= 0 \/ days_or_empty u <> ∅ ->
                        days u' = Some (days_or_empty u)
                        /\ (is_Some (days u) -> u' = u)))).
Proof.
  intros Hv. unfold migrate. rewrite Hv. cbn.
  split; [done |]. split; [done |].
  split; [by intros -> |].
  intros us ->. cbn. eexists. split; [reflexivity |].
  split; [intros uid H; by rewrite lookup_fmap, H |].
  intros uid u Hu. rewrite lookup_fmap, Hu. cbn.
  eexists. split; [reflexivity |].
  rewrite migrate_user_cases. cbn.
  split; [done |]. split; [done |]. split; [done |]. split.
  - intros t -> Ht He.
    replace (0 <? t) with true by lia. by rewrite bool_decide_eq_true_2.
  - intros Hc.
    assert (match total u with
            | Some t =>
                if (0 <? t) && bool_decide (days_or_empty u = ∅)
                then {[ todayKey c := t ]} else days_or_empty u
            | None => days_or_empty u
            end = days_or_empty u) as ->.
    { destruct (total u) as [t|]; [| done].
      rewrite or0_Some in Hc. destruct Hc as [Hc | Hc].
      - by replace (0 <? t) with false by lia.
      - rewrite bool_decide_eq_false_2 by done. by rewrite andb_false_r. }
    split; [done |]. intros [ds Hds].
    rewrite (days_or_empty_Some _ _ Hds). destruct u; cbn in *. by subst.
Qed.

Lemma C6_migrate_seeds_today_witness :
  p_version (migrate may1 legacy) = Some 2
  /\ exists us', p_users (migrate may1 legacy) = Some us'
       /\ exists u', us' !! "7" = Some u'
            /\ days u' = Some {[ "2024-05-01" := 40 ]}.
Proof.
  destruct (C6_migrate_seeds_today may1 legacy eq_refl)
    as (Hv & _ & _ & Hu).
  split; [exact Hv |].
  destruct (Hu _ eq_refl) as (us' & E & _ & Hrec).
  exists us'. split; [exact E |].
  destruct (Hrec "7" (mkUser "X" (Some 40) (Some ∅) "t0") eq_refl)
    as (u' & E' & _ & _ & _ & Hseed & _).
  exists u'. split; [exact E' |].
  apply (Hseed 40); [reflexivity | lia | reflexivity].
Defined.

(** C7: [migrate] applied to its own result changes nothing, whatever the
    clock of the second run; on a snapshot whose [version] is neither
    missing nor 0 (version 2 among them) it is the identity. *)
Theorem C7_migrate_idempotent :
  (forall c c' p, migrate c' (migrate c p) = migrate c p)
  /\ (forall c p, falsy_num (p_version p) = false -> migrate c p = p)
  /\ (forall c p, p_version p = Some 2 -> migrate c p = p).
Proof.
  assert (forall c p, falsy_num (p_version p) = false -> migrate c p = p) as H.
  { intros c p Hv. unfold migrate. by rewrite Hv. }
  split; [| split; [exact H |]].
  - intros c c' p. destruct (falsy_num (p_version p)) eqn:Hv.
    + apply H. unfold migrate. by rewrite Hv.
    + rewrite (H c p Hv). by apply H.
  - intros c p Hv. apply H. by rewrite Hv.
Qed.

Lemma C7_migrate_idempotent_witness :
  migrate c1 (migrate may1 legacy) = migrate may1 legacy
  /\ migrate c1 (snapshot forty) = snapshot forty.
Proof.
  split.
  - apply (proj1 C7_migrate_idempotent).
  - apply (proj2 (proj2 C7_migrate_idempotent)). reflexivity.
Defined.

(** ** C8: date keys stay *)

Lemma keys_kept_refl d : keys_kept d d.
Proof. intros uid u k Hu Hk. eauto. Qed.

Lemma keys_kept_trans d1 d2 d3 :
  keys_kept d1 d2 -> keys_kept d2 d3 -> keys_kept d1 d3.
Proof.
  intros H12 H23 uid u k Hu Hk.
  destruct (H12 _ _ _ Hu Hk) as (u2 & Hu2 & Hk2). eauto.
Qed.

Lemma keys_kept_insert d uid u' :
  (forall u k, users d !! uid = Some u ->
     is_Some (days_or_empty u !! k) -> is_Some (days_or_empty u' !! k)) ->
  keys_kept d (set_users (<[uid := u']> (users d)) d).
Proof.
  intros H j u k Hu Hk. cbn. destruct (decide (uid = j)) as [<- | Hne].
  - exists u'. rewrite lookup_insert_eq. eauto.
  - exists u. by rewrite lookup_insert_ne.
Qed.

Lemma addStairs_keys ts uid un amount k d :
  keys_kept d (addStairs ts uid un amount k d).
Proof.
  unfold addStairs. apply keys_kept_insert. intros u j Hu Hj.
  rewrite (record_or_Some _ _ _ _ Hu). unfold days_or_empty at 1. cbn.
  apply lookup_insert_is_Some'. by right.
Qed.

Lemma register_keys ts uid msg d : keys_kept d (register ts uid msg d).
Proof.
  unfold register. apply keys_kept_insert. intros u j Hu Hj.
  by rewrite (record_or_Some _ _ _ _ Hu).
Qed.

Lemma adjustDay_keys ts uid iso n d :
  keys_kept d (fst (adjustDay ts uid iso n d)).
Proof.
  unfold adjustDay. destruct (users d !! uid) as [u|] eqn:Hu;
    [| apply keys_kept_refl].
  repeat match goal with |- context [if ?b then _ else _] =>
    destruct b eqn:?; try apply keys_kept_refl end;
  cbn [fst]; apply keys_kept_insert; intros w j Hw Hj;
  assert (w = u) as -> by congruence;
  unfold days_or_empty at 1; cbn;
  apply lookup_insert_is_Some'; by right.
Qed.

Section KeysKept.
Variable Number : string -> jsnum.

Lemma on_number_keys c uid un msg md st :
  keys_kept (db st) (db (fst (on_number Number c uid un msg md st))).
Proof.
  unfold on_number.
  destruct (Number msg) as [z|]; [| apply keys_kept_refl].
  destruct (z <=? 0); [apply keys_kept_refl |]. cbv zeta.
  destruct md; [| destruct (_ <? z)]; cbn;
    apply keys_kept_insert; intros u j Hu Hj;
    rewrite (record_or_Some _ _ _ _ Hu); unfold days_or_empty at 1; cbn;
    try (apply lookup_insert_is_Some'; by right); done.
Qed.

Lemma on_text_keys c uid un text st r :
  on_text Number c uid un text st = Some r -> keys_kept (db st) (db (fst r)).
Proof.
  unfold on_text. destruct (decide (uid ∈ awaitingName st)).
  - destruct (startsWith_slash (trim text));
      [intros [= <-]; apply keys_kept_refl |].
    destruct (_ || _); intros [= <-]; [apply keys_kept_refl |].
    cbn. apply register_keys.
  - destruct (pendingNumber st !! uid) as [md|]; [| discriminate].
    destruct (startsWith_slash (trim text)); [discriminate |].
    intros [= <-]. apply on_number_keys.
Qed.

Lemma handle_keys c e st : keys_kept (db st) (db (fst (handle Number c e st))).
Proof.
  destruct e as [uid | uid un args | uid un text | uid un da aa | md uid un];
    cbn [handle].
  - rewrite on_start_db. apply keys_kept_refl.
  - unfold on_stairs.
    destruct (negb (isRegistered _ _)); [apply keys_kept_refl |].
    destruct (negb (truthy_str args)); [apply keys_kept_refl |].
    destruct (Number args) as [z|]; [| apply keys_kept_refl].
    destruct (z <=? 0); [apply keys_kept_refl |]. cbn. apply addStairs_keys.
  - destruct (on_text _ _ _ _ _ _) as [r|] eqn:E; [| apply keys_kept_refl].
    by eapply on_text_keys.
  - destruct (on_text _ _ _ _ _ _) as [r|] eqn:E; [by eapply on_text_keys |].
    destruct (on_update_db Number c uid da aa st) as [-> | (iso & z & ->)];
      [apply keys_kept_refl | apply adjustDay_keys].
  - destruct (on_text _ _ _ _ _ _) as [r|] eqn:E; [by eapply on_text_keys |].
    rewrite on_button_db. apply keys_kept_refl.
Qed.

Lemma steps_keys st st' : steps Number st st' -> keys_kept (db st) (db st').
Proof.
  induction 1 as [st | c e st st' Hs IH]; [apply keys_kept_refl |].
  eapply keys_kept_trans; [apply handle_keys | exact IH].
Qed.

End KeysKept.

Example scenario_zero_day_stays :
  exists u,
    users (fst (adjustDay "t1" "u" "2024-01-01" (-3) three)) !! "u" = Some u
    /\ days u = Some {[ "2024-01-01" := 0 ]} /\ total u = Some 0.
Proof.
  exists (mkUser "Ann" (Some 0) (Some {[ "2024-01-01" := 0 ]}) "t1").
  split; [vm_compute; reflexivity | done].
Qed.

(** C8: along every run of the current program a date key that a record
    has is still in that record afterwards; the same holds of [addStairs],
    [adjustDay] and [register] taken alone; and taking away the whole value
    of a day leaves the key in place with value 0. *)
Theorem C8_date_keys_are_never_removed (Number : string -> jsnum) :
  (forall st st', steps Number st st' -> keys_kept (db st) (db st'))
  /\ (forall ts uid un amount k d, keys_kept d (addStairs ts uid un amount k d))
  /\ (forall ts uid iso n d, keys_kept d (fst (adjustDay ts uid iso n d)))
  /\ (forall ts uid msg d, keys_kept d (register ts uid msg d))
  /\ (forall ts uid iso d u v,
        users d !! uid = Some u -> days_or_empty u !! iso = Some v -> 0 < v ->
        exists u',
          users (fst (adjustDay ts uid iso (- v) d)) !! uid = Some u'
          /\ days_or_empty u' !! iso = Some 0
          /\ dom (days_or_empty u') = dom (days_or_empty u)).
Proof.
  split; [apply steps_keys |].
  split; [apply addStairs_keys |].
  split; [apply adjustDay_keys |].
  split; [apply register_keys |].
  intros ts uid iso d u v Hu Hv Hpos. unfold adjustDay. rewrite Hu, Hv, or0_Some.
  replace (- v <? 0) with true by lia.
  replace (v =? 0) with false by lia.
  replace (v <? Z.abs (- v)) with false by lia.
  replace (jsadd v (- v)) with 0
    by (unfold jsadd; by rewrite Z.add_opp_diag_r).
  cbn.
  rewrite lookup_insert_eq. eexists. split; [reflexivity |].
  unfold days_or_empty at 1 2. cbn. rewrite lookup_insert_eq.
  split; [done |].
  rewrite dom_insert_L. apply subseteq_union_1_L, singleton_subseteq_l.
  by eapply elem_of_dom_2.
Qed.

Lemma C8_date_keys_are_never_removed_witness :
  keys_kept (db s3) (db s5).
Proof.
  apply (proj1 (C8_date_keys_are_never_removed Number_decimal)).
  eapply steps_cons, steps_cons, steps_refl.
Defined.

(** ** C9: the write queue *)

Import WriteQueue.

Lemma run_snoc ls l q :
  run (ls ++ [l]) q = match run ls q with Some q' => fire l q' | None => None end.
Proof.
  revert q. induction ls as [|a ls IH]; intros q; cbn.
  - by destruct (fire l q).
  - destruct (fire a q); [apply IH | done].
Qed.

Lemma begins_snoc ls l :
  begins (ls ++ [l]) = (begins ls ++ begins [l])%list.
Proof.
  induction ls as [|a ls IH]; [done |].
  cbn [app begins]. destruct a; rewrite IH; done.
Qed.

Lemma chain_inv_init f : chain_inv 0 (init f).
Proof.
  unfold chain_inv, init. cbn.
  repeat split; try lia; intros; by rewrite lookup_nil in *.
Qed.

Lemma active_started p : active p = true -> started p = true.
Proof. by destruct p. Qed.

Lemma active_not_settled p : active p = true -> settled p = false.
Proof. by destruct p. Qed.

Lemma settled_started p : settled p = true -> started p = true.
Proof. by destruct p. Qed.

(** The only job between invocation and settling is the last one invoked. *)
Lemma active_last n q i p :
  chain_inv n q -> calls q !! i = Some p -> active p = true -> S i = n.
Proof.
  intros (Hlen & Hst & Hse & _) Hi Ha.
  pose proof (proj1 (Hst i p Hi) (active_started p Ha)) as Hlt.
  destruct (decide (S i < n)%nat) as [Hlt' | Hge]; [| lia].
  pose proof (Hse i p Hi Hlt') as Hs.
  rewrite (active_not_settled p Ha) in Hs. discriminate.
Qed.

Lemma chain_inv_call n q :
  chain_inv n q ->
  chain_inv n (mkQueue (calls q ++ [Waiting]) (tmp q) (file q) (log q)).
Proof.
  intros (Hlen & Hst & Hse & Htmp & Hlog).
  unfold chain_inv. cbn [calls tmp file log].
  split; [rewrite length_app; cbn; lia |].
  split.
  { intros i p H. apply lookup_app_Some in H as [H | [Hge H]]; [by apply Hst |].
    apply list_lookup_singleton_Some in H as [_ <-]. cbn. split; [done | lia]. }
  split.
  { intros i p H Hi. apply lookup_app_Some in H as [H | [Hge H]];
      [by eapply Hse | lia]. }
  split.
  { intros k c H. apply lookup_app_Some in H as [H | [Hge H]];
      [by eapply Htmp |].
    by apply list_lookup_singleton_Some in H as [_ ?]. }
  intros k H. apply lookup_app_Some in H as [H | [Hge H]]; [by apply Hlog |].
  by apply list_lookup_singleton_Some in H as [_ ?].
Qed.

Lemma chain_inv_begin n q k c :
  chain_inv n q -> calls q !! k = Some Waiting ->
  prev_settled (calls q) k = true ->
  k = n /\ chain_inv (S n)
             (mkQueue (set_phase k (Writing c) q) (tmp q) (file q) (log q)).
Proof.
  intros (Hlen & Hst & Hse & Htmp & Hlog) Hk Hprev.
  assert (k = n) as ->.
  { assert (~ (k < n)%nat) as Hge.
    { intros Hlt. by apply (Hst k Waiting Hk) in Hlt. }
    destruct k as [|j]; [lia |]. cbn in Hprev.
    destruct (calls q !! j) as [p|] eqn:Hj; [| discriminate].
    pose proof (proj1 (Hst j p Hj) (settled_started p Hprev)). lia. }
  split; [done |]. pose proof (lookup_lt_Some _ _ _ Hk) as Hn.
  unfold chain_inv, set_phase. cbn [calls tmp file log].
  split; [rewrite length_insert; lia |].
  split.
  { intros i p H. apply list_lookup_insert_Some in H
      as [(<- & <- & _) | (Hne & H)]; [cbn; split; [lia | done] |].
    rewrite (Hst i p H). lia. }
  split.
  { intros i p H Hi. apply list_lookup_insert_Some in H
      as [(<- & <- & _) | (Hne & H)]; [lia |].
    destruct (decide (S i < n)%nat); [by eapply Hse |].
    assert (n = S i) as -> by lia. cbn in Hprev. by rewrite H in Hprev. }
  split.
  { intros j c' H. apply list_lookup_insert_Some in H
      as [(_ & ? & _) | (Hne & H)]; [done | by eapply Htmp]. }
  intros j H. apply list_lookup_insert_Some in H
    as [(_ & ? & _) | (Hne & H)]; [done | by apply Hlog].
Qed.

(** An event of the job in progress: it stays invoked, no other job is in
    progress, and the temporary file and the log move with it. *)
Lemma chain_inv_update n q k p p' tmp' file' log' :
  chain_inv n q -> calls q !! k = Some p -> active p = true ->
  started p' = true ->
  (forall c, p' = Renaming c -> tmp' = Some c) ->
  (p' = Caught -> k ∈ log') ->
  (forall x, x ∈ log q -> x ∈ log') ->
  chain_inv n (mkQueue (set_phase k p' q) tmp' file' log').
Proof.
  intros Hinv Hk Ha Hs' Htmp' Hlog' Hsub.
  pose proof (active_last n q k p Hinv Hk Ha) as Hlast.
  pose proof (fun j x => active_last n q j x Hinv) as Hone.
  destruct Hinv as (Hlen & Hst & Hse & Htmp & Hlog).
  unfold chain_inv, set_phase. cbn [calls tmp file log].
  split; [rewrite length_insert; lia |].
  split.
  { intros i x H. apply list_lookup_insert_Some in H
      as [(<- & <- & _) | (Hne & H)]; [split; [lia | done] | by apply Hst]. }
  split.
  { intros i x H Hi. apply list_lookup_insert_Some in H
      as [(<- & <- & _) | (Hne & H)]; [lia | by eapply Hse]. }
  split.
  { intros j c H. apply list_lookup_insert_Some in H
      as [(<- & Hp & _) | (Hne & H)]; [by apply Htmp' |].
    pose proof (Hone j (Renaming c) H eq_refl). lia. }
  intros j H. apply list_lookup_insert_Some in H
    as [(<- & Hp & _) | (Hne & H)]; [by apply Hlog' | by apply Hsub, Hlog].
Qed.

Lemma chain_inv_fire n q l q' :
  chain_inv n q -> fire l q = Some q' ->
  match l with
  | Begin k _ => k = n /\ chain_inv (S n) q'
  | _ => chain_inv n q'
  end.
Proof.
  intros Hinv. destruct l as [| k c | k | k | k | k | k]; cbn [fire].
  - intros [= <-]. by apply chain_inv_call.
  - destruct (calls q !! k) as [[]|] eqn:Hk; try discriminate.
    destruct (prev_settled (calls q) k) eqn:Hp; [| discriminate].
    intros [= <-]. by apply chain_inv_begin.
  - destruct (calls q !! k) as [[]|] eqn:Hk; try discriminate.
    intros [= <-]. eapply chain_inv_update; eauto; try done.
    by intros ? [= ->].
  - destruct (calls q !! k) as [[]|] eqn:Hk; try discriminate.
    intros [= <-]. eapply chain_inv_update; eauto; done.
  - destruct (calls q !! k) as [[]|] eqn:Hk; try discriminate.
    destruct (tmp q) as [t|] eqn:Ht; [| discriminate].
    intros [= <-]. eapply chain_inv_update; eauto; done.
  - destruct (calls q !! k) as [[]|] eqn:Hk; try discriminate.
    intros [= <-]. eapply chain_inv_update; eauto; done.
  - destruct (calls q !! k) as [[]|] eqn:Hk; try discriminate.
    intros [= <-]. eapply chain_inv_update; eauto; try done.
    + intros _. apply elem_of_app. right. by apply list_elem_of_singleton.
    + intros x Hx. apply elem_of_app. by left.
Qed.

(** Along every sequence of events from the empty queue the jobs are
    invoked in the order 0, 1, 2, ... of the calls. *)
Lemma run_chain_inv f ls q :
  run ls (init f) = Some q ->
  exists n, begins ls = seq 0 n /\ chain_inv n q.
Proof.
  revert q. induction ls as [|l ls IH] using rev_ind; intros q.
  - intros [= <-]. exists 0%nat. split; [done | apply chain_inv_init].
  - rewrite run_snoc. destruct (run ls (init f)) as [q0|] eqn:E; [| discriminate].
    destruct (IH q0 eq_refl) as (n & Hb & Hinv). intros Hf.
    pose proof (chain_inv_fire n q0 l q Hinv Hf) as Hl.
    rewrite begins_snoc, Hb.
    destruct l as [| k c | k | k | k | k | k]; cbn [begins];
      try (exists n; split; [by rewrite app_nil_r | done]).
    destruct Hl as [-> Hl]. exists (S n). split; [| done].
    by rewrite seq_S.
Qed.

(** *** The queue always moves on *)

Lemma weight_insert (cs : list phase) k p p' :
  cs !! k = Some p ->
  (sum_list_with weight (<[k := p']> cs) + weight p
   = sum_list_with weight cs + weight p')%nat.
Proof.
  revert k. induction cs as [|a cs IH]; intros k; [by rewrite lookup_nil |].
  destruct k as [|k]; cbn.
  - intros [= ->]. lia.
  - intros H. rewrite <- !Nat.add_assoc. f_equal. by apply IH.
Qed.

Lemma fire_owed l q q' :
  fire l q = Some q' -> is_saveDb l = false -> (owed q' < owed q)%nat.
Proof.
  unfold owed. destruct l as [| k c | k | k | k | k | k]; cbn [fire is_saveDb];
    try discriminate; intros Hf _;
    destruct (calls q !! k) as [p|] eqn:Hk; try discriminate;
    destruct p; try discriminate.
  - destruct (prev_settled (calls q) k); [| discriminate].
    injection Hf as <-. cbn [calls]. unfold set_phase.
    pose proof (weight_insert _ k _ (Writing c) Hk). cbn in *. lia.
  - injection Hf as <-. cbn [calls]. unfold set_phase.
    pose proof (weight_insert _ k _ (Renaming content) Hk). cbn in *. lia.
  - injection Hf as <-. cbn [calls]. unfold set_phase.
    pose proof (weight_insert _ k _ Rejected Hk). cbn in *. lia.
  - destruct (tmp q); [| discriminate].
    injection Hf as <-. cbn [calls]. unfold set_phase.
    pose proof (weight_insert _ k _ Fulfilled Hk). cbn in *. lia.
  - injection Hf as <-. cbn [calls]. unfold set_phase.
    pose proof (weight_insert _ k _ Rejected Hk). cbn in *. lia.
  - injection Hf as <-. cbn [calls]. unfold set_phase.
    pose proof (weight_insert _ k _ Caught Hk). cbn in *. lia.
Qed.

Lemma fire_length l q q' :
  fire l q = Some q' -> is_saveDb l = false ->
  length (calls q') = length (calls q).
Proof.
  destruct l as [| k c | k | k | k | k | k]; cbn [fire is_saveDb];
    try discriminate; intros Hf _;
    destruct (calls q !! k) as [p|] eqn:Hk; try discriminate;
    destruct p; try discriminate;
    repeat match type of Hf with
           | context [if ?b then _ else _] => destruct b; try discriminate
           | context [match tmp q with _ => _ end] =>
               destruct (tmp q); try discriminate
           end;
    injection Hf as <-; cbn [calls]; apply length_insert.
Qed.

Lemma forallb_false_lookup {A} (f : A -> bool) (l : list A) :
  forallb f l = false -> exists k x, l !! k = Some x /\ f x = false.
Proof.
  induction l as [|a l IH]; [discriminate |]. cbn.
  destruct (f a) eqn:E; cbn.
  - intros H. destruct (IH H) as (k & x & Hk & Hx). by exists (S k), x.
  - intros _. by exists 0%nat, a.
Qed.

(** While some call is not settled, an event of the chain can happen. *)
Lemma chain_progress n q k p :
  chain_inv n q -> calls q !! k = Some p -> settled p = false ->
  exists l, is_saveDb l = false /\ is_Some (fire l q).
Proof.
  intros (Hlen & Hst & Hse & Htmp & Hlog) Hk Hp.
  assert (forall j, (n <= j)%nat -> (j < length (calls q))%nat ->
            calls q !! j = Some Waiting) as Hwait.
  { intros j Hj Hlt. destruct (lookup_lt_is_Some_2 _ _ Hlt) as [x Hx].
    rewrite Hx. f_equal. destruct x; try done;
      (assert (j < n)%nat by (by apply (Hst j _ Hx)); lia). }
  pose proof (lookup_lt_Some _ _ _ Hk) as Hklen.
  destruct n as [|m].
  - exists (Begin 0 ""). split; [done |]. cbn.
    rewrite (Hwait 0%nat) by lia. cbn. eauto.
  - destruct (lookup_lt_is_Some_2 (calls q) m) as [pm Hm]; [lia |].
    destruct (settled pm) eqn:Hs.
    + assert (S m <= k)%nat as Hge.
      { destruct (decide (k < S m)%nat) as [Hlt|]; [| lia]. exfalso.
        destruct (decide (k = m)) as [-> | Hne].
        - rewrite Hk in Hm. injection Hm as ->. congruence.
        - rewrite (Hse k p Hk) in Hp by lia. discriminate. }
      exists (Begin (S m) ""). split; [done |]. cbn.
      rewrite (Hwait (S m)) by lia. rewrite Hm, Hs. eauto.
    + assert (started pm = true) as Hstd by (apply (Hst m pm Hm); lia).
      destruct pm as [| c | c | | |]; try discriminate.
      * exists (WriteOk m). split; [done |]. cbn. rewrite Hm. eauto.
      * exists (RenameOk m). split; [done |]. cbn.
        rewrite Hm, (Htmp m c Hm). eauto.
      * exists (Log m). split; [done |]. cbn. rewrite Hm. eauto.
Qed.

(** From every state of the chain the events of the chain can be followed
    until every call is settled. *)
Lemma chain_drains m : forall n q,
  (owed q <= m)%nat -> chain_inv n q ->
  exists ls q',
    forallb (fun l => negb (is_saveDb l)) ls = true
    /\ run ls q = Some q'
    /\ length (calls q') = length (calls q)
    /\ forall k p, calls q' !! k = Some p -> settled p = true.
Proof.
  induction m as [|m IH]; intros n q Hm Hinv.
  - exists [], q. repeat split; try done. intros k p Hk.
    destruct (settled p) eqn:Hs; [done |].
    destruct (chain_progress n q k p Hinv Hk Hs) as (l & Hl & [q1 Hf]).
    pose proof (fire_owed l q q1 Hf Hl). lia.
  - destruct (forallb settled (calls q)) eqn:Hall.
    + exists [], q. repeat split; try done. intros k p Hk.
      rewrite forallb_forall in Hall. apply Hall.
      apply list_elem_of_In. by eapply list_elem_of_lookup_2.
    + assert (exists k p, calls q !! k = Some p /\ settled p = false)
        as (k & p & Hk & Hs).
      { by apply forallb_false_lookup. }
      destruct (chain_progress n q k p Hinv Hk Hs) as (l & Hl & [q1 Hf]).
      pose proof (fire_owed l q q1 Hf Hl) as Hlt.
      pose proof (fire_length l q q1 Hf Hl) as Hlen.
      pose proof (chain_inv_fire n q l q1 Hinv Hf) as Hinv1.
      assert (exists n1, chain_inv n1 q1) as [n1 Hn1].
      { destruct l; eauto. destruct Hinv1 as [_ ?]. eauto. }
      destruct (IH n1 q1 ltac:(lia) Hn1) as (ls & q' & Hls & Hrun & Hl' & Hset).
      exists (l :: ls), q'. cbn. rewrite Hl, Hf. cbn.
      repeat split; try done. congruence.
Qed.

Example queue_goes_on_after_a_failure :
  run [SaveDb; SaveDb; Begin 0 "A"; WriteErr 0; Log 0;
       Begin 1 "B"; WriteOk 1; RenameOk 1] (init (Some "old"))
  = Some (mkQueue [Caught; Fulfilled] None (Some "B") [0%nat]).
Proof. reflexivity. Qed.

Example second_job_waits_for_the_first :
  run [SaveDb; SaveDb; Begin 0 "A"; Begin 1 "B"] (init (Some "old")) = None
  /\ run [SaveDb; SaveDb; Begin 1 "B"] (init (Some "old")) = None
  /\ run [SaveDb; SaveDb; Begin 0 "A"; WriteOk 0; Begin 1 "B"] (init (Some "old"))
     = None.
Proof. repeat split; reflexivity. Qed.

(** C9: in every state the chain of [saveDb] calls can reach,
    (1) the jobs have been invoked in the order of the calls;
    (2) at most one job is between its invocation and its settling, and a
        job is invoked only when every earlier call is settled, so no two
        write and rename sequences overlap;
    (3) the rename of a job installs the content that this job wrote;
    (4) a job that failed is caught and logged, and every caught failure is
        in the log;
    (5) after a caught failure the job of the next call can be invoked;
    (6) while a call is unsettled some event of the chain can happen, every
        such event brings the chain closer to its end, and the chain can be
        followed until every call that was made is settled. *)
Theorem C9_saves_run_one_at_a_time_in_order
    (f : option string) (ls : list label) (q : queue) :
  run ls (init f) = Some q ->
  begins ls = seq 0 (length (begins ls))
  /\ (forall i j pi pj,
        calls q !! i = Some pi -> calls q !! j = Some pj ->
        active pi = true -> active pj = true -> i = j)
  /\ (forall i j pi pj,
        (i < j)%nat -> calls q !! i = Some pi -> calls q !! j = Some pj ->
        started pj = true -> settled pi = true)
  /\ (forall k c,
        calls q !! k = Some (Renaming c) ->
        exists q', fire (RenameOk k) q = Some q' /\ file q' = Some c)
  /\ (forall k,
        calls q !! k = Some Rejected ->
        exists q', fire (Log k) q = Some q'
                   /\ calls q' !! k = Some Caught /\ k ∈ log q')
  /\ (forall k, calls q !! k = Some Caught -> k ∈ log q)
  /\ (forall k c,
        calls q !! k = Some Caught -> calls q !! S k = Some Waiting ->
        is_Some (fire (Begin (S k) c) q))
  /\ (forall k p,
        calls q !! k = Some p -> settled p = false ->
        exists l, is_saveDb l = false /\ is_Some (fire l q))
  /\ (forall l q', fire l q = Some q' -> is_saveDb l = false ->
        (owed q' < owed q)%nat)
  /\ (exists ls' q',
        forallb (fun l => negb (is_saveDb l)) ls' = true
        /\ run ls' q = Some q'
        /\ length (calls q') = length (calls q)
        /\ forall k p, calls q' !! k = Some p -> settled p = true).
Proof.
  intros Hrun. destruct (run_chain_inv f ls q Hrun) as (n & Hb & Hinv).
  split; [by rewrite Hb, length_seq |].
  split.
  { intros i j pi pj Hi Hj Hai Haj.
    pose proof (active_last n q i pi Hinv Hi Hai).
    pose proof (active_last n q j pj Hinv Hj Haj). lia. }
  split.
  { intros i j pi pj Hlt Hi Hj Hs.
    destruct Hinv as (_ & Hst & Hse & _).
    apply (Hse i pi Hi). apply (Hst j pj Hj) in Hs. lia. }
  split.
  { intros k c Hk. destruct Hinv as (_ & _ & _ & Htmp & _).
    cbn. rewrite Hk, (Htmp k c Hk). eauto. }
  split.
  { intros k Hk. cbn. rewrite Hk. eexists. split; [reflexivity |].
    cbn. unfold set_phase. split.
    - apply list_lookup_insert_eq. by eapply lookup_lt_Some.
    - apply elem_of_app. right. by apply list_elem_of_singleton. }
  split; [by destruct Hinv as (_ & _ & _ & _ & Hlog) |].
  split.
  { intros k c Hk Hw. cbn. rewrite Hw, Hk. cbn. eauto. }
  split; [intros k p; by apply (chain_progress n q) |].
  split; [intros l q'; apply fire_owed |].
  by apply (chain_drains (owed q) n q).
Qed.

Lemma C9_saves_run_one_at_a_time_in_order_witness :
  begins [SaveDb; SaveDb; Begin 0 "A"; WriteErr 0; Log 0; Begin 1 "B"; WriteOk 1]
  = [0%nat; 1%nat]
  /\ exists q', fire (RenameOk 1)
                  (mkQueue [Caught; Renaming "B"] (Some "B") (Some "old") [0%nat])
                = Some q'
                /\ file q' = Some "B".
Proof.
  pose proof (C9_saves_run_one_at_a_time_in_order (Some "old")
                [SaveDb; SaveDb; Begin 0 "A"; WriteErr 0; Log 0; Begin 1 "B"; WriteOk 1]
                (mkQueue [Caught; Renaming "B"] (Some "B") (Some "old") [0%nat])
                eq_refl) as (Hb & _ & _ & Hren & _).
  split; [exact Hb |]. apply (Hren 1%nat "B"). reflexivity.
Defined.

(* ===================================================================== *)
(** * Further properties of the code around the ledger                    *)
(* ===================================================================== *)

Import TextUtil.

(** ** [pad] *)

Lemma append_cons c (s t : string) : String c s +:+ t = String c (s +:+ t).
Proof. reflexivity. Qed.

Lemma append_nil_l (t : string) : "" +:+ t = t.
Proof. reflexivity. Qed.

Lemma append_empty_r (s : string) : s +:+ "" = s.
Proof.
  induction s as [|c s IH]; [done |]. by rewrite append_cons, IH.
Qed.

Lemma length_append_str (s t : string) :
  String.length (s +:+ t) = (String.length s + String.length t)%nat.
Proof.
  induction s as [|c s IH]; [done |]. rewrite append_cons. cbn. by rewrite IH.
Qed.

Lemma length_repeat_space n : String.length (repeat_str " " n) = n.
Proof.
  induction n as [|n IH]; [done |]. cbn [repeat_str].
  rewrite append_cons, append_nil_l. cbn. by rewrite IH.
Qed.

(** X1: [pad(s, w)] has [max(s.length, w)] characters, starts with [s],
    adds nothing but spaces, leaves a text of at least [w] characters as it
    is, and padding a second time to the same width changes nothing. *)
Theorem X1_pad_width (s : string) (w : nat) :
  String.length (pad s w) = Nat.max (String.length s) w
  /\ pad s w = s +:+ repeat_str " " (w - String.length s)
  /\ ((w <= String.length s)%nat -> pad s w = s)
  /\ pad (pad s w) w = pad s w.
Proof.
  assert (String.length (pad s w) = Nat.max (String.length s) w) as Hlen.
  { unfold pad. destruct (w <=? String.length s)%nat eqn:E.
    - apply Nat.leb_le in E. lia.
    - apply Nat.leb_gt in E. rewrite length_append_str, length_repeat_space. lia. }
  split; [exact Hlen |]. split; [| split].
  - unfold pad. destruct (w <=? String.length s)%nat eqn:E; [| done].
    apply Nat.leb_le in E. replace (w - String.length s)%nat with 0%nat by lia.
    simpl. by rewrite append_empty_r.
  - intros H. unfold pad. by rewrite (proj2 (Nat.leb_le _ _) H).
  - unfold pad at 1. rewrite Hlen.
    by rewrite (proj2 (Nat.leb_le _ _) (Nat.le_max_r _ _)).
Qed.

Lemma X1_pad_width_witness :
  pad "Vadym" 8 = "Vadym   " /\ pad "Vadym" 3 = "Vadym".
Proof.
  destruct (X1_pad_width "Vadym" 3) as (_ & _ & H & _).
  split; [reflexivity |]. apply H. cbn. lia.
Defined.

(** ** [escapeM2] *)

Lemma backslash_special c : c = "\"%char -> is_special c = true.
Proof. by intros ->. Qed.

Lemma unescape_escapeM2 s : unescape (escapeM2 s) = s.
Proof.
  induction s as [|c s IH]; [done |]. cbn [escapeM2].
  destruct (is_special c) eqn:E.
  - cbn [unescape]. rewrite decide_True by done. by rewrite IH.
  - cbn [unescape]. destruct (decide (c = "\"%char)) as [Hc|Hc].
    + rewrite (backslash_special c Hc) in E. discriminate.
    + by rewrite IH.
Qed.

(** X2: [escapeM2] can be undone: dropping each escaping backslash gives
    the text back, so two different texts never escape to the same text;
    the result is at most twice as long, and a text without characters of
    the class is returned as it is. *)
Theorem X2_escapeM2_can_be_undone :
  (forall s, unescape (escapeM2 s) = s)
  /\ (forall s t, escapeM2 s = escapeM2 t -> s = t)
  /\ (forall s, (String.length s <= String.length (escapeM2 s)
                 <= 2 * String.length s)%nat)
  /\ (forall s, forallb (fun c => negb (is_special c)) (list_ascii_of_string s)
                = true -> escapeM2 s = s).
Proof.
  split; [exact unescape_escapeM2 |]. split; [| split].
  - intros s t H. rewrite <- (unescape_escapeM2 s), <- (unescape_escapeM2 t).
    by rewrite H.
  - induction s as [|c s IH]; [cbn; lia |]. cbn [escapeM2].
    destruct (is_special c); cbn [String.length]; lia.
  - induction s as [|c s IH]; [done |]. cbn [list_ascii_of_string forallb escapeM2].
    intros H. apply andb_prop in H as [Hc Hs].
    apply negb_true_iff in Hc. rewrite Hc. by rewrite IH.
Qed.

Lemma X2_escapeM2_can_be_undone_witness :
  escapeM2 "Vadym" = "Vadym" /\ unescape (escapeM2 "a_b.c") = "a_b.c".
Proof.
  destruct X2_escapeM2_can_be_undone as (H1 & _ & _ & H4).
  split; [apply H4; reflexivity | apply H1].
Defined.

Example escapeM2_name :
  escapeM2 "a_b.c" = "a\_b\.c" /\ escapeM2 "back\slash" = "back\\slash".
Proof. split; reflexivity. Qed.

(** ** The colour hashes *)

Lemma hash_loop_range seed : forall h,
  0 <= h < 2 ^ 32 -> 0 <= hash_loop h seed < 2 ^ 32.
Proof.
  induction seed as [|c r IH]; intros h Hh; [done |].
  cbn [hash_loop]. apply IH. apply Z.mod_pos_bound. lia.
Qed.

(** X3: the hash stays an unsigned 32-bit number; [randomNiceColor] always
    returns one of the ten colours of the palette, never [undefined]; the
    hue of [colorFromSeed] is from 0 to 359. *)
Theorem X3_colours_are_in_range (seed : string) :
  0 <= hash_loop 0 seed < 2 ^ 32
  /\ (exists col, randomNiceColor seed = Some col /\ col ∈ palette)
  /\ (exists hue, 0 <= hue < 360
        /\ colorFromSeed seed = "hsl(" +:+ String_of_Z hue +:+ ", 70%, 55%)").
Proof.
  pose proof (hash_loop_range seed 0 ltac:(lia)) as Hh.
  split; [exact Hh |]. split.
  - unfold randomNiceColor.
    destruct (lookup_lt_is_Some_2 palette
                (Z.to_nat (hash_loop 0 seed mod Z.of_nat (length palette))))
      as [col Hcol].
    { pose proof (Z.mod_pos_bound (hash_loop 0 seed) (Z.of_nat (length palette))).
      cbn in *. lia. }
    exists col. split; [done |]. by eapply list_elem_of_lookup_2.
  - exists (hash_loop 0 seed mod 360). split; [| done].
    apply Z.mod_pos_bound. lia.
Qed.

Example randomNiceColor_42 :
  randomNiceColor "42" = Some "#e15759"
  /\ colorFromSeed "42" = "hsl(222, 70%, 55%)".
Proof. split; vm_compute; reflexivity. Qed.

(** ** [replyChunked] *)

Lemma substring_take_drop s : forall n m,
  list_ascii_of_string (String.substring n m s)
  = take m (drop n (list_ascii_of_string s)).
Proof.
  induction s as [|c s IH]; intros n m.
  - destruct n, m; reflexivity.
  - destruct n as [|n].
    + destruct m as [|m]; [reflexivity |]. cbn. by rewrite IH.
    + cbn. apply IH.
Qed.

Lemma length_list_ascii s :
  length (list_ascii_of_string s) = String.length s.
Proof. induction s as [|c s IH]; cbn; [done | by rewrite IH]. Qed.

Lemma list_ascii_append (s t : string) :
  list_ascii_of_string (s +:+ t)
  = (list_ascii_of_string s ++ list_ascii_of_string t)%list.
Proof.
  induction s as [|c s IH]; [done |]. rewrite append_cons. cbn. by rewrite IH.
Qed.

Lemma list_ascii_concat (l : list string) :
  list_ascii_of_string (String.concat "" l)
  = mjoin (list_ascii_of_string <$> l).
Proof.
  induction l as [|x l IH]; [done |]. cbn [String.concat].
  destruct l as [|y l].
  - cbn. by rewrite app_nil_r.
  - rewrite !list_ascii_append, IH. reflexivity.
Qed.

Lemma chunks_from_join text chunkSize : forall fuel i,
  (0 < chunkSize)%nat -> (String.length text <= i + fuel)%nat ->
  mjoin (list_ascii_of_string <$> chunks_from fuel text i chunkSize)
  = drop i (list_ascii_of_string text).
Proof.
  intros fuel. induction fuel as [|f IH]; intros i Hc Hf.
  - cbn. rewrite drop_ge; [done |]. rewrite length_list_ascii. lia.
  - cbn [chunks_from]. destruct (i <? String.length text)%nat eqn:E.
    + cbn. rewrite IH by lia. unfold slice.
      rewrite substring_take_drop.
      replace (i + chunkSize - i)%nat with chunkSize by lia.
      rewrite <- (take_drop chunkSize (drop i (list_ascii_of_string text))) at 2.
      by rewrite drop_drop.
    + apply Nat.ltb_ge in E. cbn. rewrite drop_ge; [done |].
      rewrite length_list_ascii. lia.
Qed.

Lemma chunks_from_lookup text chunkSize : forall fuel i k c,
  (0 < chunkSize)%nat ->
  chunks_from fuel text i chunkSize !! k = Some c ->
  c = slice (i + k * chunkSize) (i + k * chunkSize + chunkSize) text
  /\ (i + k * chunkSize < String.length text)%nat.
Proof.
  intros fuel. induction fuel as [|f IH]; intros i k c Hc; [done |].
  cbn [chunks_from]. destruct (i <? String.length text)%nat eqn:E; [| done].
  apply Nat.ltb_lt in E. destruct k as [|k].
  - intros [= <-]. replace (i + 0 * chunkSize)%nat with i by lia. done.
  - intros H. cbn [lookup list_lookup] in H.
    destruct (IH _ _ _ Hc H) as [-> Hlt].
    replace (i + S k * chunkSize)%nat
      with (i + chunkSize + k * chunkSize)%nat by lia. done.
Qed.

Lemma chunks_from_length text chunkSize : forall fuel i,
  (0 < chunkSize)%nat -> (String.length text <= i + fuel)%nat ->
  (chunks_from fuel text i chunkSize = [] /\ (String.length text <= i)%nat)
  \/ ((i < String.length text)%nat
      /\ (String.length text
          <= i + length (chunks_from fuel text i chunkSize) * chunkSize
          < String.length text + chunkSize)%nat).
Proof.
  intros fuel. induction fuel as [|f IH]; intros i Hc Hf.
  - left. cbn. split; [done | lia].
  - cbn [chunks_from]. destruct (i <? String.length text)%nat eqn:E.
    + apply Nat.ltb_lt in E. right. split; [done |]. cbn [length].
      rewrite Nat.mul_succ_l.
      destruct (IH (i + chunkSize)%nat Hc ltac:(lia)) as [[-> H1] | [H1 H2]].
      * cbn. lia.
      * lia.
    + apply Nat.ltb_ge in E. by left.
Qed.

Lemma length_slice i j text :
  (i <= j)%nat ->
  String.length (slice i j text)
  = Nat.min (j - i) (String.length text - i).
Proof.
  intros Hij. unfold slice.
  rewrite <- length_list_ascii, substring_take_drop, length_take, length_drop.
  by rewrite length_list_ascii.
Qed.

(** X4: with a chunk size of at least 1, [replyChunked] loses nothing: the
    replies, in order, join up to the text; reply number [k] is
    [text.slice(k * chunkSize, (k + 1) * chunkSize)], it is not empty and
    has at most [chunkSize] characters; there are
    [ceil(text.length / chunkSize)] replies, none for the empty text. *)
Theorem X4_replyChunked_covers_the_text (text : string) (chunkSize : nat) :
  (0 < chunkSize)%nat ->
  String.concat "" (replyChunked text chunkSize) = text
  /\ (forall k c, replyChunked text chunkSize !! k = Some c ->
        c = slice (k * chunkSize) (k * chunkSize + chunkSize) text
        /\ (0 < String.length c <= chunkSize)%nat)
  /\ (String.length text <= length (replyChunked text chunkSize) * chunkSize
      < String.length text + chunkSize)%nat
  /\ (text = "" -> replyChunked text chunkSize = []).
Proof.
  intros Hc. unfold replyChunked. split; [| split; [| split]].
  - rewrite <- (string_of_list_ascii_of_string (String.concat "" _)).
    rewrite list_ascii_concat, chunks_from_join by (cbn; lia).
    cbn [drop]. apply string_of_list_ascii_of_string.
  - intros k c H. destruct (chunks_from_lookup _ _ _ _ _ _ Hc H) as [Hk Hlt].
    cbn in Hk, Hlt. split; [done |]. rewrite Hk, length_slice by lia. lia.
  - destruct (chunks_from_length text chunkSize (String.length text) 0 Hc
                ltac:(lia)) as [[-> H1] | [H1 H2]]; cbn in *; lia.
  - by intros ->.
Qed.

Lemma X4_replyChunked_covers_the_text_witness :
  String.concat "" (replyChunked "abcdefg" 3) = "abcdefg"
  /\ replyChunked "abcdefg" 3 = ["abc"; "def"; "g"].
Proof.
  split; [| reflexivity].
  apply (proj1 (X4_replyChunked_covers_the_text "abcdefg" 3 ltac:(lia))).
Defined.

Import RunMore.

(** ** One user's message and the other users *)

Lemma addStairs_other ts uid un amount k d j :
  j <> uid -> users (addStairs ts uid un amount k d) !! j = users d !! j.
Proof. intros H. unfold addStairs. cbn. by rewrite lookup_insert_ne. Qed.

Lemma register_other ts uid msg d j :
  j <> uid -> users (register ts uid msg d) !! j = users d !! j.
Proof. intros H. unfold register. cbn. by rewrite lookup_insert_ne. Qed.

Lemma adjustDay_other ts uid iso n d j :
  j <> uid -> users (fst (adjustDay ts uid iso n d)) !! j = users d !! j.
Proof.
  intros H. unfold adjustDay. destruct (users d !! uid) as [u|]; [| done].
  repeat match goal with |- context [if ?b then _ else _] =>
    destruct b; try done end;
  cbn; by rewrite lookup_insert_ne.
Qed.

Section Frame.
Variable Number : string -> jsnum.

Lemma on_number_other c uid un msg md st j :
  j <> uid ->
  users (db (fst (on_number Number c uid un msg md st))) !! j
  = users (db st) !! j.
Proof.
  intros H. unfold on_number.
  destruct (Number msg) as [z|]; [| done].
  destruct (z <=? 0); [done |]. cbv zeta.
  destruct md; [| destruct (_ <? z)]; cbn; by rewrite lookup_insert_ne.
Qed.

Lemma on_text_other c uid un text st r j :
  j <> uid -> on_text Number c uid un text st = Some r ->
  users (db (fst r)) !! j = users (db st) !! j.
Proof.
  intros H. unfold on_text. destruct (decide (uid ∈ awaitingName st)).
  - destruct (startsWith_slash (trim text)); [by intros [= <-] |].
    destruct (_ || _); intros [= <-]; [done |]. cbn. by apply register_other.
  - destruct (pendingNumber st !! uid) as [md|]; [| discriminate].
    destruct (startsWith_slash (trim text)); [discriminate |].
    intros [= <-]. by apply on_number_other.
Qed.

Lemma handle_other c e st j :
  j <> sender e ->
  users (db (fst (handle Number c e st))) !! j = users (db st) !! j.
Proof.
  intros H.
  destruct e as [uid | uid un args | uid un text | uid un da aa | md uid un];
    cbn [handle sender] in *.
  - by rewrite on_start_db.
  - unfold on_stairs. destruct (negb (isRegistered _ _)); [done |].
    destruct (negb (truthy_str args)); [done |].
    destruct (Number args) as [z|]; [| done].
    destruct (z <=? 0); [done |]. cbn. by apply addStairs_other.
  - destruct (on_text _ _ _ _ _ _) as [r|] eqn:E; [| done].
    by eapply on_text_other.
  - destruct (on_text _ _ _ _ _ _) as [r|] eqn:E; [by eapply on_text_other |].
    destruct (on_update_db Number c uid da aa st) as [-> | (iso & z & ->)];
      [done | by apply adjustDay_other].
  - destruct (on_text _ _ _ _ _ _) as [r|] eqn:E; [by eapply on_text_other |].
    by rewrite on_button_db.
Qed.

Lemma other_in_remove (s : gset string) uid j :
  j <> uid -> j ∈ s ∖ {[uid]} <-> j ∈ s.
Proof. intros H. rewrite elem_of_difference, elem_of_singleton. tauto. Qed.

Lemma other_in_add (s : gset string) uid j :
  j <> uid -> j ∈ {[uid]} ∪ s <-> j ∈ s.
Proof. intros H. rewrite elem_of_union, elem_of_singleton. tauto. Qed.

Lemma on_number_awaiting c uid un msg md st :
  awaitingName (fst (on_number Number c uid un msg md st)) = awaitingName st.
Proof.
  unfold on_number. destruct (Number msg) as [z|]; [| done].
  destruct (z <=? 0); [done |]. cbv zeta.
  destruct md; [| destruct (_ <? z)]; done.
Qed.

Lemma on_update_awaiting c uid da aa st :
  awaitingName (fst (on_update Number c uid da aa st)) = awaitingName st.
Proof.
  unfold on_update. destruct (negb (isRegistered _ _)); [done |].
  destruct da as [da|], aa as [aa|]; try done.
  destruct (_ || _); [done |].
  destruct (parseUserDate c da) as [iso|]; [| done].
  destruct (negb (truthy_str iso)); [done |].
  destruct (Number aa) as [z|]; [| done].
  by destruct (adjustDay _ _ _ _ _).
Qed.

Lemma on_button_awaiting md uid st :
  awaitingName (fst (on_button md uid st)) = awaitingName st.
Proof. unfold on_button. by destruct (negb _). Qed.

Lemma on_text_awaiting_other c uid un text st r j :
  j <> uid -> on_text Number c uid un text st = Some r ->
  j ∈ awaitingName (fst r) <-> j ∈ awaitingName st.
Proof.
  intros H. unfold on_text. destruct (decide (uid ∈ awaitingName st)).
  - destruct (startsWith_slash (trim text)); [by intros [= <-] |].
    destruct (_ || _); intros [= <-]; [done |]. cbn. by apply other_in_remove.
  - destruct (pendingNumber st !! uid) as [md|]; [| discriminate].
    destruct (startsWith_slash (trim text)); [discriminate |].
    intros [= <-]. by rewrite on_number_awaiting.
Qed.

Lemma handle_awaiting_other c e st j :
  j <> sender e ->
  j ∈ awaitingName (fst (handle Number c e st)) <-> j ∈ awaitingName st.
Proof.
  intros H.
  destruct e as [uid | uid un args | uid un text | uid un da aa | md uid un];
    cbn [handle sender] in *.
  - unfold on_start. destruct (users (db st) !! uid) as [u|];
      [destruct (truthy_str (name u)) |]; cbn;
      by (apply other_in_remove || apply other_in_add).
  - unfold on_stairs. destruct (negb (isRegistered _ _)); [done |].
    destruct (negb (truthy_str args)); [done |].
    destruct (Number args) as [z|]; [| done].
    destruct (z <=? 0); done.
  - destruct (on_text _ _ _ _ _ _) as [r|] eqn:E; [| done].
    by eapply on_text_awaiting_other.
  - destruct (on_text _ _ _ _ _ _) as [r|] eqn:E;
      [by eapply on_text_awaiting_other | by rewrite on_update_awaiting].
  - destruct (on_text _ _ _ _ _ _) as [r|] eqn:E;
      [by eapply on_text_awaiting_other | by rewrite on_button_awaiting].
Qed.

End Frame.

(** X5: a message changes no record but the sender's, and does not change
    whether another user's name is awaited. *)
Theorem X5_a_message_touches_only_its_sender
    (Number : string -> jsnum) (c : clock) (e : event) (st : bot) (j : string) :
  j <> sender e ->
  users (db (fst (handle Number c e st))) !! j = users (db st) !! j
  /\ (j ∈ awaitingName (fst (handle Number c e st)) <-> j ∈ awaitingName st).
Proof.
  intros H. split; [by apply handle_other | by apply handle_awaiting_other].
Qed.

Lemma X5_a_message_touches_only_its_sender_witness :
  users (db (fst (handle Number_decimal c2 (Stairs "42" None "5")
                    (boot forty)))) !! "7"
  = users forty !! "7".
Proof.
  apply (X5_a_message_touches_only_its_sender Number_decimal c2
           (Stairs "42" None "5") (boot forty) "7").
  discriminate.
Defined.

(** ** Records stay, and the two gates *)

Section Gates.
Variable Number : string -> jsnum.

(** A handler leaves [db.users] alone or assigns the sender's entry. *)
Lemma handle_users_shape c e st :
  users (db (fst (handle Number c e st))) = users (db st)
  \/ exists u', users (db (fst (handle Number c e st)))
                = <[sender e := u']> (users (db st)).
Proof.
  assert (forall uid un msg md,
            users (db (fst (on_number Number c uid un msg md st))) = users (db st)
            \/ exists u', users (db (fst (on_number Number c uid un msg md st)))
                          = <[uid := u']> (users (db st))) as Hnum.
  { intros uid un msg md. unfold on_number.
    destruct (Number msg) as [z|]; [| by left].
    destruct (z <=? 0); [by left |]. cbv zeta.
    destruct md; [| destruct (_ <? z)]; right; eexists; reflexivity. }
  assert (forall uid un text r,
            on_text Number c uid un text st = Some r ->
            users (db (fst r)) = users (db st)
            \/ exists u', users (db (fst r)) = <[uid := u']> (users (db st)))
    as Htext.
  { intros uid un text r. unfold on_text.
    destruct (decide (uid ∈ awaitingName st)).
    - destruct (startsWith_slash (trim text)); [intros [= <-]; by left |].
      destruct (_ || _); intros [= <-]; [by left |].
      right. eexists. reflexivity.
    - destruct (pendingNumber st !! uid) as [md|]; [| discriminate].
      destruct (startsWith_slash (trim text)); [discriminate |].
      intros [= <-]. apply Hnum. }
  destruct e as [uid | uid un args | uid un text | uid un da aa | md uid un];
    cbn [handle sender].
  - left. by rewrite on_start_db.
  - unfold on_stairs. destruct (negb (isRegistered _ _)); [by left |].
    destruct (negb (truthy_str args)); [by left |].
    destruct (Number args) as [z|]; [| by left].
    destruct (z <=? 0); [by left |]. right. eexists. reflexivity.
  - destruct (on_text _ _ _ _ _ _) as [r|] eqn:E; [by eapply Htext | by left].
  - destruct (on_text _ _ _ _ _ _) as [r|] eqn:E; [by eapply Htext |].
    destruct (on_update_db Number c uid da aa st) as [-> | (iso & z & ->)];
      [by left |].
    unfold adjustDay. destruct (users (db st) !! uid) as [u|]; [| by left].
    repeat match goal with |- context [if ?b then _ else _] =>
      destruct b; try (by left) end;
    right; eexists; reflexivity.
  - destruct (on_text _ _ _ _ _ _) as [r|] eqn:E; [by eapply Htext |].
    left. by rewrite on_button_db.
Qed.

Lemma handle_keeps_records c e st x :
  is_Some (users (db st) !! x) ->
  is_Some (users (db (fst (handle Number c e st))) !! x).
Proof.
  intros H. destruct (handle_users_shape c e st) as [-> | [u' ->]]; [done |].
  apply lookup_insert_is_Some'. by right.
Qed.

Lemma handle_keeps_registered c e st x :
  names_ok (db st) -> isRegistered (db st) x = true ->
  isRegistered (db (fst (handle Number c e st))) x = true.
Proof.
  intros Hn Hr. apply (isRegistered_iff _ _ (handle_names Number c e st Hn)).
  apply handle_keeps_records. by apply (isRegistered_iff _ _ Hn).
Qed.

Lemma unregistered_no_record d uid :
  users d !! uid = None -> isRegistered d uid = false.
Proof. unfold isRegistered. by intros ->. Qed.

(** The sender is still awaited only where the handler changed nothing. *)
Lemma handle_awaiting_sender c e st :
  gates st -> names_ok (db st) ->
  sender e ∈ awaitingName (fst (handle Number c e st)) ->
  users (db (fst (handle Number c e st))) !! sender e = None.
Proof.
  intros [Hg1 Hg2] Hn.
  assert (forall uid un text r,
            on_text Number c uid un text st = Some r ->
            uid ∈ awaitingName (fst r) -> users (db (fst r)) !! uid = None)
    as Htext.
  { intros uid un text r. unfold on_text.
    destruct (decide (uid ∈ awaitingName st)) as [Hin|Hnin].
    - destruct (startsWith_slash (trim text)); [intros [= <-] _; by apply Hg1 |].
      destruct (_ || _); intros [= <-]; [intros _; by apply Hg1 |].
      cbn. rewrite elem_of_difference, elem_of_singleton. tauto.
    - destruct (pendingNumber st !! uid) as [md|]; [| discriminate].
      destruct (startsWith_slash (trim text)); [discriminate |].
      intros [= <-]. by rewrite on_number_awaiting. }
  destruct e as [uid | uid un args | uid un text | uid un da aa | md uid un];
    cbn [handle sender].
  - unfold on_start. destruct (users (db st) !! uid) as [u|] eqn:Hu; [| done].
    unfold truthy_str. destruct (decide (name u = "")) as [Hname|Hname].
    + exfalso. by eapply Hn.
    + cbn. rewrite elem_of_difference, elem_of_singleton. tauto.
  - unfold on_stairs. destruct (isRegistered (db st) uid) eqn:Hr; cbn [negb].
    + destruct (negb (truthy_str args)); [apply Hg1 |].
      destruct (Number args) as [z|]; [| apply Hg1].
      destruct (z <=? 0); [apply Hg1 |]. cbn. intros Hin.
      apply Hg1, unregistered_no_record in Hin. congruence.
    + apply Hg1.
  - destruct (on_text _ _ _ _ _ _) as [r|] eqn:E; [by eapply Htext | apply Hg1].
  - destruct (on_text _ _ _ _ _ _) as [r|] eqn:E; [by eapply Htext |].
    rewrite on_update_awaiting. intros Hin. pose proof (Hg1 _ Hin) as Hnone.
    unfold on_update.
    by rewrite (unregistered_no_record _ _ Hnone).
  - destruct (on_text _ _ _ _ _ _) as [r|] eqn:E; [by eapply Htext |].
    rewrite on_button_awaiting, on_button_db. apply Hg1.
Qed.

(** An awaited number was asked of a registered user. *)
Lemma handle_pending c e st x md :
  pendingNumber (fst (handle Number c e st)) !! x = Some md ->
  pendingNumber st !! x = Some md
  \/ isRegistered (db st) x = true.
Proof.
  assert (forall uid un msg md',
            pendingNumber (fst (on_number Number c uid un msg md' st)) !! x
              = Some md -> pendingNumber st !! x = Some md) as Hnum.
  { intros uid un msg md'. unfold on_number.
    destruct (Number msg) as [z|];
      [destruct (z <=? 0); [| cbv zeta; destruct md';
                                [| destruct (_ <? z)]] |];
      cbn; intros H; apply lookup_delete_Some in H; tauto. }
  assert (forall uid un text r,
            on_text Number c uid un text st = Some r ->
            pendingNumber (fst r) !! x = Some md ->
            pendingNumber st !! x = Some md) as Htext.
  { intros uid un text r. unfold on_text.
    destruct (decide (uid ∈ awaitingName st)).
    - destruct (startsWith_slash (trim text)); [by intros [= <-] |].
      destruct (_ || _); by intros [= <-].
    - destruct (pendingNumber st !! uid) as [md'|]; [| discriminate].
      destruct (startsWith_slash (trim text)); [discriminate |].
      intros [= <-]. apply Hnum. }
  destruct e as [uid | uid un args | uid un text | uid un da aa | md' uid un];
    cbn [handle].
  - unfold on_start. destruct (users (db st) !! uid) as [u|];
      [destruct (truthy_str (name u)) |]; by left.
  - unfold on_stairs. destruct (negb (isRegistered _ _)); [by left |].
    destruct (negb (truthy_str args)); [by left |].
    destruct (Number args) as [z|]; [| by left].
    destruct (z <=? 0); by left.
  - destruct (on_text _ _ _ _ _ _) as [r|] eqn:E; [| by left].
    left. by eapply Htext.
  - destruct (on_text _ _ _ _ _ _) as [r|] eqn:E; [left; by eapply Htext |].
    left. revert H. unfold on_update.
    destruct (negb (isRegistered _ _)); [done |].
    destruct da as [da|], aa as [aa|]; try done.
    destruct (_ || _); [done |].
    destruct (parseUserDate c da) as [iso|]; [| done].
    destruct (negb (truthy_str iso)); [done |].
    destruct (Number aa) as [z|]; [| done].
    by destruct (adjustDay _ _ _ _ _).
  - destruct (on_text _ _ _ _ _ _) as [r|] eqn:E; [left; by eapply Htext |].
    unfold on_button. destruct (isRegistered (db st) uid) eqn:Hr; cbn [negb];
      [| by left].
    cbn. rewrite lookup_insert. case_decide; [subst; by right | by left].
Qed.

Lemma handle_gates c e st :
  gates st -> names_ok (db st) -> gates (fst (handle Number c e st)).
Proof.
  intros Hg Hn. split.
  - intros x Hx. destruct (decide (x = sender e)) as [-> | Hne].
    + by apply handle_awaiting_sender.
    + rewrite handle_other by done. apply (proj1 Hg).
      by apply (handle_awaiting_other Number c e st x Hne).
  - intros x md Hp. destruct (handle_pending c e st x md Hp) as [H | H].
    + apply handle_keeps_registered; [done |]. by eapply (proj2 Hg).
    + by apply handle_keeps_registered.
Qed.

Lemma boot_gates d : gates (boot d).
Proof.
  split; [intros uid H; by apply not_elem_of_empty in H |].
  intros uid md. cbn. by rewrite lookup_empty.
Qed.

Lemma reachable_gates st : reachable Number st -> gates st.
Proof.
  induction 1 as [c | c st stamp Hr IH | c st3 H3 | c e st Hr IH];
    try apply boot_gates.
  apply handle_gates; [done |]. by apply (reachable_names Number st Hr).
Qed.

End Gates.

(** X6: in every reachable state a user whose name is awaited has no
    record and a user whose number is awaited is registered; so a name that
    is saved always makes a new record with total 0 and no days. *)
Theorem X6_gates_of_the_handlers (Number : string -> jsnum) (st : bot) :
  reachable Number st ->
  (forall uid, uid ∈ awaitingName st -> users (db st) !! uid = None)
  /\ (forall uid md, pendingNumber st !! uid = Some md ->
        isRegistered (db st) uid = true)
  /\ (forall c uid un text st' nm,
        on_text Number c uid un text st = Some (st', NameSaved nm) ->
        users (db st') !! uid = Some (mkUser nm (Some 0) (Some ∅) (now c))).
Proof.
  intros Hr. destruct (reachable_gates Number st Hr) as [Hg1 Hg2].
  split; [exact Hg1 |]. split; [exact Hg2 |].
  intros c uid un text st' nm. unfold on_text.
  destruct (decide (uid ∈ awaitingName st)) as [Hin|Hnin].
  - destruct (startsWith_slash (trim text)); [discriminate |].
    destruct (_ || _); [discriminate |]. intros [= <- <-]. cbn.
    unfold register, record_or. rewrite (Hg1 _ Hin). cbn.
    by rewrite lookup_insert_eq.
  - destruct (pendingNumber st !! uid) as [md|]; [| discriminate].
    destruct (startsWith_slash (trim text)); [discriminate |].
    unfold on_number. destruct (Number (trim text)) as [z|]; [| discriminate].
    destruct (z <=? 0); [discriminate |]. cbv zeta.
    destruct md; [discriminate |]. destruct (_ <? z); discriminate.
Qed.

Lemma X6_gates_of_the_handlers_witness :
  users (db s1) !! "42" = None.
Proof.
  apply (proj1 (X6_gates_of_the_handlers Number_decimal s1
                  ltac:(apply reach_step, reach_fresh)) "42").
  apply elem_of_union. left. by apply elem_of_singleton.
Defined.

(** X7: in every reachable state a message from a user without a record
    leaves the ledger as it is, unless the user's name is awaited and the
    message is saved as the name. *)
Theorem X7_no_record_no_change
    (Number : string -> jsnum) (c : clock) (e : event) (st : bot) :
  reachable Number st ->
  users (db st) !! sender e = None ->
  db (fst (handle Number c e st)) = db st
  \/ (sender e ∈ awaitingName st
      /\ exists nm, snd (handle Number c e st) = NameSaved nm).
Proof.
  intros Hr Hnone. destruct (reachable_gates Number st Hr) as [Hg1 Hg2].
  pose proof (unregistered_no_record _ _ Hnone) as Hunreg.
  assert (forall uid un text r,
            uid = sender e ->
            on_text Number c uid un text st = Some r ->
            db (fst r) = db st
            \/ (uid ∈ awaitingName st /\ exists nm, snd r = NameSaved nm))
    as Htext.
  { intros uid un text r ->. unfold on_text.
    destruct (decide (sender e ∈ awaitingName st)) as [Hin|Hnin].
    - destruct (startsWith_slash (trim text)); [intros [= <-]; by left |].
      destruct (_ || _); intros [= <-]; [by left |]. right. eauto.
    - destruct (pendingNumber st !! sender e) as [md|] eqn:Hp; [| discriminate].
      rewrite (Hg2 _ _ Hp) in Hunreg. discriminate. }
  destruct e as [uid | uid un args | uid un text | uid un da aa | md uid un];
    cbn [handle sender] in *.
  - left. by rewrite on_start_db.
  - left. unfold on_stairs. by rewrite Hunreg.
  - destruct (on_text _ _ _ _ _ _) as [r|] eqn:E; [by eapply Htext | by left].
  - destruct (on_text _ _ _ _ _ _) as [r|] eqn:E; [by eapply Htext |].
    left. unfold on_update. by rewrite Hunreg.
  - destruct (on_text _ _ _ _ _ _) as [r|] eqn:E; [by eapply Htext |].
    left. by rewrite on_button_db.
Qed.

Lemma X7_no_record_no_change_witness :
  db (fst (handle Number_decimal c2 (Stairs "99" None "5") s5)) = db s5
  \/ ("99" ∈ awaitingName s5
      /\ exists nm,
           snd (handle Number_decimal c2 (Stairs "99" None "5") s5)
           = NameSaved nm).
Proof.
  apply (X7_no_record_no_change Number_decimal c2 (Stairs "99" None "5") s5).
  - do 5 apply reach_step. apply reach_fresh.
  - vm_compute. reflexivity.
Defined.

(** X8: no run of the current program removes a record: a user who has a
    record keeps one, and a registered user stays registered. *)
Theorem X8_records_are_never_removed
    (Number : string -> jsnum) (st st' : bot) :
  steps Number st st' ->
  (forall x, is_Some (users (db st) !! x) -> is_Some (users (db st') !! x))
  /\ (names_ok (db st) ->
      forall x, isRegistered (db st) x = true -> isRegistered (db st') x = true).
Proof.
  induction 1 as [st | c e st st' Hs IH].
  - split; [done | auto].
  - destruct IH as [IH1 IH2]. split.
    + intros x Hx. apply IH1. by apply handle_keeps_records.
    + intros Hn x Hx. apply IH2; [by apply handle_names |].
      by apply handle_keeps_registered.
Qed.

Lemma X8_records_are_never_removed_witness :
  is_Some (users (db s5) !! "42").
Proof.
  apply (proj1 (X8_records_are_never_removed Number_decimal s3 s5
                  ltac:(eapply steps_cons, steps_cons, steps_refl)) "42").
  eexists. vm_compute. reflexivity.
Defined.

(** ** From [/start] to the first stairs *)

(** X9: for a user without a record, [/start] asks for the name, a text of
    2 to 40 characters that is no command then makes the record (that
    name, total 0, no days), registers the user and stops the waiting, and
    a [/stairs n] with a positive integer up to 2^53 after that is
    accepted: the reply reports total [n] and the record holds [n] on
    today's key. *)
Theorem X9_start_name_stairs
    (Number : string -> jsnum) (c0 c1 c2 : clock)
    (uid : string) (un : option string) (text args : string) (n : Z)
    (st : bot) :
  users (db st) !! uid = None ->
  startsWith_slash (trim text) = false ->
  (2 <= String.length (trim text) <= 40)%nat ->
  args <> "" -> Number args = JInt n -> 0 < n <= 2 ^ 53 ->
  let st1 := fst (handle Number c0 (Start uid) st) in
  let st2 := fst (handle Number c1 (Text uid un text) st1) in
  let st3 := fst (handle Number c2 (Stairs uid un args) st2) in
  snd (handle Number c0 (Start uid) st) = AskName
  /\ users (db st2) !! uid
     = Some (mkUser (trim text) (Some 0) (Some ∅) (now c1))
  /\ isRegistered (db st2) uid = true
  /\ (uid ∉ awaitingName st2)
  /\ snd (handle Number c2 (Stairs uid un args) st2) = StairsAdded n n
  /\ users (db st3) !! uid
     = Some (mkUser (trim text) (Some n) (Some {[ todayKey c2 := n ]}) (now c2)).
Proof.
  intros Hnone Hslash Hlen Hargs HN Hn. cbv zeta.
  assert (handle Number c0 (Start uid) st
          = (mkBot (db st) ({[uid]} ∪ awaitingName st) (pendingNumber st),
             AskName)) as E1.
  { cbn. unfold on_start. by rewrite Hnone. }
  rewrite E1. cbn [fst snd].
  assert (handle Number c1 (Text uid un text)
            (mkBot (db st) ({[uid]} ∪ awaitingName st) (pendingNumber st))
          = (mkBot (register (now c1) uid (trim text) (db st))
                   (({[uid]} ∪ awaitingName st) ∖ {[uid]}) (pendingNumber st),
             NameSaved (trim text))) as E2.
  { cbn. unfold on_text. cbn [awaitingName].
    rewrite decide_True by (apply elem_of_union; left; by apply elem_of_singleton).
    rewrite Hslash.
    replace (_ || _) with false; [done |].
    symmetry. apply orb_false_intro; apply Nat.ltb_ge; lia. }
  rewrite E2. cbn [fst snd db awaitingName].
  assert (users (register (now c1) uid (trim text) (db st)) !! uid
          = Some (mkUser (trim text) (Some 0) (Some ∅) (now c1))) as Hrec.
  { unfold register, record_or. rewrite Hnone. cbn. by rewrite lookup_insert_eq. }
  assert (trim text <> "") as Hne.
  { intros E. rewrite E in Hlen. cbn in Hlen. lia. }
  assert (isRegistered (register (now c1) uid (trim text) (db st)) uid = true)
    as Hreg.
  { unfold isRegistered. rewrite Hrec. cbn. unfold truthy_str.
    by rewrite decide_False. }
  split; [done |]. split; [done |]. split; [done |].
  split; [rewrite elem_of_difference, elem_of_singleton; tauto |].
  cbn [handle]. unfold on_stairs. cbn [db]. rewrite Hreg. cbn [negb].
  unfold truthy_str. rewrite decide_False by done. cbn [negb].
  rewrite HN. replace (n <=? 0) with false by lia.
  assert (users (addStairs (now c2) uid un n (todayKey c2)
                   (register (now c1) uid (trim text) (db st))) !! uid
          = Some (mkUser (trim text) (Some n) (Some {[ todayKey c2 := n ]})
                    (now c2))) as Hadd.
  { rewrite addStairs_lookup. cbv zeta.
    rewrite (record_or_Some _ _ _ _ Hrec). unfold days_or_empty.
    cbn [name total days]. rewrite lookup_empty. cbn [or0].
    rewrite insert_empty. change (0 =? 0) with true. cbv iota.
    by rewrite jsadd_exact by lia. }
  cbn [fst snd set_db db]. rewrite Hadd. cbn [from_option total].
  rewrite or0_Some. split; reflexivity.
Qed.

Lemma X9_start_name_stairs_witness :
  users (db s3) !! "42"
  = Some (mkUser "Vadym" (Some 120) (Some {[ "2024-03-01" := 120 ]})
            "2024-03-01T08:00:00.000Z").
Proof.
  apply (X9_start_name_stairs Number_decimal c1 c1 c1 "42" None "Vadym" "120"
           120 s0); try reflexivity; try discriminate.
  - vm_compute. lia.
  - vm_compute. split; [reflexivity | discriminate].
Defined.

(** ** Accepted adjustments *)

Lemma adjustDay_accepts ts uid iso n d u ds :
  users d !! uid = Some u -> days u = Some ds -> nonneg ds ->
  exact_sum ds <= 2 ^ 53 -> exact_sum ds + n <= 2 ^ 53 ->
  0 <= n \/ (0 < or0 (ds !! iso) /\ - n <= or0 (ds !! iso)) ->
  adjustDay ts uid iso n d
  = (set_users
       (<[uid := mkUser (name u) (Some (exact_sum ds + n))
                   (Some (<[iso := or0 (ds !! iso) + n]> ds)) ts]> (users d)) d,
     Updated iso (or0 (ds !! iso)) n (or0 (ds !! iso) + n) (exact_sum ds + n)).
Proof.
  intros Hu Hds Hnn Hs Hsn Hacc. unfold adjustDay. rewrite Hu.
  rewrite (days_or_empty_Some _ _ Hds).
  pose proof (nonneg_or0 ds iso Hnn) as Hcur.
  pose proof (exact_sum_lookup_le ds iso Hnn) as Hle.
  replace ((n <? 0) && (or0 (ds !! iso) =? 0)) with false by lia.
  replace ((n <? 0) && (or0 (ds !! iso) <? Z.abs n)) with false by lia.
  rewrite jsadd_exact by lia.
  replace (or0 (ds !! iso) + n <? 0) with false by lia.
  rewrite sum_days_exact.
  - rewrite exact_sum_insert.
    replace (exact_sum ds - or0 (ds !! iso) + (or0 (ds !! iso) + n))
      with (exact_sum ds + n) by lia.
    reflexivity.
  - apply nonneg_insert; [done | lia].
  - rewrite exact_sum_insert. lia.
Qed.

(** X10: on a record whose days are not negative and add up to at most
    2^53, before and after, an adjustment that is not refused (an amount of
    at least 0, or a negative amount that the day can give) sets the day to
    its old value plus the amount and the total to the sum of the days plus
    the amount, which is the old total plus the amount when the total was
    the sum of the days; the new value of the day is not negative, so the
    clamp at 0 of the source never applies. *)
Theorem X10_update_adds_to_day_and_total
    (ts uid iso : string) (n : Z) (d : database) (u : user)
    (ds : gmap string Z) :
  users d !! uid = Some u -> days u = Some ds -> nonneg ds ->
  exact_sum ds <= 2 ^ 53 -> exact_sum ds + n <= 2 ^ 53 ->
  0 <= n \/ (0 < or0 (ds !! iso) /\ - n <= or0 (ds !! iso)) ->
  adjustDay ts uid iso n d
  = (set_users
       (<[uid := mkUser (name u) (Some (exact_sum ds + n))
                   (Some (<[iso := or0 (ds !! iso) + n]> ds)) ts]> (users d)) d,
     Updated iso (or0 (ds !! iso)) n (or0 (ds !! iso) + n) (exact_sum ds + n))
  /\ 0 <= or0 (ds !! iso) + n
  /\ (total u = Some (exact_sum ds) ->
      exact_sum ds + n = or0 (total u) + n).
Proof.
  intros Hu Hds Hnn Hs Hsn Hacc. split; [by apply adjustDay_accepts |].
  pose proof (nonneg_or0 ds iso Hnn). split; [lia |].
  intros ->. by rewrite or0_Some.
Qed.

Lemma X10_update_adds_to_day_and_total_witness :
  0 <= or0 (({[ "2024-01-01" := 3 ]} : gmap string Z) !! "2024-01-01") + -2.
Proof.
  apply (proj1 (proj2 (X10_update_adds_to_day_and_total "t1" "u" "2024-01-01"
                  (-2) three
                  (mkUser "Ann" (Some 3) (Some {[ "2024-01-01" := 3 ]}) "t0")
                  {[ "2024-01-01" := 3 ]} eq_refl eq_refl
                  ltac:(intros k v; rewrite lookup_singleton_Some;
                        intros [_ <-]; lia)
                  ltac:(vm_compute; discriminate)
                  ltac:(vm_compute; discriminate)
                  ltac:(right; vm_compute; split; [reflexivity | discriminate])))).
Defined.

(** X11: on a record whose days are not negative, adding a positive amount
    to a day and then taking the same amount away, the sum staying at or
    below 2^53, gives back the value of the day and a total equal to the
    sum of the days; the days as a whole are the same when the day had an
    entry, and gain an entry with value 0 when it had none. *)
Theorem X11_add_then_take_away
    (ts1 ts2 uid iso : string) (n : Z) (d : database) (u : user)
    (ds : gmap string Z) :
  users d !! uid = Some u -> days u = Some ds -> nonneg ds -> 0 < n ->
  exact_sum ds + n <= 2 ^ 53 ->
  users (fst (adjustDay ts2 uid iso (- n)
                (fst (adjustDay ts1 uid iso n d)))) !! uid
  = Some (mkUser (name u) (Some (exact_sum ds))
            (Some (<[iso := or0 (ds !! iso)]> ds)) ts2)
  /\ (forall v, ds !! iso = Some v -> <[iso := or0 (ds !! iso)]> ds = ds)
  /\ (ds !! iso = None -> <[iso := or0 (ds !! iso)]> ds = <[iso := 0]> ds).
Proof.
  intros Hu Hds Hnn Hn Hle.
  pose proof (nonneg_or0 ds iso Hnn) as Hcur.
  pose proof (exact_sum_nonneg ds Hnn) as Hsum0.
  split; [| split].
  - rewrite (adjustDay_accepts ts1 uid iso n d u ds) by (try done; lia).
    cbn [fst].
    set (ds1 := <[iso := or0 (ds !! iso) + n]> ds).
    assert (exact_sum ds1 = exact_sum ds + n) as Hsum.
    { unfold ds1. rewrite exact_sum_insert. lia. }
    assert (or0 (ds1 !! iso) = or0 (ds !! iso) + n) as Hval.
    { unfold ds1. by rewrite lookup_insert_eq, or0_Some. }
    rewrite (adjustDay_accepts ts2 uid iso (- n) _
               (mkUser (name u) (Some (exact_sum ds + n)) (Some ds1) ts1) ds1).
    + cbn. rewrite lookup_insert_eq. f_equal. f_equal.
      * f_equal. lia.
      * f_equal. unfold ds1 at 2. rewrite insert_insert_eq. f_equal. lia.
    + cbn. by rewrite lookup_insert_eq.
    + done.
    + unfold ds1. apply nonneg_insert; [done | lia].
    + lia.
    + lia.
    + right. lia.
  - intros v Hv. rewrite Hv, or0_Some. by apply insert_id.
  - by intros ->.
Qed.

Lemma X11_add_then_take_away_witness :
  users (fst (adjustDay "t2" "u" "2024-01-01" (- 4)
                (fst (adjustDay "t1" "u" "2024-01-01" 4 three)))) !! "u"
  = Some (mkUser "Ann"
            (Some (exact_sum ({[ "2024-01-01" := 3 ]} : gmap string Z)))
            (Some (<["2024-01-01" :=
                      or0 (({[ "2024-01-01" := 3 ]} : gmap string Z)
                             !! "2024-01-01")]>
                     ({[ "2024-01-01" := 3 ]} : gmap string Z))) "t2").
Proof.
  apply (proj1 (X11_add_then_take_away "t1" "t2" "u" "2024-01-01" 4 three
                  (mkUser "Ann" (Some 3) (Some {[ "2024-01-01" := 3 ]}) "t0")
                  {[ "2024-01-01" := 3 ]} eq_refl eq_refl
                  ltac:(intros k v; rewrite lookup_singleton_Some;
                        intros [_ <-]; lia)
                  ltac:(lia)
                  ltac:(vm_compute; discriminate))).
Defined.

(** ** Several additions *)

Lemma amount_total_perm l l' : l ≡ₚ l' -> amount_total l = amount_total l'.
Proof.
  unfold amount_total.
  induction 1 as [| p l l' _ IH | p q l | l1 l2 l3 _ IH1 _ IH2]; cbn;
    [done | by rewrite IH | lia | congruence].
Qed.

Lemma amount_on_perm k l l' : l ≡ₚ l' -> amount_on k l = amount_on k l'.
Proof.
  unfold amount_on.
  induction 1 as [| p l l' _ IH | p q l | l1 l2 l3 _ IH1 _ IH2]; cbn;
    [done | by rewrite IH | | congruence].
  repeat case_decide; lia.
Qed.

Lemma amount_total_nonneg l :
  Forall (fun p => 0 <= snd p) l -> 0 <= amount_total l.
Proof. unfold amount_total. induction 1; cbn; lia. Qed.

Lemma additions_exact_perm u l l' :
  l ≡ₚ l' -> additions_exact u l -> additions_exact u l'.
Proof.
  intros Hp (H1 & H2 & H3 & H4 & H5). unfold additions_exact.
  rewrite <- (amount_total_perm _ _ Hp), <- Hp. auto.
Qed.

Lemma record_or_insert d uid w fresh :
  record_or (set_users (<[uid := w]> (users d)) d) uid fresh = w.
Proof. unfold record_or. cbn. by rewrite lookup_insert_eq. Qed.

Lemma days_or_empty_mk nm t ds ts :
  days_or_empty (mkUser nm t (Some ds) ts) = ds.
Proof. reflexivity. Qed.

(** One exact addition, spelled out. *)
Lemma addStairs_exact ts uid un a k d :
  let u := record_or d uid (mkUser (or_str un unnamed) (Some 0) (Some ∅) ts) in
  additions_exact u [(k, a)] ->
  addStairs ts uid un a k d
  = set_users
      (<[uid := mkUser (name u) (Some (or0 (total u) + a))
                  (Some (<[k := or0 (days_or_empty u !! k) + a]>
                           (days_or_empty u))) ts]> (users d)) d.
Proof.
  cbv zeta. intros (Hnn & Ht & Ha & Hle1 & Hle2).
  apply Forall_cons in Ha as [Ha _]. cbn in Ha, Hle1, Hle2.
  unfold amount_total in Hle1, Hle2. cbn in Hle1, Hle2.
  pose proof (nonneg_or0 _ k Hnn). pose proof (exact_sum_lookup_le _ k Hnn).
  unfold addStairs. cbv zeta. by rewrite !jsadd_exact by lia.
Qed.

Lemma additions_exact_step ts uid un a k l d :
  let fresh := mkUser (or_str un unnamed) (Some 0) (Some ∅) ts in
  additions_exact (record_or d uid fresh) ((k, a) :: l) ->
  additions_exact (record_or d uid fresh) [(k, a)]
  /\ additions_exact (record_or (addStairs ts uid un a k d) uid fresh) l.
Proof.
  cbv zeta. intros (Hnn & Ht & Ha & Hle1 & Hle2).
  apply Forall_cons in Ha as [Ha Hl]. cbn in Ha.
  pose proof (amount_total_nonneg l Hl) as Hl0.
  change (amount_total ((k, a) :: l)) with (a + amount_total l) in Hle1, Hle2.
  assert (additions_exact
            (record_or d uid (mkUser (or_str un unnamed) (Some 0) (Some ∅) ts))
            [(k, a)]) as H1.
  { unfold additions_exact. change (amount_total [(k, a)]) with (a + 0).
    repeat split; try done; try lia. by repeat constructor. }
  split; [done |].
  rewrite (addStairs_exact ts uid un a k d H1), record_or_insert.
  unfold additions_exact. rewrite days_or_empty_mk. cbn [total].
  pose proof (nonneg_or0 _ k Hnn).
  rewrite or0_Some, exact_sum_insert.
  repeat split; try done; try lia. apply nonneg_insert; [done | lia].
Qed.

(** Two exact additions can be made in either order. *)
Lemma addStairs_comm ts uid un a1 k1 a2 k2 d :
  additions_exact
    (record_or d uid (mkUser (or_str un unnamed) (Some 0) (Some ∅) ts))
    [(k2, a2); (k1, a1)] ->
  addStairs ts uid un a1 k1 (addStairs ts uid un a2 k2 d)
  = addStairs ts uid un a2 k2 (addStairs ts uid un a1 k1 d).
Proof.
  intros H.
  assert (forall a k a' k',
    additions_exact
      (record_or d uid (mkUser (or_str un unnamed) (Some 0) (Some ∅) ts))
      [(k', a'); (k, a)] ->
    addStairs ts uid un a k (addStairs ts uid un a' k' d)
    = let u := record_or d uid
                 (mkUser (or_str un unnamed) (Some 0) (Some ∅) ts) in
      let ds := days_or_empty u in
      let ds' := <[k' := or0 (ds !! k') + a']> ds in
      set_users
        (<[uid := mkUser (name u) (Some (or0 (total u) + a' + a))
                    (Some (<[k := or0 (ds' !! k) + a]> ds')) ts]> (users d)) d)
    as Htwice.
  { intros a k a' k' Hex.
    destruct (additions_exact_step ts uid un a' k' [(k, a)] d Hex) as [H1 H2].
    rewrite (addStairs_exact ts uid un a k _ H2).
    rewrite (addStairs_exact ts uid un a' k' d H1), !record_or_insert.
    cbv zeta. rewrite days_or_empty_mk. cbn [name total].
    rewrite or0_Some. unfold set_users.
    cbn [users createdAt db_updatedAt version].
    by rewrite insert_insert_eq. }
  rewrite (Htwice a1 k1 a2 k2 H).
  rewrite (Htwice a2 k2 a1 k1
             (additions_exact_perm _ _ _ (perm_swap _ _ _) H)).
  cbv zeta.
  set (u := record_or _ _ _). set (ds := days_or_empty u).
  unfold set_users. f_equal. f_equal. f_equal; [f_equal; lia |]. f_equal.
  destruct (decide (k1 = k2)) as [-> | Hne].
  - rewrite !lookup_insert_eq, !or0_Some, !insert_insert_eq. f_equal. lia.
  - rewrite !lookup_insert_ne by done. by apply insert_insert_ne.
Qed.

Lemma add_all_cons ts uid un p l d :
  add_all ts uid un (p :: l) d
  = add_all ts uid un l (addStairs ts uid un (snd p) (fst p) d).
Proof. reflexivity. Qed.

Lemma add_all_perm ts uid un l l' :
  l ≡ₚ l' ->
  forall d,
    additions_exact
      (record_or d uid (mkUser (or_str un unnamed) (Some 0) (Some ∅) ts)) l ->
    add_all ts uid un l d = add_all ts uid un l' d.
Proof.
  induction 1 as [| [k a] l l' Hp IH | [k1 a1] [k2 a2] l | l1 l2 l3 H1 IH1 H2 IH2];
    intros d Hex.
  - done.
  - rewrite !add_all_cons. apply IH.
    by apply (additions_exact_step ts uid un a k l d).
  - rewrite !add_all_cons. cbn [fst snd]. f_equal.
    apply addStairs_comm.
    destruct Hex as (Hnn & Ht & Ha & Hle1 & Hle2).
    apply Forall_cons in Ha as [Ha2 Ha]. apply Forall_cons in Ha as [Ha1 Hl].
    pose proof (amount_total_nonneg l Hl).
    change (amount_total ((k2, a2) :: (k1, a1) :: l))
      with (a2 + (a1 + amount_total l)) in Hle1, Hle2.
    unfold additions_exact.
    change (amount_total [(k2, a2); (k1, a1)]) with (a2 + (a1 + 0)).
    cbn in Ha1, Ha2.
    repeat split; try done; try lia. by repeat constructor.
  - rewrite (IH1 d Hex). apply IH2. by eapply additions_exact_perm.
Qed.

Lemma add_all_sums ts uid un l : forall d,
  let fresh := mkUser (or_str un unnamed) (Some 0) (Some ∅) ts in
  additions_exact (record_or d uid fresh) l ->
  or0 (total (record_or (add_all ts uid un l d) uid fresh))
  = or0 (total (record_or d uid fresh)) + amount_total l
  /\ forall k,
       or0 (days_or_empty (record_or (add_all ts uid un l d) uid fresh) !! k)
       = or0 (days_or_empty (record_or d uid fresh) !! k) + amount_on k l.
Proof.
  cbv zeta. induction l as [|[k' a] l IH]; intros d Hex.
  - cbn. split; [lia | intros; lia].
  - rewrite add_all_cons. cbn [fst snd].
    destruct (additions_exact_step ts uid un a k' l d Hex) as [H1 H2].
    destruct (IH (addStairs ts uid un a k' d) H2) as [IHt IHd].
    rewrite IHt. setoid_rewrite IHd.
    rewrite (addStairs_exact ts uid un a k' d H1), record_or_insert.
    rewrite days_or_empty_mk. cbn [total]. rewrite or0_Some. split.
    + cbn [amount_total foldr snd]. unfold amount_total. cbn [foldr snd]. lia.
    + intros k. unfold amount_on. cbn [foldr fst snd].
      destruct (decide (k' = k)) as [-> | Hne].
      * rewrite lookup_insert_eq, or0_Some. unfold amount_on. lia.
      * rewrite lookup_insert_ne by done. unfold amount_on. lia.
Qed.

(** X12: a series of [addStairs] calls for one user in which no addition
    rounds (no amount, total or day is negative, and the total and the sum
    of the days end at or below 2^53) gives the same ledger in whatever
    order the calls are made; after it the total has grown by the sum of
    all amounts and each day by the sum of the amounts given for that
    day. *)
Theorem X12_additions_in_any_order
    (ts uid : string) (un : option string) (l l' : list (string * Z))
    (d : database) :
  additions_exact
    (record_or d uid (mkUser (or_str un unnamed) (Some 0) (Some ∅) ts)) l ->
  l ≡ₚ l' ->
  add_all ts uid un l d = add_all ts uid un l' d
  /\ (let fresh := mkUser (or_str un unnamed) (Some 0) (Some ∅) ts in
      or0 (total (record_or (add_all ts uid un l d) uid fresh))
      = or0 (total (record_or d uid fresh)) + amount_total l
      /\ forall k,
           or0 (days_or_empty (record_or (add_all ts uid un l d) uid fresh) !! k)
           = or0 (days_or_empty (record_or d uid fresh) !! k) + amount_on k l).
Proof.
  intros Hex Hp. split; [by apply add_all_perm | by apply add_all_sums].
Qed.

Lemma X12_additions_in_any_order_witness :
  add_all "t1" "7" None [("2024-05-01", 5); ("2024-05-02", 7)] forty
  = add_all "t1" "7" None [("2024-05-02", 7); ("2024-05-01", 5)] forty.
Proof.
  assert (additions_exact
            (record_or forty "7"
               (mkUser (or_str None unnamed) (Some 0) (Some ∅) "t1"))
            [("2024-05-01", 5); ("2024-05-02", 7)]) as Hex.
  { change (record_or forty "7" _)
      with (mkUser "X" (Some 40) (Some {[ "2024-05-01" := 40 ]}) "t0").
    unfold additions_exact. rewrite days_or_empty_mk, exact_sum_singleton.
    split; [intros k v; rewrite lookup_singleton_Some; intros [_ <-]; lia |].
    split; [vm_compute; discriminate |].
    split; [repeat constructor; vm_compute; discriminate |].
    split; vm_compute; discriminate. }
  exact (proj1 (X12_additions_in_any_order "t1" "7" None
                  [("2024-05-01", 5); ("2024-05-02", 7)]
                  [("2024-05-02", 7); ("2024-05-01", 5)] forty
                  Hex (perm_swap _ _ _))).
Defined.

(** Above 2^53 the order of the additions matters: 9007199254740992, 1, 1
    on one day gives 9007199254740992, and 1, 1, 9007199254740992 gives
    9007199254740994. *)
Example additions_order_matters :
  add_all "t1" "7" None
    [("d", 9007199254740992); ("d", 1); ("d", 1)] (Store.seed "t0")
  <> add_all "t1" "7" None
       [("d", 1); ("d", 1); ("d", 9007199254740992)] (Store.seed "t0").
Proof.
  intros H. apply (f_equal (fun d => total <$> users d !! "7")) in H.
  vm_compute in H. discriminate.
Qed.

(** ** The awaited number *)

(** X13: when a number is awaited from a user whose name is not awaited,
    the next text of that user that is no command uses the waiting up,
    whether the text is a valid number or not; a command leaves it in
    place and is handed on. *)
Theorem X13_awaited_number_is_used_once
    (Number : string -> jsnum) (c : clock) (uid : string)
    (un : option string) (text : string) (md : mode) (st : bot) :
  uid ∉ awaitingName st ->
  pendingNumber st !! uid = Some md ->
  (startsWith_slash (trim text) = false ->
     exists r, on_text Number c uid un text st = Some r
               /\ pendingNumber (fst r) !! uid = None
               /\ forall j, j <> uid ->
                    pendingNumber (fst r) !! j = pendingNumber st !! j)
  /\ (startsWith_slash (trim text) = true ->
        on_text Number c uid un text st = None).
Proof.
  intros Hnin Hp. unfold on_text. rewrite decide_False by done. rewrite Hp.
  split; intros ->; [| done].
  eexists. split; [reflexivity |]. unfold on_number.
  destruct (Number (trim text)) as [z|];
    [destruct (z <=? 0); [| cbv zeta; destruct md; [| destruct (_ <? z)]] |];
    cbn; (split; [apply lookup_delete_eq | intros j Hj; by apply lookup_delete_ne]).
Qed.

Lemma X13_awaited_number_is_used_once_witness :
  exists r,
    on_text Number_decimal c1 "7" None "abc"
      (mkBot forty ∅ {[ "7" := ModeAdd ]}) = Some r
    /\ pendingNumber (fst r) !! "7" = None
    /\ forall j, j <> "7" ->
         pendingNumber (fst r) !! j
         = pendingNumber (mkBot forty ∅ {[ "7" := ModeAdd ]}) !! j.
Proof.
  apply (proj1 (X13_awaited_number_is_used_once Number_decimal c1 "7" None
                  "abc" ModeAdd (mkBot forty ∅ {[ "7" := ModeAdd ]})
                  ltac:(apply not_elem_of_empty) eq_refl)).
  reflexivity.
Defined.

(** ** Loading *)








Import Calendar.

(** ** [formatDM] and [parseUserDate] *)

Lemma digit_char_cases (P : ascii -> Prop) :
  P "0"%char -> P "1"%char -> P "2"%char -> P "3"%char -> P "4"%char ->
  P "5"%char -> P "6"%char -> P "7"%char -> P "8"%char -> P "9"%char ->
  forall x, P (digit_char x).
Proof.
  intros H0 H1 H2 H3 H4 H5 H6 H7 H8 H9 x. unfold digit_char.
  pose proof (Z.mod_pos_bound x 10 ltac:(lia)) as Hr.
  assert (Z.to_nat (x mod 10) < 10)%nat as Hlt by lia.
  destruct (Z.to_nat (x mod 10)) as [|[|[|[|[|[|[|[|[|[|r]]]]]]]]]]; try done.
  lia.
Qed.

Lemma digit_char_is_digit x : is_digit (digit_char x) = true.
Proof. apply digit_char_cases; reflexivity. Qed.

Lemma digit_char_not_dash x : digit_char x <> "-"%char.
Proof. apply digit_char_cases; discriminate. Qed.

Lemma digit_val_char x : digit_val (digit_char x) = x mod 10.
Proof.
  unfold digit_char, digit_val.
  pose proof (Z.mod_pos_bound x 10 ltac:(lia)) as Hr.
  rewrite nat_ascii_embedding by lia. lia.
Qed.

Lemma Number2_pad n :
  0 <= n <= 99 -> Number2 (digit_char (n / 10)) (digit_char n) = n.
Proof.
  intros Hn. unfold Number2. rewrite !digit_val_char.
  Z.div_mod_to_equations. lia.
Qed.

Lemma split_on_key y m0 d :
  split_on "-" (toISOString_slice10 (y, m0, d))
  = [pad4 y; pad2 (m0 + 1); pad2 d].
Proof.
  rewrite key_spelled. cbn [split_on].
  repeat first [ rewrite (decide_False (P := digit_char _ = "-"%char))
                   by apply digit_char_not_dash
               | rewrite (decide_True (P := "-"%char = "-"%char)) by done ].
  reflexivity.
Qed.

Lemma formatDM_key y m0 d :
  formatDM (toISOString_slice10 (y, m0, d))
  = String (digit_char (d / 10)) (String (digit_char d)
      (String "." (String (digit_char ((m0 + 1) / 10))
        (String (digit_char (m0 + 1)) "")))).
Proof. unfold formatDM. rewrite split_on_key. reflexivity. Qed.

(** X17: [formatDM] and [parseUserDate] undo each other within the current
    year (a year from 100 to 9999): the [DD.MM] form of the key of a day of
    the current year parses back to that key, and the key that
    [parseUserDate] gives for a text [DD.MM] naming a day of the current
    year prints back as that text. *)
Theorem X17_formatDM_and_parse_undo_each_other (c : clock) :
  100 <= fullYear c <= 9999 ->
  (forall m0 d,
     valid_date (fullYear c, m0, d) ->
     parseUserDate c (formatDM (toISOString_slice10 (fullYear c, m0, d)))
     = Some (toISOString_slice10 (fullYear c, m0, d)))
  /\ (forall d1 d2 m1 m2 iso,
        is_digit d1 = true -> is_digit d2 = true ->
        is_digit m1 = true -> is_digit m2 = true ->
        1 <= Number2 m1 m2 <= 12 ->
        1 <= Number2 d1 d2 <= days_in_month (fullYear c) (Number2 m1 m2 - 1) ->
        parseUserDate c
          (String d1 (String d2 (String "." (String m1 (String m2 "")))))
        = Some iso ->
        formatDM iso
        = String d1 (String d2 (String "." (String m1 (String m2 ""))))).
Proof.
  intros Hy. split.
  - intros m0 d [Hm Hd]. pose proof (days_in_month_bounds (fullYear c) m0).
    rewrite formatDM_key, parseUserDate_DM by apply digit_char_is_digit.
    rewrite !Number2_pad by lia.
    rewrite Date_UTC_in_month; try lia.
    + by replace (m0 + 1 - 1) with m0 by lia.
    + by replace (m0 + 1 - 1) with m0 by lia.
  - intros d1 d2 m1 m2 iso Hd1 Hd2 Hm1 Hm2 Hm Hd.
    rewrite parseUserDate_DM by assumption.
    rewrite Date_UTC_in_month by lia. intros E.
    assert (iso = toISOString_slice10
                    (fullYear c, Number2 m1 m2 - 1, Number2 d1 d2)) as ->
      by congruence.
    rewrite formatDM_key.
    replace (Number2 m1 m2 - 1 + 1) with (Number2 m1 m2) by lia.
    pose proof (pad2_Number2 d1 d2 Hd1 Hd2) as Hpd.
    pose proof (pad2_Number2 m1 m2 Hm1 Hm2) as Hpm.
    unfold pad2 in Hpd, Hpm. injection Hpd as -> ->. injection Hpm as -> ->.
    reflexivity.
Qed.

Lemma X17_formatDM_and_parse_undo_each_other_witness :
  parseUserDate (mkClock "2024-06-01T10:00:00.000Z" 2024)
    (formatDM (toISOString_slice10 (2024, 1, 29)))
  = Some (toISOString_slice10 (2024, 1, 29))
  /\ formatDM "2024-02-29" = "29.02".
Proof.
  split; [| reflexivity].
  apply (proj1 (X17_formatDM_and_parse_undo_each_other
                  (mkClock "2024-06-01T10:00:00.000Z" 2024)
                  ltac:(cbn; lia))).
  vm_compute. repeat split; discriminate.
Defined.

Example formatDM_short : formatDM "2024" = "undefined.undefined".
Proof. reflexivity. Qed.
